(** * Keycloak user service: token middleware, profile synchronizer and
      CRUD handlers

    A shallow embedding of the backend of the service:

    - [middleware/keycloak.js]  ([validateKeycloakToken],
      [handleVerificationError], [attachUserInfo]),
    - [models/user.js]          ([userSchema]),
    - [service/userService.js]  ([syncUserFromKeycloak], [getUserById],
      [getAllUsers], [updateUserProfile], [deleteUser]),
    - [validator/userValidator.js] ([validateUpdateUser]),
    - [controller/userController.js] and [routes/userRoutes.js].

    JavaScript values are a small JSON-like datatype; stored documents are
    finite maps from field names to values, as they are in the document
    store; the third-party libraries the code calls ([jsonwebtoken],
    [express-validator], [mongoose]) appear either as section variables or
    as executable models of their documented behaviour. *)

From Stdlib Require Import ZArith String Ascii List Bool Lia Sorted
  Permutation.
From stdpp Require Import base option gmap strings list fin_maps pretty.

Set Warnings "-register-all".
Local Open Scope string_scope.

(* ===================================================================== *)
(** ** JavaScript strings *)
(* ===================================================================== *)

(** Strings are sequences of code units below 256 (what Node gives for a
    header value).  [isWhiteSpace] lists the code units that
    [String.prototype.trim] removes in that range. *)
Definition isWhiteSpace (c : ascii) : bool :=
  let n := nat_of_ascii c in
  (Nat.eqb n 9 || Nat.eqb n 10 || Nat.eqb n 11 || Nat.eqb n 12
   || Nat.eqb n 13 || Nat.eqb n 32 || Nat.eqb n 160)%bool.

Definition isEmpty (s : string) : bool :=
  match s with EmptyString => true | String _ _ => false end.

Fixpoint trimStart (s : string) : string :=
  match s with
  | EmptyString => EmptyString
  | String c r => if isWhiteSpace c then trimStart r else s
  end.

Fixpoint trimEnd (s : string) : string :=
  match s with
  | EmptyString => EmptyString
  | String c r =>
      let r' := trimEnd r in
      if (isWhiteSpace c && isEmpty r')%bool then EmptyString else String c r'
  end.

Definition trim (s : string) : string := trimEnd (trimStart s).

(** [s.startsWith(p)] *)
Definition startsWith (s p : string) : bool := String.prefix p s.

(** [s.includes(sub)] *)
Fixpoint includes (s sub : string) : bool :=
  (String.prefix sub s
   || match s with
      | EmptyString => false
      | String _ r => includes r sub
      end)%bool.

(** [s.split(sep)] for a one-character separator. *)
Fixpoint split (sep : ascii) (s : string) : list string :=
  match s with
  | EmptyString => [EmptyString]
  | String c r =>
      if Ascii.eqb c sep then EmptyString :: split sep r
      else match split sep r with
           | [] => [String c EmptyString]
           | p :: ps => String c p :: ps
           end
  end.

(** [s.toLowerCase()] on the letters A-Z. *)
Definition lowerChar (c : ascii) : ascii :=
  let n := nat_of_ascii c in
  if (Nat.leb 65 n && Nat.leb n 90)%bool then ascii_of_nat (n + 32) else c.

Fixpoint toLowerCase (s : string) : string :=
  match s with
  | EmptyString => EmptyString
  | String c r => String (lowerChar c) (toLowerCase r)
  end.

(** *** [parseInt] *)

Definition digitValue (c : ascii) : option Z :=
  let n := nat_of_ascii c in
  if (Nat.leb 48 n && Nat.leb n 57)%bool then Some (Z.of_nat (n - 48))
  else if (Nat.leb 97 n && Nat.leb n 102)%bool then Some (Z.of_nat (n - 87))
  else if (Nat.leb 65 n && Nat.leb n 70)%bool then Some (Z.of_nat (n - 55))
  else None.

(** Longest prefix of digits in the given radix, accumulated left to
    right; [None] when there is no digit at all. *)
Fixpoint parseDigits (radix : Z) (s : string) (acc : option Z) : option Z :=
  match s with
  | EmptyString => acc
  | String c r =>
      match digitValue c with
      | Some d =>
          if (d <? radix)%Z
          then parseDigits radix r (Some (default 0%Z acc * radix + d)%Z)
          else acc
      | None => acc
      end
  end.

Definition parseUnsigned (s : string) : option Z :=
  match s with
  | String "0" (String "x" r) => parseDigits 16 r None
  | String "0" (String "X" r) => parseDigits 16 r None
  | _ => parseDigits 10 s None
  end.

(** [parseInt(s)]: leading white space is skipped, then an optional sign,
    then an optional [0x] prefix, then digits; [None] stands for [NaN]. *)
Definition parseInt (s : string) : option Z :=
  match trimStart s with
  | String "-" r => Z.opp <$> parseUnsigned r
  | String "+" r => parseUnsigned r
  | r => parseUnsigned r
  end.

(** [parseInt(x) || d] where [x] may be [undefined]: [NaN] and [0] are
    falsy. *)
Definition parseIntOr (x : option string) (d : Z) : Z :=
  match x ≫= parseInt with
  | Some n => if (n =? 0)%Z then d else n
  | None => d
  end.

(* ===================================================================== *)
(** ** JavaScript values *)
(* ===================================================================== *)

(** JSON-like values.  Numbers are integers; a [Date] is represented by
    its epoch milliseconds, a number; an object is its list of own
    properties in insertion order. *)
Inductive JsValue : Type :=
| JUndefined
| JNull
| JBool (b : bool)
| JNum (n : Z)
| JStr (s : string)
| JArr (items : list JsValue)
| JObj (props : list (string * JsValue)).

Definition truthy (v : JsValue) : bool :=
  match v with
  | JUndefined | JNull => false
  | JBool b => b
  | JNum n => negb (n =? 0)%Z
  | JStr s => negb (isEmpty s)
  | JArr _ | JObj _ => true
  end.

(** [a || b] *)
Definition js_or (a b : JsValue) : JsValue := if truthy a then a else b.

Fixpoint assoc (k : string) (props : list (string * JsValue)) : option JsValue :=
  match props with
  | [] => None
  | (k', v) :: rest => if String.eqb k k' then Some v else assoc k rest
  end.

(** [o.k] and [o?.k] on a value that came out of a JSON payload: an own
    property of an object, [undefined] otherwise. *)
Definition js_get (o : JsValue) (k : string) : JsValue :=
  match o with
  | JObj props => default JUndefined (assoc k props)
  | _ => JUndefined
  end.

(** The one-character string holding a double quote. *)
Definition dquote : string := String (ascii_of_nat 34) EmptyString.

(** A template literal renders an unset variable as the text
    [undefined]. *)
Definition tmpl (x : option string) : string := default "undefined" x.

(* ===================================================================== *)
(** ** HTTP requests and responses *)
(* ===================================================================== *)

Record Env : Type := mkEnv {
  KEYCLOAK_URL : option string;
  KEYCLOAK_REALM : option string;
  KEYCLOAK_CLIENT_ID : option string;
  JWT_ALGORITHM : option string
}.

(** [req.user] as [attachUserInfo] builds it. *)
Record UserInfo : Type := mkUserInfo {
  ui_keycloakId : JsValue;
  ui_email : JsValue;
  ui_username : JsValue;
  ui_firstName : JsValue;
  ui_lastName : JsValue;
  ui_emailVerified : JsValue;
  ui_roles : JsValue;
  ui_clientRoles : JsValue;
  ui_token : JsValue
}.

Record Request : Type := mkRequest {
  authorization : option string;          (* req.headers.authorization *)
  params_id : string;                     (* req.params.id *)
  query : gmap string string;             (* req.query *)
  body : list (string * JsValue);         (* req.body *)
  user : option UserInfo                  (* req.user *)
}.

Record Response : Type := mkResponse {
  status : Z;
  json : JsValue
}.

Definition set_user (u : UserInfo) (req : Request) : Request :=
  {| authorization := authorization req; params_id := params_id req;
     query := query req; body := body req; user := Some u |}.

Definition set_body (b : list (string * JsValue)) (req : Request) : Request :=
  {| authorization := authorization req; params_id := params_id req;
     query := query req; body := b; user := user req |}.

(** What a middleware does: answer, or call [next()] with the request as
    it left it. *)
Inductive MiddlewareResult : Type :=
| Respond (res : Response)
| Next (req : Request).

Definition failure (code : Z) (msg : string) : Response :=
  {| status := code;
     json := JObj [("success", JBool false); ("message", JStr msg)] |}.

(* ===================================================================== *)
(** ** middleware/keycloak.js *)
(* ===================================================================== *)

Record JwtError : Type := mkJwtError {
  err_name : string;
  err_message : string
}.

Record VerifyOptions : Type := mkVerifyOptions {
  algorithms : list string;
  issuer : string;
  audience : option string
}.

(** Outcome of [jwt.verify(token, getKey, options, callback)]: the
    callback receives an error or the decoded payload; [VerifyThrows] is a
    synchronous exception (the key callback throwing). *)
Inductive VerifyResult : Type :=
| VerifyThrows
| VerifyError (err : JwtError)
| VerifyOk (decoded : JsValue).

Definition handleVerificationError (err : JwtError) : Response :=
  let errorResponse :=
    if String.eqb (err_name err) "TokenExpiredError" then
      JObj [("success", JBool false); ("message", JStr "Token has expired");
            ("error", JStr "TOKEN_EXPIRED")]
    else if String.eqb (err_name err) "JsonWebTokenError" then
      JObj [("success", JBool false); ("message", JStr "Invalid token");
            ("error", JStr "INVALID_TOKEN")]
    else if String.eqb (err_name err) "TokenNotBeforeError" then
      JObj [("success", JBool false); ("message", JStr "Token not yet valid");
            ("error", JStr "TOKEN_NOT_YET_VALID")]
    else
      JObj [("success", JBool false);
            ("message", JStr "Token verification failed");
            ("error", JStr (err_name err))] in
  {| status := 401; json := errorResponse |}.

Definition userInfoOf (decoded : JsValue) (expectedAudience : option string)
  : UserInfo :=
  {| ui_keycloakId := js_get decoded "sub";
     ui_email := js_get decoded "email";
     ui_username :=
       js_or (js_get decoded "preferred_username") (js_get decoded "username");
     ui_firstName := js_get decoded "given_name";
     ui_lastName := js_get decoded "family_name";
     ui_emailVerified := js_get decoded "email_verified";
     ui_roles := js_or (js_get (js_get decoded "realm_access") "roles") (JArr []);
     ui_clientRoles :=
       js_or (js_get (js_get (js_get decoded "resource_access")
                             (tmpl expectedAudience)) "roles") (JArr []);
     ui_token := decoded |}.

Definition attachUserInfo (decoded : JsValue) (expectedAudience : option string)
    (req : Request) : MiddlewareResult :=
  Next (set_user (userInfoOf decoded expectedAudience) req).

(** [expectedAudience] is used as a condition: unset and empty are
    falsy. *)
Definition configured (x : option string) : option string :=
  match x with
  | Some s => if isEmpty s then None else Some s
  | None => None
  end.

(** The issuer URL and the signing algorithm the middleware builds from
    the environment. *)
Definition issuerOf (env : Env) : string :=
  tmpl (KEYCLOAK_URL env) +:+ "/realms/" +:+ tmpl (KEYCLOAK_REALM env).

Definition algorithmOf (env : Env) : string :=
  default "RS256" (configured (JWT_ALGORITHM env)).

(** [verifyOptions] of the first attempt, and the options of the retry. *)
Definition verifyOptionsOf (env : Env) : VerifyOptions :=
  {| algorithms := [algorithmOf env]; issuer := issuerOf env;
     audience := configured (KEYCLOAK_CLIENT_ID env) |}.

Definition retryOptionsOf (env : Env) : VerifyOptions :=
  {| algorithms := [algorithmOf env]; issuer := issuerOf env;
     audience := None |}.

Section Middleware.

(** [jwt.verify] of the [jsonwebtoken] package together with the key
    resolver [getKey] handed to it. *)
Variable jwt_verify : string -> VerifyOptions -> VerifyResult.

(** The test [!issuer] of the source is left out: the template always
    yields a text with [/realms/] in it.  The [try ... catch] around the
    body answers 500 for a synchronous exception of the verifier. *)
Definition validateKeycloakToken (env : Env) (req : Request)
  : MiddlewareResult :=
  match authorization req with
  | None => Respond (failure 401 "No authorization header provided")
  | Some authHeader =>
    if isEmpty authHeader then
      Respond (failure 401 "No authorization header provided")
    else if negb (startsWith authHeader "Bearer ") then
      Respond (failure 401
        ("Authorization header must start with " +:+ dquote +:+ "Bearer "
         +:+ dquote))
    else
      let parts := split " " authHeader in
      if negb (Nat.eqb (length parts) 2) then
        Respond (failure 401
          "Invalid authorization header format. Expected: Bearer <token>")
      else
        let token := trim (nth 1 parts "") in
        if isEmpty token then Respond (failure 401 "Token is empty")
        else
          let expectedAudience := KEYCLOAK_CLIENT_ID env in
          if includes (issuerOf env) "undefined" then
            Respond (failure 500
              "Server configuration error: KEYCLOAK_URL and KEYCLOAK_REALM must be set")
          else
            match jwt_verify token (verifyOptionsOf env) with
            | VerifyThrows =>
                Respond (failure 500
                  "Internal server error during token validation")
            | VerifyError err =>
                if (negb (isEmpty (err_message err))
                    && includes (err_message err) "audience"
                    && bool_decide (is_Some (configured expectedAudience)))%bool
                then
                  match jwt_verify token (retryOptionsOf env) with
                  | VerifyThrows =>
                      Respond (failure 500
                        "Internal server error during token validation")
                  | VerifyError retryErr =>
                      Respond (handleVerificationError retryErr)
                  | VerifyOk retryDecoded =>
                      attachUserInfo retryDecoded expectedAudience req
                  end
                else Respond (handleVerificationError err)
            | VerifyOk decoded =>
                attachUserInfo decoded expectedAudience req
            end
  end.

End Middleware.

(* ===================================================================== *)
(** ** models/user.js: the schema and the document store *)
(* ===================================================================== *)

(** A stored document maps field names to values; the collection is the
    list of documents in natural order. *)
Abbreviation Document := (gmap string JsValue).
Abbreviation Store := (list (gmap string JsValue)).

Inductive SchemaType : Type :=
| TString (lowercase trimmed : bool)
| TBoolean
| TDate
| TMap.

(** The paths of [userSchema], in declaration order. *)
Definition userSchema : list (string * SchemaType) :=
  [ ("keycloakId", TString false false);
    ("email", TString true true);
    ("username", TString false true);
    ("firstName", TString false true);
    ("lastName", TString false true);
    ("enabled", TBoolean);
    ("emailVerified", TBoolean);
    ("profilePicture", TString false false);
    ("phoneNumber", TString false false);
    ("lastLogin", TDate);
    ("preferences", TMap) ].

(** The [default:] entries of [userSchema]. *)
Definition schemaDefaults : list (string * JsValue) :=
  [ ("enabled", JBool true);
    ("emailVerified", JBool false);
    ("preferences", JObj []) ].

(** The setters a [String] path declares. *)
Definition applySetters (lowercase trimmed : bool) (s : string) : string :=
  let s1 := if lowercase then toLowerCase s else s in
  if trimmed then trim s1 else s1.

(** A key of a [Map] path may not contain a dot nor start with a dollar
    sign. *)
Definition validMapKey (k : string) : bool :=
  (negb (includes k ".") && negb (startsWith k "$"))%bool.

(** Casting of a value to the type of its path; [None] is a [CastError].
    [null] is stored as it is.  The only [Date] path, [lastLogin], is
    only ever given a date by this service. *)
Definition castValue (ty : SchemaType) (v : JsValue) : option JsValue :=
  match v with
  | JNull => Some JNull
  | _ =>
    match ty with
    | TString lc tr =>
        match v with
        | JStr s => Some (JStr (applySetters lc tr s))
        | JNum n => Some (JStr (applySetters lc tr (pretty n)))
        | JBool b => Some (JStr (applySetters lc tr (if b then "true" else "false")))
        | _ => None
        end
    | TBoolean =>
        match v with
        | JBool b => Some (JBool b)
        | JNum n => if (n =? 1)%Z then Some (JBool true)
                    else if (n =? 0)%Z then Some (JBool false) else None
        | JStr s =>
            if (String.eqb s "true" || String.eqb s "1" || String.eqb s "yes")%bool
            then Some (JBool true)
            else if (String.eqb s "false" || String.eqb s "0" || String.eqb s "no")%bool
            then Some (JBool false) else None
        | _ => None
        end
    | TDate =>
        match v with
        | JNum n => Some (JNum n)
        | _ => None
        end
    | TMap =>
        match v with
        | JObj props =>
            if forallb (fun kv => validMapKey (fst kv)) props
            then Some (JObj props) else None
        | _ => None
        end
    end
  end.

(** Casting of the operand of [$set] against the schema: paths the schema
    does not declare and [undefined] values are dropped, every other
    value is cast. *)
Fixpoint castUpdate (schema : list (string * SchemaType))
    (upd : gmap string JsValue) : option (gmap string JsValue) :=
  match schema with
  | [] => Some ∅
  | (path, ty) :: rest =>
      match castUpdate rest upd with
      | None => None
      | Some acc =>
          match upd !! path with
          | None | Some JUndefined => Some acc
          | Some v =>
              match castValue ty v with
              | Some v' => Some (<[path := v']> acc)
              | None => None
              end
          end
      end
  end.

(** The filter [{ keycloakId: q }] after casting: a string, or [null] for
    a missing value, which matches an absent field too. *)
Definition castFilter (q : JsValue) : option JsValue :=
  match q with
  | JUndefined => Some JNull
  | _ => castValue (TString false false) q
  end.

Definition fieldMatches (k : string) (q : JsValue) (d : gmap string JsValue)
  : bool :=
  match q, d !! k with
  | JStr s, Some (JStr s') => String.eqb s s'
  | JNull, None => true
  | JNull, Some JNull => true
  | _, _ => false
  end.

(** Position of the first document the predicate accepts. *)
Fixpoint findIndex (p : gmap string JsValue -> bool)
    (docs : list (gmap string JsValue)) : option nat :=
  match docs with
  | [] => None
  | d :: rest => if p d then Some 0 else S <$> findIndex p rest
  end.

(** The clock readings and the fresh identifier one service call
    consumes: [new Date()] in the service, the time the schema's
    [timestamps] option stamps, and the [_id] an insert would get. *)
Record Tick : Type := mkTick {
  date_now : Z;
  stamp_now : Z;
  fresh_id : string
}.

Inductive Result (A : Type) : Type :=
| Ok (a : A)
| Throw (message : string).
Arguments Ok {A} a.
Arguments Throw {A} message.

(** The update a [findOneAndUpdate] sends once the schema's [timestamps]
    option has added [updatedAt]. *)
Definition stampUpdate (t : Tick) (casted d : gmap string JsValue)
  : gmap string JsValue :=
  <["updatedAt" := JNum (stamp_now t)]> (casted ∪ d).

(** The document an upsert inserts: the equality field of the filter, the
    [$set] fields, the schema defaults for the paths still missing
    ([setDefaultsOnInsert]), both timestamps, [_id] and [__v]. *)
Definition insertedDocument (t : Tick) (k : string) (q : JsValue)
    (casted : gmap string JsValue) : gmap string JsValue :=
  <["_id" := JStr (fresh_id t)]>
  (<["__v" := JNum 0]>
  (<["createdAt" := JNum (stamp_now t)]>
  (<["updatedAt" := JNum (stamp_now t)]>
  (casted ∪ <[k := q]> (list_to_map schemaDefaults))))).

(** [User.findOneAndUpdate({ k: q }, { $set: upd }, { new: true, upsert })]:
    the returned document ([None] for JavaScript [null]) and the store
    afterwards, or the error thrown.  Casting comes before any write, so
    an error leaves the store as it was; the text of a cast error is
    abridged to [Cast failed]. *)
Definition findOneAndUpdate (t : Tick) (k : string) (q : JsValue)
    (upd : gmap string JsValue) (upsert : bool)
    (docs : list (gmap string JsValue))
  : Result (option (gmap string JsValue)) * list (gmap string JsValue) :=
  match castFilter q, castUpdate userSchema upd with
  | Some q', Some casted =>
      match findIndex (fieldMatches k q') docs with
      | Some i =>
          match docs !! i with
          | Some d =>
              let d' := stampUpdate t casted d in
              (Ok (Some d'), <[i := d']> docs)
          | None => (Ok None, docs)
          end
      | None =>
          if upsert then
            let d' := insertedDocument t k q' casted in
            (Ok (Some d'), (docs ++ [d'])%list)
          else (Ok None, docs)
      end
  | _, _ => (Throw "Cast failed", docs)
  end.

(* ===================================================================== *)
(** ** service/userService.js *)
(* ===================================================================== *)

(** [try { ... } catch (error) { throw new Error(prefix + error.message) }] *)
Definition rethrow {A : Type} (prefix : string) (r : Result A) : Result A :=
  match r with
  | Ok a => Ok a
  | Throw m => Throw (prefix +:+ m)
  end.

(** The argument of [syncUserFromKeycloak]. *)
Record UserData : Type := mkUserData {
  ud_keycloakId : JsValue;
  ud_email : JsValue;
  ud_username : JsValue;
  ud_firstName : JsValue;
  ud_lastName : JsValue;
  ud_emailVerified : JsValue;
  ud_enabled : JsValue
}.

(** [v !== false] *)
Definition notFalse (v : JsValue) : bool :=
  match v with JBool false => false | _ => true end.

(** The operand of [$set] in [syncUserFromKeycloak]. *)
Definition syncFields (t : Tick) (userData : UserData) : gmap string JsValue :=
  list_to_map
    [ ("email", ud_email userData);
      ("username", ud_username userData);
      ("firstName", ud_firstName userData);
      ("lastName", ud_lastName userData);
      ("enabled", JBool (notFalse (ud_enabled userData)));
      ("emailVerified", js_or (ud_emailVerified userData) (JBool false));
      ("lastLogin", JNum (date_now t)) ].

Definition syncUserFromKeycloak (t : Tick) (userData : UserData)
    (docs : list (gmap string JsValue))
  : Result (option (gmap string JsValue)) * list (gmap string JsValue) :=
  let '(r, docs') :=
    findOneAndUpdate t "keycloakId" (ud_keycloakId userData)
      (syncFields t userData) true docs in
  (rethrow "Failed to sync user: " r, docs').

Definition isHexDigit (c : ascii) : bool :=
  let n := nat_of_ascii c in
  ((Nat.leb 48 n && Nat.leb n 57) || (Nat.leb 97 n && Nat.leb n 102)
   || (Nat.leb 65 n && Nat.leb n 70))%bool.

(** [mongoose.Types.ObjectId.isValid] on a string: 24 hexadecimal
    digits. *)
Definition ObjectId_isValid (s : string) : bool :=
  (Nat.eqb (String.length s) 24
   && forallb isHexDigit (list_ascii_of_string s))%bool.

(** [User.findById(userId)]: an [_id] is kept as its lower-case
    hexadecimal text. *)
Definition findById (userId : string) (docs : list (gmap string JsValue))
  : option (gmap string JsValue) :=
  List.find (fieldMatches "_id" (JStr (toLowerCase userId))) docs.

Definition getUserById (userId : string) (docs : list (gmap string JsValue))
  : Result (gmap string JsValue) :=
  rethrow "Failed to get user: "
    (if negb (ObjectId_isValid userId) then Throw "Invalid user ID format"
     else match findById userId docs with
          | None => Throw "User not found"
          | Some user => Ok user
          end).

(** [createdAt] of a document, [None] when it has none. *)
Definition createdAtOf (d : gmap string JsValue) : option Z :=
  match d !! "createdAt" with
  | Some (JNum t) => Some t
  | _ => None
  end.

(** [a] goes before [b] under [sort({ createdAt: -1 })]; a missing value
    sorts as the smallest. *)
Definition newerOrEqual (a b : gmap string JsValue) : bool :=
  match createdAtOf a, createdAtOf b with
  | Some x, Some y => (y <=? x)%Z
  | Some _, None => true
  | None, Some _ => false
  | None, None => true
  end.

Fixpoint insertSorted (d : gmap string JsValue)
    (sorted : list (gmap string JsValue)) : list (gmap string JsValue) :=
  match sorted with
  | [] => [d]
  | x :: rest =>
      if newerOrEqual d x then d :: sorted else x :: insertSorted d rest
  end.

Definition sortByCreatedAtDesc (docs : list (gmap string JsValue))
  : list (gmap string JsValue) :=
  foldr insertSorted [] docs.

Record Pagination : Type := mkPagination {
  pg_page : Z;
  pg_limit : Z;
  pg_total : Z;
  pg_pages : option Z       (* [None]: not a finite number *)
}.

(** [Math.ceil(total / limit)] *)
Definition ceilDiv (total limit : Z) : option Z :=
  if (limit =? 0)%Z then None else Some (- ((- total) / limit))%Z.

(** [getAllUsers(page, limit)].  The store refuses a negative [skip]
    (the text of its error is abridged); it takes a negative [limit] by
    its absolute value and [0] as no limit.  Sorting comes before [skip]
    and [limit] whatever the order of the calls. *)
Definition getAllUsers (page limit : Z) (docs : list (gmap string JsValue))
  : Result (list (gmap string JsValue) * Pagination) :=
  rethrow "Failed to get users: "
    (let skip := ((page - 1) * limit)%Z in
     if (skip <? 0)%Z then Throw "Skip value must be non-negative"
     else
       let rest := drop (Z.to_nat skip) (sortByCreatedAtDesc docs) in
       let users :=
         if (limit =? 0)%Z then rest else take (Z.to_nat (Z.abs limit)) rest in
       Ok (users,
           {| pg_page := page; pg_limit := limit;
              pg_total := Z.of_nat (length docs);
              pg_pages := ceilDiv (Z.of_nat (length docs)) limit |})).

Definition allowedFields : list string :=
  ["firstName"; "lastName"; "phoneNumber"; "profilePicture"; "preferences"].

Definition isAllowed (key : string) : bool :=
  existsb (String.eqb key) allowedFields.

(** The loop over [Object.keys(updateData)] that fills [updateFields]. *)
Definition updateFieldsOf (updateData : list (string * JsValue))
  : gmap string JsValue :=
  fold_left
    (fun updateFields key =>
       if isAllowed key
       then <[key := default JUndefined (assoc key updateData)]> updateFields
       else updateFields)
    (map fst updateData) ∅.

Definition updateUserProfile (t : Tick) (keycloakId : JsValue)
    (updateData : list (string * JsValue)) (docs : list (gmap string JsValue))
  : Result (gmap string JsValue) * list (gmap string JsValue) :=
  let '(r, docs') :=
    findOneAndUpdate t "keycloakId" keycloakId (updateFieldsOf updateData)
      false docs in
  (rethrow "Failed to update user: "
     match r with
     | Ok (Some user) => Ok user
     | Ok None => Throw "User not found"
     | Throw m => Throw m
     end, docs').

Definition deleteUser (t : Tick) (keycloakId : JsValue)
    (docs : list (gmap string JsValue))
  : Result (gmap string JsValue) * list (gmap string JsValue) :=
  let '(r, docs') :=
    findOneAndUpdate t "keycloakId" keycloakId
      {["enabled" := JBool false]} false docs in
  (rethrow "Failed to delete user: "
     match r with
     | Ok (Some user) => Ok user
     | Ok None => Throw "User not found"
     | Throw m => Throw m
     end, docs').

(* ===================================================================== *)
(** ** validator/userValidator.js *)
(* ===================================================================== *)

(** The text of a value, as [String(v)] gives it for the elements of an
    array: [null] and [undefined] render as the empty text. *)
Fixpoint jsText (v : JsValue) : string :=
  match v with
  | JUndefined | JNull => ""
  | JBool b => if b then "true" else "false"
  | JNum n => pretty n
  | JStr s => s
  | JArr items =>
      (fix join (l : list JsValue) : string :=
         match l with
         | [] => ""
         | [x] => jsText x
         | x :: rest => jsText x +:+ "," +:+ join rest
         end) items
  | JObj _ => "[object Object]"
  end.

(** The text the validation library hands to a standard validator or
    sanitizer. *)
Definition ev_toString (v : JsValue) : string :=
  match v with
  | JArr (x :: _) => jsText x
  | _ => jsText v
  end.

(** A standard validator runs on each element of an array value. *)
Definition ev_values (v : JsValue) : list JsValue :=
  match v with
  | JArr items => items
  | _ => [v]
  end.

Definition ev_sanitize (f : string -> string) (v : JsValue) : JsValue :=
  match v with
  | JArr items => JArr (map (fun x => JStr (f (ev_toString x))) items)
  | _ => JStr (f (ev_toString v))
  end.

Record ValidationError : Type := mkValidationError {
  ve_field : string;
  ve_message : string;
  ve_value : JsValue
}.

Definition ev_check (field msg : string) (p : string -> bool) (v : JsValue)
  : list ValidationError :=
  flat_map
    (fun x =>
       if p (ev_toString x) then []
       else [{| ve_field := field; ve_message := msg; ve_value := v |}])
    (ev_values v).

(** [isLength({ min, max })] *)
Definition isLength (min max : nat) (s : string) : bool :=
  (Nat.leb min (String.length s) && Nat.leb (String.length s) max)%bool.

Definition isDigit (c : ascii) : bool :=
  let n := nat_of_ascii c in (Nat.leb 48 n && Nat.leb n 57)%bool.

Definition isWordChar (c : ascii) : bool :=
  let n := nat_of_ascii c in
  ((Nat.leb 48 n && Nat.leb n 57) || (Nat.leb 65 n && Nat.leb n 90)
   || (Nat.leb 97 n && Nat.leb n 122) || Nat.eqb n 95)%bool.

(** [matches(/^[a-zA-Z0-9_]+$/)] *)
Definition matchesUsername (s : string) : bool :=
  (negb (isEmpty s) && forallb isWordChar (list_ascii_of_string s))%bool.

(** [matches(/^\+?[1-9]\d{1,14}$/)] *)
Definition matchesPhone (s : string) : bool :=
  let r := match s with String "+" r => r | _ => s end in
  match r with
  | String c ds =>
      (isDigit c && negb (Ascii.eqb c "0")
       && Nat.leb 1 (String.length ds) && Nat.leb (String.length ds) 14
       && forallb isDigit (list_ascii_of_string ds))%bool
  | EmptyString => false
  end.

(** [isObject()] *)
Definition isObject (v : JsValue) : bool :=
  match v with JObj _ => true | _ => false end.

Fixpoint setField (k : string) (v : JsValue) (b : list (string * JsValue))
  : list (string * JsValue) :=
  match b with
  | [] => [(k, v)]
  | (k', v') :: rest =>
      if String.eqb k k' then (k, v) :: rest else (k', v') :: setField k v rest
  end.

Definition fieldValue (b : list (string * JsValue)) (k : string) : JsValue :=
  default JUndefined (assoc k b).

(** One [body(field).optional(). ...] chain: nothing happens to a field
    that is [undefined]; otherwise the validators report on the value as
    submitted and the sanitizer, when there is one, rewrites it. *)
Definition runChain (field : string)
    (validators : JsValue -> list ValidationError)
    (sanitizer : option (JsValue -> JsValue))
    (st : list ValidationError * list (string * JsValue))
  : list ValidationError * list (string * JsValue) :=
  let '(errors, b) := st in
  match fieldValue b field with
  | JUndefined => (errors, b)
  | v =>
      ((errors ++ validators v)%list,
       match sanitizer with
       | Some f => setField field (f v) b
       | None => b
       end)
  end.

Definition errorEntry (e : ValidationError) : JsValue :=
  JObj [("field", JStr (ve_field e)); ("message", JStr (ve_message e));
        ("value", ve_value e)].

Definition handleValidationErrors (errors : list ValidationError)
    (req : Request) : MiddlewareResult :=
  match errors with
  | [] => Next req
  | _ =>
      Respond {| status := 400;
                 json := JObj [("success", JBool false);
                               ("message", JStr "Validation failed");
                               ("errors", JArr (map errorEntry errors))] |}
  end.

Section Validator.

(** [isEmail] and [normalizeEmail] of the validation library; the
    latter answers an address or [false]. *)
Variable isEmail : string -> bool.
Variable normalizeEmail : string -> JsValue.

Definition validateUpdateUser (req : Request) : MiddlewareResult :=
  let st0 := ([], body req) in
  let st1 :=
    runChain "email"
      (ev_check "email" "Email must be a valid email address" isEmail)
      (Some (fun v =>
         ev_sanitize trim
           (ev_sanitize (fun s => ev_toString (normalizeEmail s)) v)))
      st0 in
  let st2 :=
    runChain "username"
      (fun v =>
         (ev_check "username" "Username must be between 3 and 30 characters"
            (isLength 3 30) v
          ++ ev_check "username"
               "Username can only contain letters, numbers, and underscores"
               matchesUsername v)%list)
      (Some (ev_sanitize trim)) st1 in
  let st3 :=
    runChain "firstName"
      (ev_check "firstName" "First name must be between 1 and 50 characters"
         (isLength 1 50))
      (Some (ev_sanitize trim)) st2 in
  let st4 :=
    runChain "lastName"
      (ev_check "lastName" "Last name must be between 1 and 50 characters"
         (isLength 1 50))
      (Some (ev_sanitize trim)) st3 in
  let st5 :=
    runChain "phoneNumber"
      (ev_check "phoneNumber" "Phone number must be in E.164 format"
         matchesPhone)
      None st4 in
  let st6 :=
    runChain "preferences"
      (fun v =>
         if isObject v then []
         else [{| ve_field := "preferences";
                  ve_message := "Preferences must be an object";
                  ve_value := v |}])
      None st5 in
  handleValidationErrors (fst st6) (set_body (snd st6) req).

End Validator.

(* ===================================================================== *)
(** ** controller/userController.js *)
(* ===================================================================== *)

Definition errorEnvelope (code : Z) (msg err : string) : Response :=
  {| status := code;
     json := JObj [("success", JBool false); ("message", JStr msg);
                   ("error", JStr err)] |}.

Definition successEnvelope (msg : string) (data : JsValue) : Response :=
  {| status := 200;
     json := JObj [("success", JBool true); ("message", JStr msg);
                   ("data", data)] |}.

(** [doc.toObject()], as [res.json] writes it.  The paths come back as
    stored but for a [Map] path: [toObject()] without [flattenMaps] hands
    back a JavaScript [Map], and [JSON.stringify] writes a [Map] as the
    empty object whatever it holds.  [preferences] is the one [Map] path
    of [userSchema]; a [null] stored there stays [null]. *)
Definition toObject (d : gmap string JsValue) : gmap string JsValue :=
  match d !! "preferences" with
  | Some (JObj _) => <["preferences" := JObj []]> d
  | _ => d
  end.

(** [userSchema.methods.toJSON] *)
Definition toJSON (d : gmap string JsValue) : gmap string JsValue :=
  let userObject := toObject d in
  <["id" := default JUndefined (userObject !! "_id")]>
    (delete "__v" (delete "_id" userObject)).

Definition objectOf (d : gmap string JsValue) : JsValue :=
  JObj (map_to_list d).

(** The message of the [TypeError] a property read on [undefined] or
    [null] raises. *)
Definition readOf (what prop : string) : string :=
  "Cannot read properties of " +:+ what +:+ " (reading '" +:+ prop +:+ "')".

Definition readOfUndefined (prop : string) : string := readOf "undefined" prop.

Definition getCurrentUser (t : Tick) (req : Request)
    (docs : list (gmap string JsValue))
  : Response * list (gmap string JsValue) :=
  match user req with
  | None =>
      (errorEnvelope 500 "Failed to retrieve user profile"
         (readOfUndefined "keycloakId"), docs)
  | Some u =>
      let '(r, docs') :=
        syncUserFromKeycloak t
          {| ud_keycloakId := ui_keycloakId u;
             ud_email := ui_email u;
             ud_username := ui_username u;
             ud_firstName := ui_firstName u;
             ud_lastName := ui_lastName u;
             ud_emailVerified := ui_emailVerified u;
             ud_enabled := JBool true |} docs in
      match r with
      | Ok (Some userObject) =>
          (successEnvelope "User profile retrieved successfully"
             (objectOf
                (<["tokenInfo" :=
                     JObj [("keycloakId", ui_keycloakId u);
                           ("email", ui_email u);
                           ("username", ui_username u);
                           ("roles", ui_roles u);
                           ("clientRoles", ui_clientRoles u)]]>
                   (toObject userObject))),
           docs')
      | Ok None =>
          (errorEnvelope 500 "Failed to retrieve user profile"
             (readOf "null" "toObject"), docs')
      | Throw m =>
          (errorEnvelope 500 "Failed to retrieve user profile" m, docs')
      end
  end.

(** The status the three by-record handlers choose for an error. *)
Definition notFoundOr500 (m : string) : Z :=
  if String.eqb m "User not found" then 404 else 500.

Definition getUserByIdHandler (req : Request) (docs : list (gmap string JsValue))
  : Response :=
  match getUserById (params_id req) docs with
  | Ok u => successEnvelope "User retrieved successfully" (objectOf (toJSON u))
  | Throw m => errorEnvelope (notFoundOr500 m) m m
  end.

Definition getAllUsersHandler (req : Request)
    (docs : list (gmap string JsValue)) : Response :=
  let page := parseIntOr (query req !! "page") 1 in
  let limit := parseIntOr (query req !! "limit") 10 in
  match getAllUsers page limit docs with
  | Ok (users, pagination) =>
      {| status := 200;
         json :=
           JObj [("success", JBool true);
                 ("message", JStr "Users retrieved successfully");
                 ("data", JArr (map objectOf users));
                 ("pagination",
                  JObj [("page", JNum (pg_page pagination));
                        ("limit", JNum (pg_limit pagination));
                        ("total", JNum (pg_total pagination));
                        ("pages",
                         match pg_pages pagination with
                         | Some n => JNum n
                         | None => JNull
                         end)])] |}
  | Throw m => errorEnvelope 500 "Failed to retrieve users" m
  end.

Definition updateCurrentUser (t : Tick) (req : Request)
    (docs : list (gmap string JsValue))
  : Response * list (gmap string JsValue) :=
  match user req with
  | None =>
      let m := readOfUndefined "keycloakId" in
      (errorEnvelope (notFoundOr500 m) m m, docs)
  | Some u =>
      let '(r, docs') := updateUserProfile t (ui_keycloakId u) (body req) docs in
      match r with
      | Ok updatedUser =>
          (successEnvelope "User profile updated successfully"
             (objectOf (toJSON updatedUser)), docs')
      | Throw m => (errorEnvelope (notFoundOr500 m) m m, docs')
      end
  end.

Definition deleteCurrentUser (t : Tick) (req : Request)
    (docs : list (gmap string JsValue))
  : Response * list (gmap string JsValue) :=
  match user req with
  | None =>
      let m := readOfUndefined "keycloakId" in
      (errorEnvelope (notFoundOr500 m) m m, docs)
  | Some u =>
      let '(r, docs') := deleteUser t (ui_keycloakId u) docs in
      match r with
      | Ok _ =>
          ({| status := 200;
              json := JObj [("success", JBool true);
                            ("message", JStr "User deleted successfully")] |},
           docs')
      | Throw m => (errorEnvelope (notFoundOr500 m) m m, docs')
      end
  end.

Definition logout (t : Tick) : Response :=
  successEnvelope "Logout successful. Token should be cleared on frontend."
    (JObj [("timestamp", JNum (date_now t))]).

(* ===================================================================== *)
(** ** routes/userRoutes.js *)
(* ===================================================================== *)

(** The functions a route chains. *)
Inductive Step : Type :=
| MW_validateKeycloakToken
| MW_validateUpdateUser
| H_getCurrentUser
| H_updateCurrentUser
| H_deleteCurrentUser
| H_logout
| H_getUserById
| H_getAllUsers.

(** The protected routes of the router. *)
Inductive Route : Type :=
| GET_me
| PUT_me
| DELETE_me
| POST_logout
| GET_id
| GET_all.

Definition routeChain (r : Route) : list Step :=
  match r with
  | GET_me => [MW_validateKeycloakToken; H_getCurrentUser]
  | PUT_me => [MW_validateKeycloakToken; MW_validateUpdateUser; H_updateCurrentUser]
  | DELETE_me => [MW_validateKeycloakToken; H_deleteCurrentUser]
  | POST_logout => [MW_validateKeycloakToken; H_logout]
  | GET_id => [MW_validateKeycloakToken; H_getUserById]
  | GET_all => [MW_validateKeycloakToken; H_getAllUsers]
  end.

Definition isHandler (s : Step) : bool :=
  match s with
  | MW_validateKeycloakToken | MW_validateUpdateUser => false
  | _ => true
  end.

(** What a request ends in: the response, the store afterwards and the
    functions of the chain that were entered, in order. *)
Record Outcome : Type := mkOutcome {
  response : Response;
  store : list (gmap string JsValue);
  entered : list Step
}.

Section Router.

Variable jwt_verify : string -> VerifyOptions -> VerifyResult.
Variable isEmail : string -> bool.
Variable normalizeEmail : string -> JsValue.
Variable env : Env.

Definition runStep (s : Step) (t : Tick) (req : Request)
    (docs : list (gmap string JsValue))
  : MiddlewareResult * list (gmap string JsValue) :=
  match s with
  | MW_validateKeycloakToken => (validateKeycloakToken jwt_verify env req, docs)
  | MW_validateUpdateUser => (validateUpdateUser isEmail normalizeEmail req, docs)
  | H_getCurrentUser =>
      let '(res, docs') := getCurrentUser t req docs in (Respond res, docs')
  | H_updateCurrentUser =>
      let '(res, docs') := updateCurrentUser t req docs in (Respond res, docs')
  | H_deleteCurrentUser =>
      let '(res, docs') := deleteCurrentUser t req docs in (Respond res, docs')
  | H_logout => (Respond (logout t), docs)
  | H_getUserById => (Respond (getUserByIdHandler req docs), docs)
  | H_getAllUsers => (Respond (getAllUsersHandler req docs), docs)
  end.

(** A chain runs until one of its functions answers; a chain that runs
    out falls through to the application's catch-all. *)
Fixpoint runSteps (chain : list Step) (t : Tick) (req : Request)
    (docs : list (gmap string JsValue)) : Outcome :=
  match chain with
  | [] => {| response := failure 404 "Route not found"; store := docs;
             entered := [] |}
  | s :: rest =>
      match runStep s t req docs with
      | (Respond res, docs') =>
          {| response := res; store := docs'; entered := [s] |}
      | (Next req', docs') =>
          let o := runSteps rest t req' docs' in
          {| response := response o; store := store o;
             entered := s :: entered o |}
      end
  end.

Definition serve (r : Route) (t : Tick) (req : Request)
    (docs : list (gmap string JsValue)) : Outcome :=
  runSteps (routeChain r) t req docs.

End Router.

(* ===================================================================== *)
(** ** Notions the statements use *)
(* ===================================================================== *)

Definition hasChar (c : ascii) (s : string) : bool :=
  existsb (Ascii.eqb c) (list_ascii_of_string s).

(** A header of the form [Bearer <token>]: the word, one space, and a
    token without a space in it that is more than white space. *)
Definition bearerCredential (h : option string) : Prop :=
  exists token,
    h = Some ("Bearer " +:+ token) /\ hasChar " " token = false
    /\ trim token <> "".

Definition missingCredential (res : Response) : Prop :=
  res = failure 401 "No authorization header provided".

Definition malformedCredential (res : Response) : Prop :=
  exists msg,
    res = failure 401 msg
    /\ In msg
         [ "Authorization header must start with " +:+ dquote +:+ "Bearer "
           +:+ dquote;
           "Invalid authorization header format. Expected: Bearer <token>";
           "Token is empty" ].

(** The [error] member of a response body. *)
Definition errorCode (res : Response) : JsValue := js_get (json res) "error".

(** The request was answered by the token middleware: nothing after it in
    the chain was entered and the store is as it was. *)
Definition rejectedByVerifier (o : Outcome) (docs : list (gmap string JsValue))
  : Prop :=
  entered o = [MW_validateKeycloakToken] /\ store o = docs.

(** The error objects of the [jsonwebtoken] package, by cause. *)
Inductive VerifyFailure : Type :=
| JwtExpired
| JwtMalformed
| JwtNotActive
| InvalidSignature
| InvalidAlgorithm.

Definition libraryError (c : VerifyFailure) : JwtError :=
  match c with
  | JwtExpired => {| err_name := "TokenExpiredError"; err_message := "jwt expired" |}
  | JwtMalformed => {| err_name := "JsonWebTokenError"; err_message := "jwt malformed" |}
  | JwtNotActive => {| err_name := "NotBeforeError"; err_message := "jwt not active" |}
  | InvalidSignature =>
      {| err_name := "JsonWebTokenError"; err_message := "invalid signature" |}
  | InvalidAlgorithm =>
      {| err_name := "JsonWebTokenError"; err_message := "invalid algorithm" |}
  end.

(** The failure taxonomy of the verifier. *)
Inductive FailureClass : Type :=
| TokenExpired
| TokenMalformed
| TokenNotYetValid
| SignatureInvalid
| ConfigurationError.

(** The response the middleware gives for a failure of each class. *)
Definition failureResponse (c : FailureClass) : Response :=
  match c with
  | TokenExpired => handleVerificationError (libraryError JwtExpired)
  | TokenMalformed => handleVerificationError (libraryError JwtMalformed)
  | TokenNotYetValid => handleVerificationError (libraryError JwtNotActive)
  | SignatureInvalid => handleVerificationError (libraryError InvalidSignature)
  | ConfigurationError =>
      failure 500
        "Server configuration error: KEYCLOAK_URL and KEYCLOAK_REALM must be set"
  end.

Definition callerVisibleCode (c : FailureClass) : JsValue :=
  errorCode (failureResponse c).

(** [N] successive synchronizations with the same claims, one tick
    each. *)
Definition syncTimes (ticks : list Tick) (userData : UserData)
    (docs : list (gmap string JsValue)) : list (gmap string JsValue) :=
  fold_left (fun ds t => snd (syncUserFromKeycloak t userData ds)) ticks docs.

(** A record without the two time stamps a synchronization renews. *)
Definition withoutStamps (d : gmap string JsValue) : gmap string JsValue :=
  delete "lastLogin" (delete "updatedAt" d).

(** The writing operations of the service. *)
Inductive Operation : Type :=
| OpSync (userData : UserData)
| OpUpdate (keycloakId : JsValue) (updateData : list (string * JsValue))
| OpDelete (keycloakId : JsValue).

Definition applyOp (t : Tick) (op : Operation)
    (docs : list (gmap string JsValue)) : list (gmap string JsValue) :=
  match op with
  | OpSync userData => snd (syncUserFromKeycloak t userData docs)
  | OpUpdate keycloakId updateData =>
      snd (updateUserProfile t keycloakId updateData docs)
  | OpDelete keycloakId => snd (deleteUser t keycloakId docs)
  end.

Definition applyOps (ops : list (Tick * Operation))
    (docs : list (gmap string JsValue)) : list (gmap string JsValue) :=
  fold_left (fun ds '(t, op) => applyOp t op ds) ops docs.

(** [i] is the position of the record [findOne({ keycloakId: sub })]
    gives: the first one with that key. *)
Definition firstWithKey (sub : string) (docs : list (gmap string JsValue))
    (i : nat) (d : gmap string JsValue) : Prop :=
  docs !! i = Some d /\ d !! "keycloakId" = Some (JStr sub)
  /\ forall j d0, (j < i)%nat -> docs !! j = Some d0 ->
       d0 !! "keycloakId" <> Some (JStr sub).

(** The argument [getCurrentUser] hands to the synchronizer. *)
Definition userDataOf (u : UserInfo) : UserData :=
  {| ud_keycloakId := ui_keycloakId u;
     ud_email := ui_email u;
     ud_username := ui_username u;
     ud_firstName := ui_firstName u;
     ud_lastName := ui_lastName u;
     ud_emailVerified := ui_emailVerified u;
     ud_enabled := JBool true |}.

(** The type the schema declares for a path. *)
Fixpoint pathType (schema : list (string * SchemaType)) (k : string)
  : option SchemaType :=
  match schema with
  | [] => None
  | (path, ty) :: rest => if String.eqb k path then Some ty else pathType rest k
  end.

(** The value a cast update holds for a path, given what the update
    submitted for it. *)
Definition castEntry (ty : option SchemaType) (submitted : option JsValue)
  : option JsValue :=
  match ty, submitted with
  | Some ty, Some v =>
      match v with
      | JUndefined => None
      | _ => castValue ty v
      end
  | _, _ => None
  end.

(** Claims as the identity provider issues them: text where text is
    expected, a boolean for the verified flag, or nothing. *)
Definition textOrAbsent (v : JsValue) : bool :=
  match v with JUndefined | JStr _ => true | _ => false end.

Definition flagOrAbsent (v : JsValue) : bool :=
  match v with JUndefined | JBool _ => true | _ => false end.

Definition plainClaims (u : UserInfo) : bool :=
  (textOrAbsent (ui_email u) && textOrAbsent (ui_username u)
   && textOrAbsent (ui_firstName u) && textOrAbsent (ui_lastName u)
   && flagOrAbsent (ui_emailVerified u))%bool.

(** The body fields [PUT /api/users/me] looks at: the ones its validator
    checks and the ones the service copies. *)
Definition consultedFields : list string :=
  ["email"; "username"; "firstName"; "lastName"; "phoneNumber";
   "profilePicture"; "preferences"].

(** Two bodies that submit the same for every consulted field. *)
Definition sameConsulted (b b' : list (string * JsValue)) : Prop :=
  forall f, In f consultedFields -> assoc f b = assoc f b'.

(** [PUT /api/users/me] after the token middleware. *)
Definition updateChain : list Step := [MW_validateUpdateUser; H_updateCurrentUser].

(** The record already holds what the claims cast to at any time,
    [lastLogin] apart. *)
Definition settled (userData : UserData) (d : gmap string JsValue) : Prop :=
  forall t c k v,
    castUpdate userSchema (syncFields t userData) = Some c ->
    k <> "lastLogin" -> c !! k = Some v -> d !! k = Some v.

(** The store holds a settled record for the subject. *)
Definition synced (userData : UserData) (q' : JsValue)
    (docs : list (gmap string JsValue)) : Prop :=
  exists i d, findIndex (fieldMatches "keycloakId" q') docs = Some i
              /\ docs !! i = Some d /\ settled userData d.

(* ===================================================================== *)
(** ** Sample data *)
(* ===================================================================== *)

Definition sampleEnv : Env :=
  {| KEYCLOAK_URL := Some "http://localhost:8080";
     KEYCLOAK_REALM := Some "user-service";
     KEYCLOAK_CLIENT_ID := Some "user-service-client";
     JWT_ALGORITHM := Some "RS256" |}.

Definition samplePayload : JsValue :=
  JObj [ ("sub", JStr "f3b1c2d4");
         ("email", JStr "test@example.com");
         ("preferred_username", JStr "testuser");
         ("given_name", JStr "Test");
         ("family_name", JStr "User");
         ("email_verified", JBool true);
         ("aud", JStr "account");
         ("realm_access", JObj [("roles", JArr [JStr "offline_access"])]) ].

(** A stand-in for the verifier on three tokens: [tok.aud] carries an
    audience other than the client id and is otherwise valid,
    [tok.sig] has a tampered signature, [tok.ok] verifies. *)
Definition sampleVerify (token : string) (opts : VerifyOptions) : VerifyResult :=
  if String.eqb token "tok.aud" then
    match audience opts with
    | Some a =>
        VerifyError {| err_name := "JsonWebTokenError";
                       err_message := "jwt audience invalid. expected: " +:+ a |}
    | None => VerifyOk samplePayload
    end
  else if String.eqb token "tok.sig" then
    VerifyError (libraryError InvalidSignature)
  else if String.eqb token "tok.ok" then VerifyOk samplePayload
  else VerifyError (libraryError JwtMalformed).

(** Stand-ins for the two e-mail functions of the validation library. *)
Definition sampleIsEmail (s : string) : bool := includes s "@".
Definition sampleNormalizeEmail (s : string) : JsValue := JStr (toLowerCase s).

Definition sampleRequest (auth : option string) : Request :=
  {| authorization := auth; params_id := "507f1f77bcf86cd799439011";
     query := ∅; body := []; user := None |}.

Definition sampleTick : Tick :=
  {| date_now := 1700000000000; stamp_now := 1700000000002;
     fresh_id := "507f1f77bcf86cd799439011" |}.

Definition laterTick : Tick :=
  {| date_now := 1700000600000; stamp_now := 1700000600001;
     fresh_id := "507f1f77bcf86cd799439012" |}.

Definition sampleUser : UserInfo := userInfoOf samplePayload (Some "user-service-client").

Definition sampleRecord : gmap string JsValue :=
  list_to_map
    [ ("_id", JStr "507f1f77bcf86cd799439011");
      ("__v", JNum 0);
      ("keycloakId", JStr "f3b1c2d4");
      ("email", JStr "test@example.com");
      ("username", JStr "testuser");
      ("firstName", JStr "Test");
      ("lastName", JStr "User");
      ("enabled", JBool true);
      ("emailVerified", JBool true);
      ("preferences", JObj []);
      ("lastLogin", JNum 1600000000000);
      ("createdAt", JNum 1600000000000);
      ("updatedAt", JNum 1600000000000) ].

(** The same record once the user has stored a preference. *)
Definition recordWithPreferences : gmap string JsValue :=
  <["preferences" := JObj [("theme", JStr "dark")]]> sampleRecord.

Definition otherRecord : gmap string JsValue :=
  list_to_map
    [ ("_id", JStr "507f1f77bcf86cd799439010");
      ("__v", JNum 0);
      ("keycloakId", JStr "0a0a0a0a");
      ("email", JStr "other@example.com");
      ("username", JStr "other");
      ("enabled", JBool true);
      ("emailVerified", JBool false);
      ("preferences", JObj []);
      ("createdAt", JNum 1500000000000);
      ("updatedAt", JNum 1500000000000) ].

(** A request as the token middleware hands it on. *)
Definition authedRequest (b : list (string * JsValue)) : Request :=
  {| authorization := Some "Bearer tok.ok";
     params_id := "507f1f77bcf86cd799439011";
     query := ∅; body := b; user := Some sampleUser |}.

Definition disabledRecord : gmap string JsValue :=
  <["enabled" := JBool false]> sampleRecord.

(* ===================================================================== *)
(** ** Further code of the service *)
(* ===================================================================== *)

(** *** middleware/keycloak.js: the key resolver and the optional
    middleware *)

(** The options [getJwksClient] hands to [jwksClient]. *)
Record JwksClient : Type := mkJwksClient {
  jwksUri : string;
  cache : bool;
  cacheMaxAge : Z;
  rateLimit : bool;
  jwksRequestsPerMinute : Z;
  timeout : Z
}.

(** [KEYCLOAK_REALM_PUBLIC_KEY_URL || `${KEYCLOAK_URL}/realms/${KEYCLOAK_REALM}/protocol/openid-connect/certs`] *)
Definition jwksUriOf (publicKeyUrl : option string) (env : Env) : string :=
  match configured publicKeyUrl with
  | Some u => u
  | None =>
      tmpl (KEYCLOAK_URL env) +:+ "/realms/" +:+ tmpl (KEYCLOAK_REALM env)
      +:+ "/protocol/openid-connect/certs"
  end.

(** [getJwksClient()]: the module variable [client] is threaded through;
    the answer is the client or the error thrown. *)
Definition getJwksClient (publicKeyUrl : option string) (env : Env)
    (client : option JwksClient) : Result JwksClient * option JwksClient :=
  match client with
  | Some c => (Ok c, client)
  | None =>
      let uri := jwksUriOf publicKeyUrl env in
      if (isEmpty uri || includes uri "undefined")%bool then
        (Throw "JWKS URI is not properly configured. Check KEYCLOAK_URL and KEYCLOAK_REALM environment variables.",
         None)
      else
        let c := {| jwksUri := uri; cache := true; cacheMaxAge := 86400000;
                    rateLimit := true; jwksRequestsPerMinute := 10;
                    timeout := 30000 |} in
        (Ok c, Some c)
  end.

(** What [getKey(header, callback)] does: throw, or call back with an
    error or with the public key. *)
Inductive KeyResult : Type :=
| KeyThrows (message : string)
| KeyError (message : string)
| KeyFound (signingKey : string).

Section KeyResolver.

(** [client.getSigningKey(kid, callback)] and [key.getPublicKey()] of the
    JWKS package. *)
Variable SigningKey : Type.
Variable getSigningKey : JwksClient -> JsValue -> Result SigningKey.
Variable getPublicKey : SigningKey -> Result string.

Definition getKey (publicKeyUrl : option string) (env : Env)
    (header : JsValue) (client : option JwksClient)
  : KeyResult * option JwksClient :=
  if negb (truthy (js_get header "kid")) then
    (KeyError "Token header missing kid (key ID)", client)
  else
    match getJwksClient publicKeyUrl env client with
    | (Throw m, client') => (KeyThrows m, client')
    | (Ok c, client') =>
        match getSigningKey c (js_get header "kid") with
        | Throw m => (KeyError m, client')
        | Ok key =>
            match getPublicKey key with
            | Ok signingKey => (KeyFound signingKey, client')
            | Throw m => (KeyError m, client')
            end
        end
    end.

End KeyResolver.


Section OptionalMiddleware.

Variable jwt_verify : string -> VerifyOptions -> VerifyResult.


End OptionalMiddleware.

(** *** service/userService.js: the remaining readers *)





(** *** validator/userValidator.js: the other rule sets *)

(** A chain without [optional()]: the validators see the text of the
    value even when the field is [undefined]. *)
Definition runRequiredChain (field : string)
    (validators : JsValue -> list ValidationError)
    (sanitizer : option (JsValue -> JsValue))
    (st : list ValidationError * list (string * JsValue))
  : list ValidationError * list (string * JsValue) :=
  let '(errors, b) := st in
  let v := fieldValue b field in
  ((errors ++ validators v)%list,
   match sanitizer with
   | Some f => setField field (f v) b
   | None => b
   end).

(** The value of a text of decimal digits. *)
Fixpoint digitsValue (s : string) (acc : Z) : option Z :=
  match s with
  | EmptyString => Some acc
  | String c r =>
      if isDigit c
      then digitsValue r (acc * 10 + Z.of_nat (nat_of_ascii c - 48))%Z
      else None
  end.

(** The integer a text denotes under [/^[-+]?[0-9]+$/]. *)
Definition intOfText (s : string) : option Z :=
  match s with
  | String "-" (String c r) => Z.opp <$> digitsValue (String c r) 0
  | String "+" (String c r) => digitsValue (String c r) 0
  | String c r => digitsValue (String c r) 0
  | EmptyString => None
  end.

(** [isInt({ min, max })] *)
Definition isInt (min : Z) (max : option Z) (s : string) : bool :=
  match intOfText s with
  | Some n =>
      ((min <=? n)%Z
       && match max with Some m => (n <=? m)%Z | None => true end)%bool
  | None => false
  end.

Section OtherValidators.

Variable isEmail : string -> bool.
Variable normalizeEmail : string -> JsValue.

Definition validateCreateUser (req : Request) : MiddlewareResult :=
  let st0 := ([], body req) in
  let st1 :=
    runRequiredChain "email"
      (ev_check "email" "Email must be a valid email address" isEmail)
      (Some (fun v =>
         ev_sanitize trim
           (ev_sanitize (fun s => ev_toString (normalizeEmail s)) v)))
      st0 in
  let st2 :=
    runRequiredChain "username"
      (fun v =>
         (ev_check "username" "Username must be between 3 and 30 characters"
            (isLength 3 30) v
          ++ ev_check "username"
               "Username can only contain letters, numbers, and underscores"
               matchesUsername v)%list)
      (Some (ev_sanitize trim)) st1 in
  let st3 :=
    runChain "firstName"
      (ev_check "firstName" "First name must be between 1 and 50 characters"
         (isLength 1 50))
      (Some (ev_sanitize trim)) st2 in
  let st4 :=
    runChain "lastName"
      (ev_check "lastName" "Last name must be between 1 and 50 characters"
         (isLength 1 50))
      (Some (ev_sanitize trim)) st3 in
  let st5 :=
    runChain "phoneNumber"
      (ev_check "phoneNumber" "Phone number must be in E.164 format"
         matchesPhone)
      None st4 in
  handleValidationErrors (fst st5) (set_body (snd st5) req).

(** [validateQueryParams]: its two chains are built with [body(...)], so
    they read [req.body]. *)
Definition validateQueryParams (req : Request) : MiddlewareResult :=
  let st0 := ([], body req) in
  let st1 :=
    runChain "page"
      (ev_check "page" "Page must be a positive integer" (isInt 1 None))
      None st0 in
  let st2 :=
    runChain "limit"
      (ev_check "limit" "Limit must be between 1 and 100" (isInt 1 (Some 100%Z)))
      None st1 in
  handleValidationErrors (fst st2) (set_body (snd st2) req).

End OtherValidators.

(* ===================================================================== *)
(** ** The frontend: redux/features/authSlice.js, ProtectedRoute.jsx,
       App.jsx *)
(* ===================================================================== *)

(** What the slice reads of a Keycloak instance. *)
Record Keycloak : Type := mkKeycloak {
  kc_token : option string;
  kc_authenticated : bool
}.


Record AuthState : Type := mkAuthState {
  st_keycloak : option Keycloak;
  isAuthenticated : bool;
  isLoading : bool;
  st_user : JsValue;
  st_token : option string;
  st_error : JsValue
}.

Definition initialState : AuthState :=
  {| st_keycloak := None; isAuthenticated := false; isLoading := true;
     st_user := JNull; st_token := None; st_error := JNull |}.

(** The actions the slice answers to; the payloads are the ones the
    thunks and action creators of the file produce. *)
Inductive AuthAction : Type :=
| SetAuthenticated (keycloak : option Keycloak)
| SetUnauthenticated (keycloak : option Keycloak)
| ClearError
| ClearAuthState
| InitializePending
| InitializeFulfilled (keycloak : option Keycloak) (authenticated : bool)
| InitializeRejected (message : JsValue)
| CheckAuthFulfilled (payload : bool)
| GetCurrentUserFulfilled (payload : JsValue)
| GetCurrentUserRejected (payload : JsValue).

(** [k?.token] *)
Definition tokenOf (k : option Keycloak) : option string := k ≫= kc_token.

(** [a || b] on two optional texts. *)
Definition orElse (a b : option string) : option string :=
  match configured a with
  | Some _ => a
  | None => b
  end.

Definition authReducer (state : AuthState) (action : AuthAction) : AuthState :=
  match action with
  | SetAuthenticated keycloak =>
      {| st_keycloak := keycloak;
         isAuthenticated := true;
         isLoading := false;
         st_user := st_user state;
         st_token := orElse (tokenOf keycloak) (tokenOf keycloak);
         st_error := JNull |}
  | SetUnauthenticated keycloak =>
      {| st_keycloak := keycloak;
         isAuthenticated := false;
         isLoading := false;
         st_user := JNull;
         st_token := None;
         st_error := JNull |}
  | ClearError =>
      {| st_keycloak := st_keycloak state;
         isAuthenticated := isAuthenticated state;
         isLoading := isLoading state;
         st_user := st_user state;
         st_token := st_token state;
         st_error := JNull |}
  | ClearAuthState =>
      {| st_keycloak := st_keycloak state;
         isAuthenticated := false;
         isLoading := isLoading state;
         st_user := JNull;
         st_token := None;
         st_error := JNull |}
  | InitializePending =>
      {| st_keycloak := st_keycloak state;
         isAuthenticated := isAuthenticated state;
         isLoading := true;
         st_user := st_user state;
         st_token := st_token state;
         st_error := st_error state |}
  | InitializeFulfilled keycloak authenticated =>
      {| st_keycloak := keycloak;
         isAuthenticated := authenticated;
         isLoading := false;
         st_user := st_user state;
         st_token := tokenOf keycloak;
         st_error := st_error state |}
  | InitializeRejected message =>
      {| st_keycloak := st_keycloak state;
         isAuthenticated := isAuthenticated state;
         isLoading := false;
         st_user := st_user state;
         st_token := st_token state;
         st_error := message |}
  | CheckAuthFulfilled payload =>
      {| st_keycloak := st_keycloak state;
         isAuthenticated := payload;
         isLoading := isLoading state;
         st_user := st_user state;
         st_token := tokenOf (st_keycloak state);
         st_error := st_error state |}
  | GetCurrentUserFulfilled payload =>
      {| st_keycloak := st_keycloak state;
         isAuthenticated := isAuthenticated state;
         isLoading := isLoading state;
         st_user := payload;
         st_token := st_token state;
         st_error := JNull |}
  | GetCurrentUserRejected payload =>
      {| st_keycloak := st_keycloak state;
         isAuthenticated := isAuthenticated state;
         isLoading := isLoading state;
         st_user := st_user state;
         st_token := st_token state;
         st_error := js_or (js_get payload "message") (JStr "Failed to get user") |}
  end.

(** The places a location can be under the routes of [App]. *)
Inductive Location : Type :=
| AtLogin
| AtDashboard
| AtProfile
| AtRoot
| AtOther.

Inductive Screen : Type :=
| LoginScreen
| DashboardScreen
| ProfileScreen.

(** What a component renders: the spinner of [App], the loading text of
    [ProtectedRoute], a redirect or a screen. *)
Inductive Element : Type :=
| LoadingElement
| LoadingText
| Navigate (to : Location)
| Show (screen : Screen).

(** [<ProtectedRoute>children</ProtectedRoute>] *)
Definition ProtectedRoute (state : AuthState) (children : Element) : Element :=
  if isLoading state then LoadingText
  else if negb (isAuthenticated state) then Navigate AtLogin
  else children.

(** The element [App] renders at a location. *)
Definition App (state : AuthState) (location : Location) : Element :=
  if isLoading state then LoadingElement
  else
    match location with
    | AtLogin =>
        if isAuthenticated state then Navigate AtDashboard else Show LoginScreen
    | AtDashboard => ProtectedRoute state (Show DashboardScreen)
    | AtProfile => ProtectedRoute state (Show ProfileScreen)
    | AtRoot =>
        Navigate (if isAuthenticated state then AtDashboard else AtLogin)
    | AtOther => Navigate AtRoot
    end.

(** Rendering with the redirects followed, at most [fuel] of them;
    [None] when they are not exhausted by then. *)
Fixpoint settle (fuel : nat) (state : AuthState) (location : Location)
  : option Element :=
  match App state location with
  | Navigate to =>
      match fuel with
      | O => None
      | S fuel' => settle fuel' state to
      end
  | e => Some e
  end.

(* ===================================================================== *)
(** ** Further notions and sample data *)
(* ===================================================================== *)

(** The identity keys of the records of a store, in order. *)
Definition keysOf (docs : list (gmap string JsValue)) : list (option JsValue) :=
  map (fun d => d !! "keycloakId") docs.


(** The chain of a protected route after the token middleware. *)
Definition afterVerifier (r : Route) : list Step := tl (routeChain r).

(** A stand-in for the verifier on a token that carries both a foreign
    audience and a foreign issuer. *)
Definition strictVerify (token : string) (opts : VerifyOptions) : VerifyResult :=
  match audience opts with
  | Some a =>
      VerifyError {| err_name := "JsonWebTokenError";
                     err_message := "jwt audience invalid. expected: " +:+ a |}
  | None =>
      VerifyError {| err_name := "JsonWebTokenError";
                     err_message := "jwt issuer invalid. expected: "
                                    +:+ issuer opts |}
  end.

(** [i] is the position of the record [findById(id)] gives: the first one
    whose [_id] is that identifier. *)
Definition firstWithId (id : string) (docs : list (gmap string JsValue))
    (i : nat) (d : gmap string JsValue) : Prop :=
  docs !! i = Some d /\ d !! "_id" = Some (JStr (toLowerCase id))
  /\ forall j d0, (j < i)%nat -> docs !! j = Some d0 ->
       d0 !! "_id" <> Some (JStr (toLowerCase id)).

(** No record of the store has the subject id as its key. *)
Definition unknownSubject (sub : string) (docs : list (gmap string JsValue))
  : Prop :=
  forall j d, docs !! j = Some d -> d !! "keycloakId" <> Some (JStr sub).

Definition set_params_id (id : string) (req : Request) : Request :=
  {| authorization := authorization req; params_id := id;
     query := query req; body := body req; user := user req |}.

(* ===================================================================== *)
(** * Properties *)
(* ===================================================================== *)

(** ** Facts about strings *)

Lemma prefix_append (p s : string) :
  String.prefix p s = true -> exists r, s = p +:+ r.
Proof.
  revert s. induction p as [|c p IH]; intros s H.
  - exists s. reflexivity.
  - destruct s as [|c' s]; simpl in H; [discriminate|].
    destruct (Ascii.ascii_dec c c') as [->|Hne]; [|discriminate].
    destruct (IH s H) as [r ->]. exists r. reflexivity.
Qed.

Lemma split_not_nil (c : ascii) (s : string) : split c s <> [].
Proof.
  induction s as [|a s IH]; simpl; [discriminate|].
  destruct (Ascii.eqb a c); [discriminate|].
  destruct (split c s); [contradiction|discriminate].
Qed.

Lemma split_without_separator (c : ascii) (s : string) :
  hasChar c s = false -> split c s = [s].
Proof.
  unfold hasChar. induction s as [|a s IH]; simpl; intros H; [reflexivity|].
  apply orb_false_iff in H as [Ha Hs].
  rewrite Ascii.eqb_sym, Ha, (IH Hs). reflexivity.
Qed.

Lemma split_single (c : ascii) (s : string) :
  length (split c s) = 1%nat -> hasChar c s = false.
Proof.
  unfold hasChar. induction s as [|a s IH]; simpl; intros H; [reflexivity|].
  rewrite (Ascii.eqb_sym c a).
  destruct (Ascii.eqb a c).
  - simpl in H. pose proof (split_not_nil c s) as Hn.
    destruct (split c s); [contradiction|discriminate].
  - simpl. apply IH. pose proof (split_not_nil c s) as Hn.
    destruct (split c s); [contradiction|exact H].
Qed.

Lemma split_bearer (token : string) :
  split " " ("Bearer " +:+ token) = "Bearer" :: split " " token.
Proof. reflexivity. Qed.

Lemma isEmpty_false (s : string) : s <> "" -> isEmpty s = false.
Proof. destruct s; [congruence|reflexivity]. Qed.

Lemma isEmpty_true (s : string) : isEmpty s = true -> s = "".
Proof. destruct s; [reflexivity|discriminate]. Qed.

Lemma includes_nonempty (s sub : string) :
  sub <> "" -> includes s sub = true -> isEmpty s = false.
Proof.
  intros Hsub H. destruct s; [|reflexivity].
  destruct sub; [congruence|]. simpl in H. discriminate.
Qed.

Lemma includes_append_r (a b sub : string) :
  includes b sub = true -> includes (a +:+ b) sub = true.
Proof.
  intros H. induction a as [|c a IH]; simpl; [exact H|].
  rewrite IH. apply orb_true_r.
Qed.

Lemma prefix_self_append (p q : string) : String.prefix p (p +:+ q) = true.
Proof.
  induction p as [|c p IH]; simpl; [destruct q; reflexivity|].
  destruct (Ascii.ascii_dec c c); [apply IH|congruence].
Qed.

Lemma includes_prefix (s r : string) : includes (s +:+ r) s = true.
Proof.
  destruct s; simpl.
  - destruct r; reflexivity.
  - destruct (Ascii.ascii_dec a a); [|congruence].
    rewrite prefix_self_append. reflexivity.
Qed.

(** ** The token middleware *)

Section MiddlewareFacts.

Variable jwt_verify : string -> VerifyOptions -> VerifyResult.

(** What is left of the middleware once a well-formed header has been
    taken apart. *)
Lemma validate_bearer_header env req token :
  authorization req = Some ("Bearer " +:+ token) ->
  hasChar " " token = false ->
  trim token <> "" ->
  validateKeycloakToken jwt_verify env req =
    if includes (issuerOf env) "undefined" then
      Respond (failure 500
        "Server configuration error: KEYCLOAK_URL and KEYCLOAK_REALM must be set")
    else
      match jwt_verify (trim token) (verifyOptionsOf env) with
      | VerifyThrows =>
          Respond (failure 500 "Internal server error during token validation")
      | VerifyError err =>
          if (negb (isEmpty (err_message err))
              && includes (err_message err) "audience"
              && bool_decide (is_Some (configured (KEYCLOAK_CLIENT_ID env))))%bool
          then
            match jwt_verify (trim token) (retryOptionsOf env) with
            | VerifyThrows =>
                Respond (failure 500
                  "Internal server error during token validation")
            | VerifyError retryErr => Respond (handleVerificationError retryErr)
            | VerifyOk retryDecoded =>
                attachUserInfo retryDecoded (KEYCLOAK_CLIENT_ID env) req
            end
          else Respond (handleVerificationError err)
      | VerifyOk decoded => attachUserInfo decoded (KEYCLOAK_CLIENT_ID env) req
      end.
Proof.
  intros Hauth Hsp Htok. unfold validateKeycloakToken. rewrite Hauth.
  change (isEmpty ("Bearer " +:+ token)) with false. cbv iota.
  unfold startsWith. rewrite prefix_self_append. cbv [negb].
  rewrite split_bearer, (split_without_separator _ _ Hsp).
  cbn [length Nat.eqb negb nth].
  rewrite (isEmpty_false _ Htok). reflexivity.
Qed.

(** A header that is not a bearer credential is answered by the
    middleware itself with 401. *)
Lemma validate_rejects_bad_header env req :
  ~ bearerCredential (authorization req) ->
  exists res,
    validateKeycloakToken jwt_verify env req = Respond res
    /\ status res = 401%Z
    /\ match authorization req with
       | None => missingCredential res
       | Some h => if isEmpty h then missingCredential res
                   else malformedCredential res
       end.
Proof.
  intros Hbad. unfold validateKeycloakToken.
  destruct (authorization req) as [h|] eqn:Hh.
  2:{ eexists. split; [reflexivity|]. split; reflexivity. }
  destruct (isEmpty h) eqn:He.
  { eexists. split; [reflexivity|]. split; reflexivity. }
  destruct (startsWith h "Bearer ") eqn:Hp; cbv [negb].
  2:{ eexists. split; [reflexivity|]. split; [reflexivity|].
      eexists. split; [reflexivity|]. left. reflexivity. }
  destruct (Nat.eqb (length (split " " h)) 2) eqn:Hl; cbv [negb].
  2:{ eexists. split; [reflexivity|]. split; [reflexivity|].
      eexists. split; [reflexivity|]. right. left. reflexivity. }
  destruct (isEmpty (trim (nth 1 (split " " h) ""))) eqn:Ht.
  { eexists. split; [reflexivity|]. split; [reflexivity|].
    eexists. split; [reflexivity|]. right. right. left. reflexivity. }
  exfalso. apply Hbad.
  destruct (prefix_append _ _ Hp) as [token ->].
  rewrite split_bearer in Hl, Ht. cbn [length nth] in Hl, Ht.
  apply Nat.eqb_eq in Hl. injection Hl as Hl.
  pose proof (split_single _ _ Hl) as Hsp.
  rewrite (split_without_separator _ _ Hsp) in Ht. cbn [nth] in Ht.
  exists token. split; [reflexivity|]. split; [exact Hsp|].
  intros E. rewrite E in Ht. discriminate.
Qed.

End MiddlewareFacts.

(** ** The router in front of the handlers *)

Section RouterFacts.

Variable jwt_verify : string -> VerifyOptions -> VerifyResult.
Variable isEmail : string -> bool.
Variable normalizeEmail : string -> JsValue.
Variable env : Env.

Lemma routeChain_head r :
  exists rest, routeChain r = MW_validateKeycloakToken :: rest /\ rest <> [].
Proof. destruct r; eexists; (split; [reflexivity|discriminate]). Qed.

Lemma serve_rejected r t req docs res :
  validateKeycloakToken jwt_verify env req = Respond res ->
  serve jwt_verify isEmail normalizeEmail env r t req docs =
    {| response := res; store := docs;
       entered := [MW_validateKeycloakToken] |}.
Proof.
  intros H. destruct (routeChain_head r) as [rest [Hr _]].
  unfold serve. rewrite Hr. cbn [runSteps runStep]. rewrite H. reflexivity.
Qed.

Lemma serve_passed r t req docs req' :
  validateKeycloakToken jwt_verify env req = Next req' ->
  serve jwt_verify isEmail normalizeEmail env r t req docs =
    let o := runSteps jwt_verify isEmail normalizeEmail env
               (tl (routeChain r)) t req' docs in
    {| response := response o; store := store o;
       entered := MW_validateKeycloakToken :: entered o |}.
Proof.
  intros H. destruct (routeChain_head r) as [rest [Hr _]].
  unfold serve. rewrite Hr. cbn [runSteps runStep tl]. rewrite H. reflexivity.
Qed.

Lemma runSteps_enters_first chain t req docs s :
  hd_error chain = Some s ->
  hd_error (entered (runSteps jwt_verify isEmail normalizeEmail env
                       chain t req docs)) = Some s.
Proof.
  destruct chain as [|s0 rest]; [discriminate|]. intros [= ->].
  cbn [runSteps].
  destruct (runStep jwt_verify isEmail normalizeEmail env s t req docs)
    as [[res|req'] docs']; reflexivity.
Qed.

End RouterFacts.

(** C5.  A request to a protected route whose authorization header is
    absent is answered 401 with the missing-credential message; one whose
    header is not of the form [Bearer <token>] (wrong prefix, wrong
    number of parts, empty token) is answered 401 with a
    malformed-credential message; in both cases the middleware is the
    only function of the chain that runs, no handler is entered and the
    store is untouched.  A header with the empty value counts as
    absent. *)
Theorem bad_credential_rejected
    (jwt_verify : string -> VerifyOptions -> VerifyResult)
    (isEmail : string -> bool) (normalizeEmail : string -> JsValue)
    (env : Env) (r : Route) (t : Tick) (req : Request)
    (docs : list (gmap string JsValue)) :
  ~ bearerCredential (authorization req) ->
  let o := serve jwt_verify isEmail normalizeEmail env r t req docs in
  status (response o) = 401%Z
  /\ rejectedByVerifier o docs
  /\ Forall (fun s => isHandler s = false) (entered o)
  /\ match authorization req with
     | None => missingCredential (response o)
     | Some h => if isEmpty h then missingCredential (response o)
                 else malformedCredential (response o)
     end.
Proof.
  intros Hbad o.
  destruct (validate_rejects_bad_header jwt_verify env req Hbad)
    as [res [Hres [Hst Hkind]]].
  subst o. rewrite (serve_rejected _ _ _ _ r t req docs res Hres).
  cbn [response store entered]. split; [exact Hst|].
  split; [split; reflexivity|].
  split; [repeat constructor|exact Hkind].
Qed.

Lemma bad_credential_rejected_witness :
  ~ bearerCredential (authorization (sampleRequest (Some "Basic dXNlcjpwdw==")))
  /\ status (response (serve sampleVerify sampleIsEmail sampleNormalizeEmail
                         sampleEnv GET_id sampleTick
                         (sampleRequest (Some "Basic dXNlcjpwdw==")) []))
     = 401%Z.
Proof.
  assert (H : ~ bearerCredential
                (authorization (sampleRequest (Some "Basic dXNlcjpwdw==")))).
  { intros [token [E _]]. simpl in E. discriminate E. }
  split; [exact H|].
  exact (proj1 (bad_credential_rejected sampleVerify sampleIsEmail
                  sampleNormalizeEmail sampleEnv GET_id sampleTick
                  (sampleRequest (Some "Basic dXNlcjpwdw==")) [] H)).
Defined.

(** C1.  A token that fails the first verification on its audience, the
    client id being configured, is verified again with the algorithm and
    the issuer of the first attempt and no audience; when that second
    verification succeeds the middleware calls [next()] with the request
    as it came but for [req.user], which holds the subject id, e-mail,
    user name, names, e-mail flag, realm roles and client roles read from
    the decoded payload and the payload itself; and on every protected
    route the function after the middleware is entered. *)
Theorem relaxed_audience_fallback
    (jwt_verify : string -> VerifyOptions -> VerifyResult)
    (isEmail : string -> bool) (normalizeEmail : string -> JsValue)
    (env : Env) (req : Request) (token aud : string) (err : JwtError)
    (decoded : JsValue) :
  authorization req = Some ("Bearer " +:+ token) ->
  hasChar " " token = false ->
  trim token <> "" ->
  includes (issuerOf env) "undefined" = false ->
  KEYCLOAK_CLIENT_ID env = Some aud ->
  aud <> "" ->
  jwt_verify (trim token) (verifyOptionsOf env) = VerifyError err ->
  includes (err_message err) "audience" = true ->
  jwt_verify (trim token) (retryOptionsOf env) = VerifyOk decoded ->
  let algorithm :=
    match JWT_ALGORITHM env with
    | Some (String c a) => String c a
    | _ => "RS256"
    end in
  let issuerUrl :=
    default "undefined" (KEYCLOAK_URL env) +:+ "/realms/"
    +:+ default "undefined" (KEYCLOAK_REALM env) in
  verifyOptionsOf env
  = {| algorithms := [algorithm]; issuer := issuerUrl; audience := Some aud |}
  /\ retryOptionsOf env
     = {| algorithms := [algorithm]; issuer := issuerUrl; audience := None |}
  /\ validateKeycloakToken jwt_verify env req
     = Next
         {| authorization := authorization req;
            params_id := params_id req;
            query := query req;
            body := body req;
            user :=
              Some
                {| ui_keycloakId := js_get decoded "sub";
                   ui_email := js_get decoded "email";
                   ui_username :=
                     if truthy (js_get decoded "preferred_username")
                     then js_get decoded "preferred_username"
                     else js_get decoded "username";
                   ui_firstName := js_get decoded "given_name";
                   ui_lastName := js_get decoded "family_name";
                   ui_emailVerified := js_get decoded "email_verified";
                   ui_roles :=
                     (let roles :=
                        js_get (js_get decoded "realm_access") "roles" in
                      if truthy roles then roles else JArr []);
                   ui_clientRoles :=
                     (let roles :=
                        js_get (js_get (js_get decoded "resource_access") aud)
                          "roles" in
                      if truthy roles then roles else JArr []);
                   ui_token := decoded |} |}
  /\ forall r t docs,
       let o := serve jwt_verify isEmail normalizeEmail env r t req docs in
       hd_error (entered o) = Some MW_validateKeycloakToken
       /\ hd_error (tl (entered o)) = hd_error (tl (routeChain r)).
Proof.
  intros Hauth Hsp Htok Hiss Haud Hne Hfirst Hmsg Hretry algorithm issuerUrl.
  assert (Hconf : configured (KEYCLOAK_CLIENT_ID env) = Some aud).
  { rewrite Haud. unfold configured. rewrite (isEmpty_false _ Hne). reflexivity. }
  assert (Halg : algorithmOf env = algorithm).
  { unfold algorithmOf, configured, algorithm.
    destruct (JWT_ALGORITHM env) as [[|c a]|]; reflexivity. }
  assert (Hv : validateKeycloakToken jwt_verify env req
               = Next (set_user (userInfoOf decoded (Some aud)) req)).
  { rewrite (validate_bearer_header jwt_verify env req token Hauth Hsp Htok).
    rewrite Hiss, Hfirst, Hmsg, Hconf.
    rewrite (includes_nonempty _ "audience" ltac:(discriminate) Hmsg).
    rewrite bool_decide_eq_true_2 by eauto.
    cbn [negb andb]. rewrite Hretry, Haud. reflexivity. }
  split; [unfold verifyOptionsOf; rewrite Hconf, Halg; reflexivity|].
  split; [unfold retryOptionsOf; rewrite Halg; reflexivity|].
  split; [exact Hv|].
  intros r t docs o. subst o.
  rewrite (serve_passed _ _ _ _ r t req docs _ Hv). cbn [entered hd_error tl].
  split; [reflexivity|].
  destruct (routeChain_head r) as [rest [Hr Hrest]]. rewrite Hr. cbn [tl].
  destruct rest as [|s rest]; [contradiction|].
  apply runSteps_enters_first. reflexivity.
Qed.

Lemma relaxed_audience_fallback_witness :
  retryOptionsOf sampleEnv
  = {| algorithms := ["RS256"];
       issuer := "http://localhost:8080/realms/user-service";
       audience := None |}
  /\ validateKeycloakToken sampleVerify sampleEnv
       (sampleRequest (Some "Bearer tok.aud"))
     = Next
         {| authorization := Some "Bearer tok.aud";
            params_id := params_id (sampleRequest (Some "Bearer tok.aud"));
            query := query (sampleRequest (Some "Bearer tok.aud"));
            body := body (sampleRequest (Some "Bearer tok.aud"));
            user :=
              Some
                {| ui_keycloakId := JStr "f3b1c2d4";
                   ui_email := JStr "test@example.com";
                   ui_username := JStr "testuser";
                   ui_firstName := JStr "Test";
                   ui_lastName := JStr "User";
                   ui_emailVerified := JBool true;
                   ui_roles := JArr [JStr "offline_access"];
                   ui_clientRoles := JArr [];
                   ui_token := samplePayload |} |}.
Proof.
  pose proof
    (relaxed_audience_fallback sampleVerify sampleIsEmail sampleNormalizeEmail
       sampleEnv (sampleRequest (Some "Bearer tok.aud")) "tok.aud"
       "user-service-client"
       {| err_name := "JsonWebTokenError";
          err_message := "jwt audience invalid. expected: user-service-client" |}
       samplePayload
       eq_refl eq_refl ltac:(discriminate) eq_refl eq_refl ltac:(discriminate)
       eq_refl eq_refl eq_refl) as (_ & Hretry & Hnext & _).
  split; [exact Hretry|exact Hnext].
Defined.

(** C3, as stated, fails: the malformed class and the signature-invalid
    class are reported with one and the same code. *)
Lemma failure_codes_not_distinct :
  ~ (forall c1 c2 : FailureClass,
       c1 <> c2 -> callerVisibleCode c1 <> callerVisibleCode c2).
Proof.
  intros H. apply (H TokenMalformed SignatureInvalid); [discriminate|reflexivity].
Qed.

Lemma unset_issuer_detected (env : Env) :
  KEYCLOAK_URL env = None \/ KEYCLOAK_REALM env = None ->
  includes (issuerOf env) "undefined" = true.
Proof.
  unfold issuerOf. intros [H|H]; rewrite H; cbn [tmpl default].
  - apply includes_prefix.
  - apply includes_append_r. apply includes_append_r. reflexivity.
Qed.

(** C3, amended.  Every verification failure is answered 401 with a code
    chosen by the name of the library's error: [TokenExpiredError] gives
    [TOKEN_EXPIRED], [JsonWebTokenError] gives [INVALID_TOKEN]; so the
    expired class has a code of its own while the malformed and the
    signature-invalid class share [INVALID_TOKEN], and the configuration
    error is a 500 answer without a code.  A token with a tampered
    signature or an algorithm mismatch is answered 401 with
    [INVALID_TOKEN] on every protected route, by the middleware alone. *)
Theorem verification_failure_codes
    (jwt_verify : string -> VerifyOptions -> VerifyResult)
    (isEmail : string -> bool) (normalizeEmail : string -> JsValue)
    (env : Env) (r : Route) (t : Tick) (req : Request)
    (docs : list (gmap string JsValue)) (token : string) (c : VerifyFailure) :
  authorization req = Some ("Bearer " +:+ token) ->
  hasChar " " token = false ->
  trim token <> "" ->
  includes (issuerOf env) "undefined" = false ->
  c = InvalidSignature \/ c = InvalidAlgorithm ->
  jwt_verify (trim token) (verifyOptionsOf env) = VerifyError (libraryError c) ->
  let o := serve jwt_verify isEmail normalizeEmail env r t req docs in
  (status (response o) = 401%Z
   /\ errorCode (response o) = JStr "INVALID_TOKEN"
   /\ rejectedByVerifier o docs)
  /\ (forall err, status (handleVerificationError err) = 401%Z)
  /\ (forall err, err_name err = "TokenExpiredError" ->
        errorCode (handleVerificationError err) = JStr "TOKEN_EXPIRED")
  /\ (forall err, err_name err = "JsonWebTokenError" ->
        errorCode (handleVerificationError err) = JStr "INVALID_TOKEN")
  /\ callerVisibleCode TokenExpired = JStr "TOKEN_EXPIRED"
  /\ callerVisibleCode TokenMalformed = JStr "INVALID_TOKEN"
  /\ callerVisibleCode SignatureInvalid = JStr "INVALID_TOKEN"
  /\ callerVisibleCode ConfigurationError = JUndefined
  /\ (forall env' req' token',
        authorization req' = Some ("Bearer " +:+ token') ->
        hasChar " " token' = false ->
        trim token' <> "" ->
        KEYCLOAK_URL env' = None \/ KEYCLOAK_REALM env' = None ->
        validateKeycloakToken jwt_verify env' req'
        = Respond (failureResponse ConfigurationError)
        /\ status (failureResponse ConfigurationError) = 500%Z).
Proof.
  intros Hauth Hsp Htok Hiss Hc Hfirst o.
  split.
  { assert (Hv : validateKeycloakToken jwt_verify env req
                 = Respond (handleVerificationError (libraryError c))).
    { rewrite (validate_bearer_header jwt_verify env req token Hauth Hsp Htok).
      rewrite Hiss, Hfirst. destruct Hc as [-> | ->]; reflexivity. }
    subst o. rewrite (serve_rejected _ _ _ _ r t req docs _ Hv).
    cbn [response store entered].
    destruct Hc as [-> | ->]; (split; [reflexivity|]);
      (split; [reflexivity|split; reflexivity]). }
  split; [reflexivity|].
  split.
  { intros err E. unfold handleVerificationError. rewrite E. reflexivity. }
  split.
  { intros err E. unfold handleVerificationError. rewrite E. reflexivity. }
  do 4 (split; [reflexivity|]).
  intros env' req' token' Hauth' Hsp' Htok' Hunset.
  rewrite (validate_bearer_header jwt_verify env' req' token' Hauth' Hsp' Htok').
  rewrite (unset_issuer_detected env' Hunset). split; reflexivity.
Qed.

Lemma verification_failure_codes_witness :
  let o := serve sampleVerify sampleIsEmail sampleNormalizeEmail sampleEnv
             DELETE_me sampleTick (sampleRequest (Some "Bearer tok.sig"))
             [sampleRecord] in
  status (response o) = 401%Z
  /\ errorCode (response o) = JStr "INVALID_TOKEN"
  /\ rejectedByVerifier o [sampleRecord].
Proof.
  exact (proj1
    (verification_failure_codes sampleVerify sampleIsEmail sampleNormalizeEmail
       sampleEnv DELETE_me sampleTick (sampleRequest (Some "Bearer tok.sig"))
       [sampleRecord] "tok.sig" InvalidSignature
       eq_refl eq_refl ltac:(discriminate) eq_refl (or_introl eq_refl) eq_refl)).
Defined.

(** ** Reading records *)

Lemma rethrown_is_not_plain_not_found {A : Type} (prefix0 : ascii)
    (prefix m : string) (r : Result A) :
  prefix0 <> "U"%char ->
  rethrow (String prefix0 prefix) r = Throw m -> notFoundOr500 m = 500%Z.
Proof.
  intros Hne. destruct r as [a|m0]; simpl; [discriminate|].
  intros [= <-]. unfold notFoundOr500. simpl.
  destruct (Ascii.eqb_spec prefix0 "U"); [contradiction|reflexivity].
Qed.

(** C2 on the code.  [GET /api/users/:id] answers 200 when the service
    finds the record and 500 in every other case, with the service's
    message; no request is answered 404.  For a well-formed id that no
    record has the message is the wrapped text the handler's comparison
    with [User not found] does not match. *)
Theorem getUserById_missing_is_500 (req : Request)
    (docs : list (gmap string JsValue)) :
  status (getUserByIdHandler req docs) <> 404%Z
  /\ match getUserById (params_id req) docs with
     | Ok u => status (getUserByIdHandler req docs) = 200%Z
     | Throw m => getUserByIdHandler req docs = errorEnvelope 500 m m
     end
  /\ getUserByIdHandler (sampleRequest None) []
     = errorEnvelope 500 "Failed to get user: User not found"
         "Failed to get user: User not found"
  /\ getUserByIdHandler (sampleRequest None) [otherRecord]
     = errorEnvelope 500 "Failed to get user: User not found"
         "Failed to get user: User not found".
Proof.
  assert (H : match getUserById (params_id req) docs with
              | Ok u => status (getUserByIdHandler req docs) = 200%Z
              | Throw m => getUserByIdHandler req docs = errorEnvelope 500 m m
              end).
  { unfold getUserByIdHandler.
    destruct (getUserById (params_id req) docs) as [u|m] eqn:E; [reflexivity|].
    unfold getUserById in E.
    assert (Hn : notFoundOr500 m = 500%Z).
    { eapply rethrown_is_not_plain_not_found; [|exact E]. discriminate. }
    rewrite Hn. reflexivity. }
  split.
  { destruct (getUserById (params_id req) docs); rewrite H; discriminate. }
  split; [exact H|]. split; reflexivity.
Qed.

(** ** Listing *)

Lemma insertSorted_length d l : length (insertSorted d l) = S (length l).
Proof.
  induction l as [|x l IH]; simpl; [reflexivity|].
  destruct (newerOrEqual d x); simpl; [reflexivity|]. rewrite IH. reflexivity.
Qed.

Lemma sortByCreatedAtDesc_length docs :
  length (sortByCreatedAtDesc docs) = length docs.
Proof.
  unfold sortByCreatedAtDesc. induction docs as [|d docs IH]; simpl;
    [reflexivity|]. rewrite insertSorted_length, IH. reflexivity.
Qed.

(** The page of a listing with a positive page and limit. *)
Lemma getAllUsers_page (page limit : Z) docs :
  (1 <= page)%Z -> (1 <= limit)%Z ->
  exists users,
    getAllUsers page limit docs
    = Ok (users,
          {| pg_page := page; pg_limit := limit;
             pg_total := Z.of_nat (length docs);
             pg_pages := ceilDiv (Z.of_nat (length docs)) limit |})
    /\ length users
       = Nat.min (Z.to_nat limit)
           (length docs - Z.to_nat ((page - 1) * limit)).
Proof.
  intros Hp Hl. unfold getAllUsers.
  destruct ((page - 1) * limit <? 0)%Z eqn:Hs; [apply Z.ltb_lt in Hs; nia|].
  destruct (limit =? 0)%Z eqn:H0; [apply Z.eqb_eq in H0; lia|].
  eexists. split; [reflexivity|].
  rewrite length_take, length_drop, sortByCreatedAtDesc_length.
  rewrite Z.abs_eq by lia. reflexivity.
Qed.

(** C4 on the code.  A missing [page] defaults to 1 and a missing
    [limit] to 10, but a [limit] of 101 is passed on as it is: the
    listing is answered 200 with a page size of 101 and up to 101
    records. *)
Theorem limit_above_cap_is_honoured (docs : list (gmap string JsValue)) :
  let req := {| authorization := None; params_id := "";
                query := {["limit" := "101"]}; body := []; user := None |} in
  parseIntOr (query (sampleRequest None) !! "page") 1 = 1%Z
  /\ parseIntOr (query (sampleRequest None) !! "limit") 10 = 10%Z
  /\ parseIntOr (query req !! "limit") 10 = 101%Z
  /\ exists users,
       getAllUsers (parseIntOr (query req !! "page") 1)
         (parseIntOr (query req !! "limit") 10) docs
       = Ok (users,
             {| pg_page := 1; pg_limit := 101;
                pg_total := Z.of_nat (length docs);
                pg_pages := ceilDiv (Z.of_nat (length docs)) 101 |})
       /\ length users = Nat.min 101 (length docs)
       /\ status (getAllUsersHandler req docs) = 200%Z
       /\ js_get (js_get (json (getAllUsersHandler req docs)) "pagination")
            "limit" = JNum 101.
Proof.
  intros req.
  assert (Hl : query req !! "limit" = Some "101") by reflexivity.
  assert (Hp : query req !! "page" = None) by reflexivity.
  split; [reflexivity|]. split; [reflexivity|].
  split; [rewrite Hl; reflexivity|].
  rewrite Hl, Hp.
  change (parseIntOr None 1) with 1%Z.
  change (parseIntOr (Some "101") 10) with 101%Z.
  destruct (getAllUsers_page 1 101 docs ltac:(lia) ltac:(lia)) as [users [E Hlen]].
  exists users. split; [exact E|].
  split.
  { rewrite Hlen. change (Z.to_nat ((1 - 1) * 101)) with 0%nat.
    change (Z.to_nat 101) with 101%nat. rewrite Nat.sub_0_r. reflexivity. }
  unfold getAllUsersHandler. rewrite Hl, Hp.
  change (parseIntOr None 1) with 1%Z.
  change (parseIntOr (Some "101") 10) with 101%Z.
  rewrite E. split; reflexivity.
Qed.

(** ** The document store *)

Lemma castEntry_absent ty : castEntry ty None = None.
Proof. destruct ty; reflexivity. Qed.

Lemma castEntry_undefined ty : castEntry ty (Some JUndefined) = None.
Proof. destruct ty; reflexivity. Qed.

(** What a cast update holds, path by path. *)
Lemma castUpdate_spec schema (upd acc : gmap string JsValue) :
  castUpdate schema upd = Some acc ->
  forall k, acc !! k = castEntry (pathType schema k) (upd !! k).
Proof.
  revert acc. induction schema as [|[path ty] rest IH]; intros acc H k.
  - injection H as <-. rewrite lookup_empty. reflexivity.
  - cbn [castUpdate] in H. cbn [pathType].
    destruct (castUpdate rest upd) as [acc0|] eqn:E0; [|discriminate].
    specialize (IH acc0 eq_refl).
    destruct (String.eqb_spec k path) as [->|Hne].
    + destruct (upd !! path) as [v|] eqn:Ev.
      * destruct (castValue ty v) as [v'|] eqn:Ec.
        -- destruct v; injection H as <-;
             try (rewrite lookup_insert_eq; cbn [castEntry]; rewrite Ec;
                  reflexivity).
           rewrite IH, Ev. apply castEntry_undefined.
        -- destruct v; try discriminate. injection H as <-.
           rewrite IH, Ev. apply castEntry_undefined.
      * injection H as <-. rewrite IH, Ev. apply castEntry_absent.
    + assert (Hacc : acc !! k = acc0 !! k).
      { destruct (upd !! path) as [v|].
        - destruct (castValue ty v) as [v'|]; destruct v;
            try discriminate; injection H as <-;
            try reflexivity; rewrite lookup_insert_ne by congruence;
            reflexivity.
        - injection H as <-. reflexivity. }
      rewrite Hacc. apply IH.
Qed.

(** A path the update does not submit is not in the cast update. *)
Lemma castUpdate_absent schema (upd acc : gmap string JsValue) k :
  castUpdate schema upd = Some acc -> upd !! k = None -> acc !! k = None.
Proof.
  intros H Hk. rewrite (castUpdate_spec _ _ _ H), Hk. apply castEntry_absent.
Qed.

(** A cast update fails exactly when one submitted value fails its
    cast. *)
Lemma castUpdate_fails schema (upd : gmap string JsValue) :
  castUpdate schema upd = None ->
  exists path ty v,
    In (path, ty) schema /\ upd !! path = Some v /\ v <> JUndefined
    /\ castValue ty v = None.
Proof.
  induction schema as [|[path ty] rest IH]; cbn [castUpdate]; [discriminate|].
  destruct (castUpdate rest upd) as [acc0|] eqn:E0.
  - intros H. destruct (upd !! path) as [v|] eqn:Ev; [|discriminate].
    destruct (castValue ty v) eqn:Ec; [destruct v; discriminate|].
    exists path, ty, v. split; [left; reflexivity|]. split; [exact Ev|].
    split; [|exact Ec]. intros ->. discriminate.
  - intros _. destruct (IH eq_refl) as (p & ty' & v & Hin & Hv & Hu & Hc).
    exists p, ty', v. split; [right; exact Hin|]. auto.
Qed.

Lemma findIndex_Some (p : gmap string JsValue -> bool) docs i :
  findIndex p docs = Some i ->
  exists d, docs !! i = Some d /\ p d = true
            /\ forall j d0, (j < i)%nat -> docs !! j = Some d0 -> p d0 = false.
Proof.
  revert i. induction docs as [|x docs IH]; intros i; cbn [findIndex];
    [discriminate|].
  destruct (p x) eqn:Hx.
  - intros [= <-]. exists x. split; [reflexivity|]. split; [exact Hx|]. lia.
  - destruct (findIndex p docs) as [i0|]; [|discriminate].
    intros [= <-]. destruct (IH i0 eq_refl) as (d & Hd & Hp & Hlt).
    exists d. split; [exact Hd|]. split; [exact Hp|].
    intros [|j] d0 Hj Hl; [injection Hl as <-; exact Hx|].
    apply (Hlt j); [lia|exact Hl].
Qed.

Lemma findIndex_None (p : gmap string JsValue -> bool) docs :
  findIndex p docs = None ->
  forall j d0, docs !! j = Some d0 -> p d0 = false.
Proof.
  induction docs as [|x docs IH]; cbn [findIndex]; intros H j d0 Hj;
    [discriminate|].
  destruct (p x) eqn:Hx; [discriminate|].
  destruct (findIndex p docs); [discriminate|].
  destruct j as [|j]; [injection Hj as <-; exact Hx|]. exact (IH eq_refl j d0 Hj).
Qed.

Lemma findIndex_first (p : gmap string JsValue -> bool) docs i d :
  docs !! i = Some d -> p d = true ->
  (forall j d0, (j < i)%nat -> docs !! j = Some d0 -> p d0 = false) ->
  findIndex p docs = Some i.
Proof.
  revert i. induction docs as [|x docs IH]; intros i Hd Hp Hlt; [discriminate|].
  cbn [findIndex]. destruct i as [|i].
  - injection Hd as ->. rewrite Hp. reflexivity.
  - rewrite (Hlt 0%nat x ltac:(lia) eq_refl).
    rewrite (IH i Hd Hp); [reflexivity|].
    intros j d0 Hj Hl. apply (Hlt (S j)); [lia|exact Hl].
Qed.

(** The ways a [findOneAndUpdate] can go. *)
Lemma findOneAndUpdate_cases t k q upd upsert docs r docs' :
  findOneAndUpdate t k q upd upsert docs = (r, docs') ->
  (exists m, r = Throw m /\ docs' = docs
             /\ (castFilter q = None \/ castUpdate userSchema upd = None))
  \/ exists q' casted,
       castFilter q = Some q' /\ castUpdate userSchema upd = Some casted
       /\ ((exists i d,
              findIndex (fieldMatches k q') docs = Some i /\ docs !! i = Some d
              /\ r = Ok (Some (stampUpdate t casted d))
              /\ docs' = <[i := stampUpdate t casted d]> docs)
           \/ (findIndex (fieldMatches k q') docs = None /\ upsert = false
               /\ r = Ok None /\ docs' = docs)
           \/ (findIndex (fieldMatches k q') docs = None /\ upsert = true
               /\ r = Ok (Some (insertedDocument t k q' casted))
               /\ docs' = (docs ++ [insertedDocument t k q' casted])%list)).
Proof.
  unfold findOneAndUpdate.
  destruct (castFilter q) as [q'|] eqn:Eq.
  2:{ intros [= <- <-]. left. eexists. split; [reflexivity|]. auto. }
  destruct (castUpdate userSchema upd) as [casted|] eqn:Ec.
  2:{ intros [= <- <-]. left. eexists. split; [reflexivity|]. auto. }
  intros H. right. exists q', casted. split; [reflexivity|]. split; [reflexivity|].
  destruct (findIndex (fieldMatches k q') docs) as [i|] eqn:Ef.
  - destruct (findIndex_Some _ _ _ Ef) as (d & Hd & _). rewrite Hd in H.
    injection H as <- <-. left. exists i, d. auto.
  - destruct upsert; injection H as <- <-; right; [right|left]; auto.
Qed.

(** A field the cast update does not hold, other than [updatedAt], is
    what it was. *)
Lemma stampUpdate_frame t (casted d : gmap string JsValue) k :
  casted !! k = None -> k <> "updatedAt" ->
  stampUpdate t casted d !! k = d !! k.
Proof.
  intros Hc Hk. unfold stampUpdate.
  rewrite lookup_insert_ne by congruence.
  rewrite lookup_union_r by exact Hc. reflexivity.
Qed.

Lemma stampUpdate_set t (casted d : gmap string JsValue) k v :
  casted !! k = Some v -> k <> "updatedAt" ->
  stampUpdate t casted d !! k = Some v.
Proof.
  intros Hc Hk. unfold stampUpdate.
  rewrite lookup_insert_ne by congruence.
  apply lookup_union_Some_l. exact Hc.
Qed.

(** An update that submits nothing for a field leaves that field of every
    record alone, and no record goes away. *)
Lemma findOneAndUpdate_frame t k q upd upsert docs f :
  upd !! f = None -> f <> "updatedAt" ->
  forall i d, docs !! i = Some d ->
    exists d', snd (findOneAndUpdate t k q upd upsert docs) !! i = Some d'
               /\ d' !! f = d !! f.
Proof.
  intros Hf Hne i d Hd.
  destruct (findOneAndUpdate t k q upd upsert docs) as [r docs'] eqn:E.
  cbn [snd].
  destruct (findOneAndUpdate_cases _ _ _ _ _ _ _ _ E)
    as [(m & _ & -> & _) | (q' & casted & _ & Hc & [H|[H|H]])].
  - exists d. auto.
  - destruct H as (i0 & d0 & _ & Hd0 & _ & ->).
    destruct (decide (i0 = i)) as [->|Hi].
    + rewrite Hd in Hd0. injection Hd0 as <-.
      exists (stampUpdate t casted d). split.
      * apply list_lookup_insert_eq. eapply lookup_lt_Some; eauto.
      * apply stampUpdate_frame; [|exact Hne].
        eapply castUpdate_absent; eauto.
    + exists d. rewrite list_lookup_insert_ne by exact Hi. auto.
  - destruct H as (_ & _ & _ & ->). exists d. auto.
  - destruct H as (_ & _ & _ & ->). exists d.
    rewrite lookup_app_l by (eapply lookup_lt_Some; eauto). auto.
Qed.

(** ** The three writing operations *)

Lemma syncFields_no_key t ud : syncFields t ud !! "keycloakId" = None.
Proof. reflexivity. Qed.

Lemma assoc_None_keys k (b : list (string * JsValue)) :
  assoc k b = None -> ~ In k (map fst b).
Proof.
  induction b as [|[k' v] b IH]; cbn [assoc map fst In]; [tauto|].
  destruct (String.eqb_spec k k'); [discriminate|].
  intros H [E|Hin]; [congruence|exact (IH H Hin)].
Qed.

Lemma assoc_Some_keys k (b : list (string * JsValue)) v :
  assoc k b = Some v -> In k (map fst b).
Proof.
  induction b as [|[k' v'] b IH]; cbn [assoc map fst In]; [discriminate|].
  destruct (String.eqb_spec k k'); [auto|]. intros H. right. exact (IH H).
Qed.

(** [updateFields] holds exactly the allow-listed fields of the body. *)
Lemma updateFieldsOf_spec (updateData : list (string * JsValue)) k :
  updateFieldsOf updateData !! k
  = if isAllowed k then assoc k updateData else None.
Proof.
  unfold updateFieldsOf.
  assert (G : forall (keys : list string) (acc : gmap string JsValue),
    fold_left
      (fun updateFields key =>
         if isAllowed key
         then <[key := default JUndefined (assoc key updateData)]> updateFields
         else updateFields) keys acc !! k
    = if (isAllowed k && bool_decide (k ∈ keys))%bool
      then Some (default JUndefined (assoc k updateData)) else acc !! k).
  { induction keys as [|key keys IH]; intros acc; cbn [fold_left].
    - rewrite bool_decide_eq_false_2 by apply not_elem_of_nil.
      rewrite andb_false_r. reflexivity.
    - rewrite IH. destruct (isAllowed k) eqn:Hk; cbn [andb].
      + destruct (decide (k ∈ keys)) as [Hin|Hin].
        * rewrite !bool_decide_eq_true_2;
            [reflexivity|apply elem_of_cons; right; exact Hin|exact Hin].
        * rewrite (bool_decide_eq_false_2 _ Hin).
          destruct (decide (key = k)) as [->|Hne].
          -- rewrite Hk, lookup_insert_eq.
             rewrite bool_decide_eq_true_2 by (apply elem_of_cons; left; reflexivity).
             reflexivity.
          -- rewrite bool_decide_eq_false_2
               by (intros [E|E]%elem_of_cons; [congruence|tauto]).
             destruct (isAllowed key); [|reflexivity].
             rewrite lookup_insert_ne by exact Hne. reflexivity.
      + destruct (isAllowed key) eqn:Hkey; [|reflexivity].
        rewrite lookup_insert_ne; [reflexivity|]. intros ->. congruence. }
  rewrite G, lookup_empty. destruct (isAllowed k); cbn [andb]; [|reflexivity].
  destruct (assoc k updateData) as [v|] eqn:E.
  - rewrite bool_decide_eq_true_2
      by (apply list_elem_of_In; eapply assoc_Some_keys; eauto).
    reflexivity.
  - rewrite bool_decide_eq_false_2
      by (rewrite list_elem_of_In; apply assoc_None_keys; exact E).
    reflexivity.
Qed.

Lemma updateFieldsOf_not_allowed updateData k :
  isAllowed k = false -> updateFieldsOf updateData !! k = None.
Proof. intros H. rewrite updateFieldsOf_spec, H. reflexivity. Qed.

(** No operation submits a value for a field outside its own list. *)
Lemma applyOp_frame t op docs f :
  isAllowed f = false ->
  f <> "updatedAt" ->
  ~ In f ["email"; "username"; "firstName"; "lastName"; "enabled";
          "emailVerified"; "lastLogin"] ->
  forall i d, docs !! i = Some d ->
    exists d', applyOp t op docs !! i = Some d' /\ d' !! f = d !! f.
Proof.
  intros Ha Hu Hs i d Hd. destruct op as [ud|kid b|kid]; cbn [applyOp].
  - unfold syncUserFromKeycloak.
    pose proof (findOneAndUpdate_frame t "keycloakId" (ud_keycloakId ud)
                  (syncFields t ud) true docs f) as H.
    destruct (findOneAndUpdate t "keycloakId" (ud_keycloakId ud)
                (syncFields t ud) true docs) as [r docs'].
    cbn [snd] in *. apply H; [|exact Hu|exact Hd].
    unfold syncFields. cbn [list_to_map foldr uncurry fst snd].
    cbn [In] in Hs.
    repeat (rewrite lookup_insert_ne by (intros E; apply Hs; rewrite <- E; tauto)).
    apply lookup_empty.
  - unfold updateUserProfile.
    pose proof (findOneAndUpdate_frame t "keycloakId" kid
                  (updateFieldsOf b) false docs f) as H.
    destruct (findOneAndUpdate t "keycloakId" kid (updateFieldsOf b) false docs)
      as [r docs'].
    cbn [snd] in *. apply H; [|exact Hu|exact Hd].
    apply updateFieldsOf_not_allowed. exact Ha.
  - unfold deleteUser.
    pose proof (findOneAndUpdate_frame t "keycloakId" kid
                  {["enabled" := JBool false]} false docs f) as H.
    destruct (findOneAndUpdate t "keycloakId" kid {["enabled" := JBool false]}
                false docs) as [r docs'].
    cbn [snd] in *. apply H; [|exact Hu|exact Hd].
    apply lookup_singleton_ne. intros E. apply Hs. rewrite <- E. cbn. tauto.
Qed.

Lemma applyOps_key ops docs :
  forall i d, docs !! i = Some d ->
    exists d', applyOps ops docs !! i = Some d'
               /\ d' !! "keycloakId" = d !! "keycloakId".
Proof.
  revert docs. induction ops as [|[t op] ops IH]; intros docs i d Hd.
  - exists d. auto.
  - unfold applyOps. cbn [fold_left].
    destruct (applyOp_frame t op docs "keycloakId" eq_refl ltac:(discriminate)
                ltac:(cbn; intuition discriminate) i d Hd) as (d1 & Hd1 & Hk1).
    destruct (IH (applyOp t op docs) i d1 Hd1) as (d' & Hd' & Hk').
    exists d'. split; [exact Hd'|]. congruence.
Qed.

Lemma castFilter_text sub : castFilter (JStr sub) = Some (JStr sub).
Proof. reflexivity. Qed.

Lemma fieldMatches_text k sub (d : gmap string JsValue) :
  fieldMatches k (JStr sub) d = true <-> d !! k = Some (JStr sub).
Proof.
  unfold fieldMatches. split.
  - destruct (d !! k) as [[]|]; try discriminate.
    intros H. apply String.eqb_eq in H. congruence.
  - intros ->. apply String.eqb_refl.
Qed.

Lemma insertedDocument_key t q (casted : gmap string JsValue) :
  casted !! "keycloakId" = None ->
  insertedDocument t "keycloakId" q casted !! "keycloakId" = Some q.
Proof.
  intros Hc. unfold insertedDocument.
  do 4 (rewrite lookup_insert_ne by discriminate).
  rewrite lookup_union_r by exact Hc. apply lookup_insert_eq.
Qed.

(** C8.  No sequence of synchronizations, profile updates and soft
    deletes removes a stored record or changes its [keycloakId]; and a
    synchronization for a subject id writes (changes or creates) only a
    record whose [keycloakId] is that subject id. *)
Theorem identity_key_immutable
    (ops : list (Tick * Operation)) (docs : list (gmap string JsValue))
    (i : nat) (d : gmap string JsValue) (t : Tick) (userData : UserData)
    (sub : string) :
  docs !! i = Some d ->
  ud_keycloakId userData = JStr sub ->
  (exists d', applyOps ops docs !! i = Some d'
              /\ d' !! "keycloakId" = d !! "keycloakId")
  /\ (forall j dj,
        snd (syncUserFromKeycloak t userData docs) !! j = Some dj ->
        docs !! j <> Some dj ->
        dj !! "keycloakId" = Some (JStr sub)).
Proof.
  intros Hd Hsub. split; [apply applyOps_key; exact Hd|].
  intros j dj. unfold syncUserFromKeycloak.
  destruct (findOneAndUpdate t "keycloakId" (ud_keycloakId userData)
              (syncFields t userData) true docs) as [r docs'] eqn:E.
  cbn [snd]. intros Hj Hnew.
  destruct (findOneAndUpdate_cases _ _ _ _ _ _ _ _ E)
    as [(m & _ & -> & _) | (q' & casted & Hq & Hc & [H|[H|H]])].
  - contradiction.
  - destruct H as (i0 & d0 & Hf & Hd0 & _ & ->).
    rewrite Hsub, castFilter_text in Hq. injection Hq as <-.
    destruct (findIndex_Some _ _ _ Hf) as (d1 & Hd1 & Hm & _).
    rewrite Hd0 in Hd1. injection Hd1 as <-.
    destruct (decide (i0 = j)) as [->|Hi].
    + rewrite list_lookup_insert_eq in Hj by (eapply lookup_lt_Some; eauto).
      injection Hj as <-.
      rewrite stampUpdate_frame; [apply fieldMatches_text; exact Hm| |discriminate].
      eapply castUpdate_absent; [exact Hc|apply syncFields_no_key].
    + rewrite list_lookup_insert_ne in Hj by exact Hi. contradiction.
  - destruct H as (_ & _ & _ & ->). contradiction.
  - destruct H as (_ & _ & _ & ->).
    rewrite Hsub, castFilter_text in Hq. injection Hq as <-.
    destruct (decide (j < length docs)%nat) as [Hlt|Hge].
    + rewrite lookup_app_l in Hj by exact Hlt. contradiction.
    + rewrite lookup_app_r in Hj by lia.
      destruct (j - length docs)%nat; [|discriminate]. injection Hj as <-.
      apply insertedDocument_key.
      eapply castUpdate_absent; [exact Hc|apply syncFields_no_key].
Qed.

Lemma identity_key_immutable_witness :
  (exists d',
     applyOps [(sampleTick, OpSync (userDataOf sampleUser));
               (laterTick, OpUpdate (JStr "f3b1c2d4") [("keycloakId", JStr "x")]);
               (laterTick, OpDelete (JStr "f3b1c2d4"))]
       [otherRecord; sampleRecord] !! 1%nat = Some d'
     /\ d' !! "keycloakId" = sampleRecord !! "keycloakId")
  /\ (forall j dj,
        snd (syncUserFromKeycloak sampleTick (userDataOf sampleUser)
               [otherRecord; sampleRecord]) !! j = Some dj ->
        [otherRecord; sampleRecord] !! j <> Some dj ->
        dj !! "keycloakId" = Some (JStr "f3b1c2d4")).
Proof.
  exact (identity_key_immutable
           [(sampleTick, OpSync (userDataOf sampleUser));
            (laterTick, OpUpdate (JStr "f3b1c2d4") [("keycloakId", JStr "x")]);
            (laterTick, OpDelete (JStr "f3b1c2d4"))]
           [otherRecord; sampleRecord] 1 sampleRecord sampleTick
           (userDataOf sampleUser) "f3b1c2d4" eq_refl eq_refl).
Defined.

Lemma firstWithKey_found sub docs i d :
  firstWithKey sub docs i d ->
  findIndex (fieldMatches "keycloakId" (JStr sub)) docs = Some i.
Proof.
  intros (Hd & Hk & Hlt). apply (findIndex_first _ _ _ d Hd).
  - apply fieldMatches_text. exact Hk.
  - intros j d0 Hj Hl. destruct (fieldMatches "keycloakId" (JStr sub) d0) eqn:E;
      [|reflexivity].
    apply fieldMatches_text in E. exfalso. exact (Hlt j d0 Hj Hl E).
Qed.

(** An update of the record of an existing subject. *)
Lemma findOneAndUpdate_existing t sub upd upsert docs i d casted :
  firstWithKey sub docs i d ->
  castUpdate userSchema upd = Some casted ->
  findOneAndUpdate t "keycloakId" (JStr sub) upd upsert docs
  = (Ok (Some (stampUpdate t casted d)), <[i := stampUpdate t casted d]> docs).
Proof.
  intros Hfirst Hc. unfold findOneAndUpdate.
  rewrite castFilter_text, Hc, (firstWithKey_found _ _ _ _ Hfirst).
  destruct Hfirst as (-> & _). reflexivity.
Qed.

Lemma cast_disable :
  castUpdate userSchema {["enabled" := JBool false]}
  = Some {["enabled" := JBool false]}.
Proof. reflexivity. Qed.

(** C9, as stated, fails: a soft delete also renews [updatedAt]. *)
Lemma soft_delete_touches_updatedAt :
  exists d',
    snd (deleteCurrentUser sampleTick (authedRequest []) [sampleRecord])
      !! 0%nat = Some d'
    /\ d' !! "enabled" = Some (JBool false)
    /\ d' !! "updatedAt" = Some (JNum 1700000000002)
    /\ sampleRecord !! "updatedAt" = Some (JNum 1600000000000)
    /\ d' !! "updatedAt" <> sampleRecord !! "updatedAt".
Proof.
  eexists. split; [reflexivity|]. split; [reflexivity|].
  split; [reflexivity|]. split; [reflexivity|].
  intros H. vm_compute in H. discriminate H.
Qed.

(** C9, amended.  An authenticated [DELETE /api/users/me] on an existing
    record is answered 200; it sets the record's [enabled] to [false],
    renews its [updatedAt] and changes no other field; the record stays
    in the store, at its place, and no other record changes. *)
Theorem soft_delete_frame (t : Tick) (req : Request) (u : UserInfo)
    (sub : string) (docs : list (gmap string JsValue)) (i : nat)
    (d : gmap string JsValue) :
  user req = Some u ->
  ui_keycloakId u = JStr sub ->
  firstWithKey sub docs i d ->
  let d' := <["updatedAt" := JNum (stamp_now t)]> (<["enabled" := JBool false]> d) in
  status (fst (deleteCurrentUser t req docs)) = 200%Z
  /\ snd (deleteCurrentUser t req docs) = <[i := d']> docs
  /\ snd (deleteCurrentUser t req docs) !! i = Some d'
  /\ d' !! "enabled" = Some (JBool false)
  /\ (forall k, k <> "enabled" -> k <> "updatedAt" -> d' !! k = d !! k)
  /\ length (snd (deleteCurrentUser t req docs)) = length docs
  /\ (forall j, j <> i -> snd (deleteCurrentUser t req docs) !! j = docs !! j).
Proof.
  intros Hu Hsub Hfirst d'.
  assert (E : deleteCurrentUser t req docs
              = ({| status := 200;
                    json := JObj [("success", JBool true);
                                  ("message", JStr "User deleted successfully")] |},
                 <[i := d']> docs)).
  { unfold deleteCurrentUser, deleteUser. rewrite Hu, Hsub.
    rewrite (findOneAndUpdate_existing t sub _ false docs i d _ Hfirst cast_disable).
    unfold stampUpdate. rewrite <- insert_union_singleton_l. reflexivity. }
  rewrite E. cbn [fst snd status].
  split; [reflexivity|]. split; [reflexivity|].
  split.
  { apply list_lookup_insert_eq. destruct Hfirst as (Hd & _).
    eapply lookup_lt_Some; eauto. }
  split.
  { subst d'. rewrite lookup_insert_ne by discriminate. apply lookup_insert_eq. }
  split.
  { intros k Hk1 Hk2. subst d'. rewrite !lookup_insert_ne by congruence.
    reflexivity. }
  split; [apply length_insert|].
  intros j Hj. apply list_lookup_insert_ne. congruence.
Qed.

Lemma sampleRecord_first :
  firstWithKey "f3b1c2d4" [otherRecord; sampleRecord] 1 sampleRecord.
Proof.
  split; [reflexivity|]. split; [reflexivity|].
  intros [|j] d0 Hj Hl; [|lia]. injection Hl as <-. discriminate.
Defined.

Lemma soft_delete_frame_witness :
  snd (deleteCurrentUser sampleTick (authedRequest []) [otherRecord; sampleRecord])
  = [otherRecord;
     <["updatedAt" := JNum 1700000000002]> (<["enabled" := JBool false]> sampleRecord)].
Proof.
  exact (proj1 (proj2
    (soft_delete_frame sampleTick (authedRequest []) sampleUser "f3b1c2d4"
       [otherRecord; sampleRecord] 1 sampleRecord eq_refl eq_refl
       sampleRecord_first))).
Defined.

(** ** Synchronization *)

Lemma userSchema_paths path ty :
  In (path, ty) userSchema ->
  (path, ty) = ("keycloakId", TString false false)
  \/ (path, ty) = ("email", TString true true)
  \/ (path, ty) = ("username", TString false true)
  \/ (path, ty) = ("firstName", TString false true)
  \/ (path, ty) = ("lastName", TString false true)
  \/ (path, ty) = ("enabled", TBoolean)
  \/ (path, ty) = ("emailVerified", TBoolean)
  \/ (path, ty) = ("profilePicture", TString false false)
  \/ (path, ty) = ("phoneNumber", TString false false)
  \/ (path, ty) = ("lastLogin", TDate)
  \/ (path, ty) = ("preferences", TMap).
Proof.
  unfold userSchema. cbn [In]. intros H.
  repeat (destruct H as [H|H]; [symmetry in H; tauto|]). contradiction.
Qed.

(** The claims of the identity provider always cast. *)
Lemma plainClaims_cast t u :
  plainClaims u = true ->
  exists casted, castUpdate userSchema (syncFields t (userDataOf u)) = Some casted.
Proof.
  intros Hp.
  destruct (castUpdate userSchema (syncFields t (userDataOf u))) as [c|] eqn:E;
    [eauto|].
  exfalso. destruct (castUpdate_fails _ _ E) as (path & ty & v & Hin & Hv & Hu & Hc).
  unfold plainClaims in Hp.
  repeat (apply andb_true_iff in Hp as [Hp ?]).
  apply userSchema_paths in Hin.
  repeat (destruct Hin as [Hin|Hin]); injection Hin as -> ->;
    unfold syncFields, userDataOf in Hv;
    cbn [ud_email ud_username ud_firstName ud_lastName ud_emailVerified
         ud_enabled ud_keycloakId list_to_map foldr uncurry fst snd] in Hv;
    repeat (rewrite lookup_insert_ne in Hv by discriminate);
    try (rewrite lookup_empty in Hv; discriminate);
    rewrite lookup_insert_eq in Hv; injection Hv as <-.
  - destruct (ui_email u); try discriminate; congruence.
  - destruct (ui_username u); try discriminate; congruence.
  - destruct (ui_firstName u); try discriminate; congruence.
  - destruct (ui_lastName u); try discriminate; congruence.
  - discriminate.
  - destruct (ui_emailVerified u) as [| |[]| | | |]; discriminate.
  - discriminate.
Qed.

Lemma cast_enabled t ud casted :
  castUpdate userSchema (syncFields t ud) = Some casted ->
  casted !! "enabled" = Some (JBool (notFalse (ud_enabled ud))).
Proof. intros H. rewrite (castUpdate_spec _ _ _ H). reflexivity. Qed.

(** C10.  An authenticated [GET /api/users/me] for a subject whose record
    exists with [enabled] set to [false] is answered 200 and leaves that
    record with [enabled] set to [true]: the handler passes
    [enabled: true] to the synchronizer whatever the stored flag is. *)
Theorem profile_fetch_reenables (t : Tick) (req : Request) (u : UserInfo)
    (sub : string) (docs : list (gmap string JsValue)) (i : nat)
    (d : gmap string JsValue) :
  user req = Some u ->
  ui_keycloakId u = JStr sub ->
  plainClaims u = true ->
  firstWithKey sub docs i d ->
  d !! "enabled" = Some (JBool false) ->
  ud_enabled (userDataOf u) = JBool true
  /\ status (fst (getCurrentUser t req docs)) = 200%Z
  /\ exists d',
       snd (getCurrentUser t req docs) = <[i := d']> docs
       /\ snd (getCurrentUser t req docs) !! i = Some d'
       /\ d' !! "enabled" = Some (JBool true)
       /\ d' !! "enabled" <> d !! "enabled"
       /\ d' !! "keycloakId" = Some (JStr sub).
Proof.
  intros Hu Hsub Hp Hfirst Hoff. split; [reflexivity|].
  destruct (plainClaims_cast t u Hp) as [casted Hc].
  pose proof (findOneAndUpdate_existing t sub _ true docs i d casted Hfirst Hc)
    as E.
  unfold getCurrentUser. rewrite Hu. fold (userDataOf u).
  unfold syncUserFromKeycloak.
  replace (ud_keycloakId (userDataOf u)) with (JStr sub) by (symmetry; exact Hsub).
  rewrite E. cbn [rethrow fst snd status successEnvelope].
  split; [reflexivity|].
  exists (stampUpdate t casted d).
  assert (He : stampUpdate t casted d !! "enabled" = Some (JBool true)).
  { apply stampUpdate_set; [|discriminate]. apply (cast_enabled _ _ _ Hc). }
  split; [reflexivity|]. split.
  { apply list_lookup_insert_eq. destruct Hfirst as (Hd & _).
    eapply lookup_lt_Some; eauto. }
  split; [exact He|]. split; [rewrite He, Hoff; discriminate|].
  rewrite stampUpdate_frame; [destruct Hfirst as (_ & Hk & _); exact Hk| |discriminate].
  eapply castUpdate_absent; [exact Hc|apply syncFields_no_key].
Qed.

Lemma disabledRecord_first :
  firstWithKey "f3b1c2d4" [otherRecord; disabledRecord] 1 disabledRecord.
Proof.
  split; [reflexivity|]. split; [reflexivity|].
  intros [|j] d0 Hj Hl; [|lia]. injection Hl as <-. discriminate.
Defined.

Lemma profile_fetch_reenables_witness :
  status (fst (getCurrentUser laterTick (authedRequest [])
                 [otherRecord; disabledRecord])) = 200%Z
  /\ exists d',
       snd (getCurrentUser laterTick (authedRequest [])
              [otherRecord; disabledRecord]) = <[1%nat := d']> [otherRecord; disabledRecord]
       /\ snd (getCurrentUser laterTick (authedRequest [])
              [otherRecord; disabledRecord]) !! 1%nat = Some d'
       /\ d' !! "enabled" = Some (JBool true)
       /\ d' !! "enabled" <> disabledRecord !! "enabled"
       /\ d' !! "keycloakId" = Some (JStr "f3b1c2d4").
Proof.
  exact (proj2
    (profile_fetch_reenables laterTick (authedRequest []) sampleUser "f3b1c2d4"
       [otherRecord; disabledRecord] 1 disabledRecord eq_refl eq_refl eq_refl
       disabledRecord_first eq_refl)).
Defined.

Lemma castUpdate_entries schema (upd acc : gmap string JsValue) path ty v :
  castUpdate schema upd = Some acc ->
  In (path, ty) schema -> upd !! path = Some v -> v <> JUndefined ->
  castValue ty v <> None.
Proof.
  revert acc. induction schema as [|[p0 ty0] rest IH]; intros acc H Hin Hv Hu;
    [destruct Hin|].
  cbn [castUpdate] in H.
  destruct (castUpdate rest upd) as [acc0|] eqn:E0; [|discriminate].
  destruct Hin as [[= -> ->]|Hin]; [|exact (IH acc0 eq_refl Hin Hv Hu)].
  rewrite Hv in H. destruct (castValue ty v); [discriminate|].
  destruct v; try discriminate. congruence.
Qed.

Lemma findIndex_insert (p : gmap string JsValue -> bool) docs i d' :
  findIndex p docs = Some i -> p d' = true ->
  findIndex p (<[i := d']> docs) = Some i.
Proof.
  intros Hf Hp. destruct (findIndex_Some _ _ _ Hf) as (d & Hd & _ & Hlt).
  apply (findIndex_first _ _ _ d').
  - apply list_lookup_insert_eq. eapply lookup_lt_Some; eauto.
  - exact Hp.
  - intros j d0 Hj Hl. rewrite list_lookup_insert_ne in Hl by lia.
    exact (Hlt j d0 Hj Hl).
Qed.

Lemma findIndex_app_new (p : gmap string JsValue -> bool) docs d' :
  findIndex p docs = None -> p d' = true ->
  findIndex p (docs ++ [d'])%list = Some (length docs).
Proof.
  intros Hf Hp. apply (findIndex_first _ _ _ d').
  - rewrite lookup_app_r by lia. rewrite Nat.sub_diag. reflexivity.
  - exact Hp.
  - intros j d0 Hj Hl. rewrite lookup_app_l in Hl by exact Hj.
    exact (findIndex_None _ _ Hf j d0 Hl).
Qed.

Lemma fieldMatches_ext k q (d d' : gmap string JsValue) :
  d' !! k = d !! k -> fieldMatches k q d' = fieldMatches k q d.
Proof. unfold fieldMatches. intros ->. reflexivity. Qed.

Lemma castFilter_shape q q' :
  castFilter q = Some q' -> q' = JNull \/ exists s, q' = JStr s.
Proof.
  destruct q; cbn; intros [= <-]; eauto.
Qed.

Section SyncIdempotence.

Variable userData : UserData.

Lemma syncFields_off_lastLogin t t' k :
  k <> "lastLogin" -> syncFields t userData !! k = syncFields t' userData !! k.
Proof.
  intros Hk. unfold syncFields. cbn [list_to_map foldr uncurry fst snd].
  rewrite !lookup_insert. repeat case_decide; try reflexivity. congruence.
Qed.

(** Whether the claims cast does not depend on the clock, and neither
    does what they cast to, [lastLogin] apart. *)
Lemma cast_any_tick t t' c :
  castUpdate userSchema (syncFields t userData) = Some c ->
  exists c', castUpdate userSchema (syncFields t' userData) = Some c'
             /\ forall k, k <> "lastLogin" -> c' !! k = c !! k.
Proof.
  intros Hc.
  destruct (castUpdate userSchema (syncFields t' userData)) as [c'|] eqn:Hc'.
  - exists c'. split; [reflexivity|]. intros k Hk.
    rewrite (castUpdate_spec _ _ _ Hc), (castUpdate_spec _ _ _ Hc').
    rewrite (syncFields_off_lastLogin t' t k Hk). reflexivity.
  - exfalso.
    destruct (castUpdate_fails _ _ Hc') as (path & ty & v & Hin & Hv & Hu & Hf).
    destruct (decide (path = "lastLogin")) as [->|Hne].
    + apply userSchema_paths in Hin.
      repeat (destruct Hin as [Hin|Hin]); try discriminate.
      injection Hin as ->. unfold syncFields in Hv.
      cbn [list_to_map foldr uncurry fst snd] in Hv.
      repeat (rewrite lookup_insert_ne in Hv by discriminate).
      rewrite lookup_insert_eq in Hv. injection Hv as <-. discriminate.
    + rewrite (syncFields_off_lastLogin t' t path Hne) in Hv.
      exact (castUpdate_entries _ _ _ _ _ _ Hc Hin Hv Hu Hf).
Qed.

Lemma cast_no_bookkeeping t c k :
  castUpdate userSchema (syncFields t userData) = Some c ->
  In k ["keycloakId"; "updatedAt"; "createdAt"; "_id"; "__v"] ->
  c !! k = None.
Proof.
  intros Hc Hk. eapply castUpdate_absent; [exact Hc|].
  cbn [In] in Hk. decompose [or] Hk; subst; try reflexivity. contradiction.
Qed.

Lemma settled_after_update t c d :
  castUpdate userSchema (syncFields t userData) = Some c ->
  settled userData (stampUpdate t c d).
Proof.
  intros Hc t' c' k v Hc' Hk Hv.
  destruct (cast_any_tick t t' c Hc) as (c2 & Hc2 & Hag).
  rewrite Hc' in Hc2. injection Hc2 as <-.
  rewrite (Hag k Hk) in Hv.
  apply stampUpdate_set; [exact Hv|]. intros ->.
  rewrite (cast_no_bookkeeping t c "updatedAt" Hc) in Hv by (cbn; tauto).
  discriminate.
Qed.

Lemma settled_after_insert t q c :
  castUpdate userSchema (syncFields t userData) = Some c ->
  settled userData (insertedDocument t "keycloakId" q c).
Proof.
  intros Hc t' c' k v Hc' Hk Hv.
  destruct (cast_any_tick t t' c Hc) as (c2 & Hc2 & Hag).
  rewrite Hc' in Hc2. injection Hc2 as <-.
  rewrite (Hag k Hk) in Hv.
  assert (Hnb : ~ In k ["keycloakId"; "updatedAt"; "createdAt"; "_id"; "__v"]).
  { intros Hin. rewrite (cast_no_bookkeeping t c k Hc Hin) in Hv. discriminate. }
  cbn [In] in Hnb. unfold insertedDocument.
  rewrite !lookup_insert_ne by (intros <-; tauto).
  apply lookup_union_Some_l. exact Hv.
Qed.

(** On a settled record a synchronization renews the two stamps and
    nothing else. *)
Lemma settled_stable t c d :
  castUpdate userSchema (syncFields t userData) = Some c ->
  settled userData d ->
  withoutStamps (stampUpdate t c d) = withoutStamps d.
Proof.
  intros Hc Hs. apply map_eq. intros k. unfold withoutStamps.
  destruct (decide (k = "lastLogin")) as [->|Hl];
    [rewrite !lookup_delete_eq; reflexivity|].
  rewrite !(lookup_delete_ne _ "lastLogin") by congruence.
  destruct (decide (k = "updatedAt")) as [->|Hu];
    [rewrite !lookup_delete_eq; reflexivity|].
  rewrite !(lookup_delete_ne _ "updatedAt") by congruence.
  destruct (c !! k) as [v|] eqn:Hv.
  - rewrite (stampUpdate_set t c d k v Hv Hu). symmetry.
    exact (Hs t c k v Hc Hl Hv).
  - apply stampUpdate_frame; assumption.
Qed.

Lemma sync_on_synced t q' docs :
  castFilter (ud_keycloakId userData) = Some q' ->
  synced userData q' docs ->
  synced userData q' (snd (syncUserFromKeycloak t userData docs))
  /\ withoutStamps <$> snd (syncUserFromKeycloak t userData docs)
     = withoutStamps <$> docs.
Proof.
  intros Hq (i & d & Hf & Hd & Hs). unfold syncUserFromKeycloak.
  destruct (findOneAndUpdate t "keycloakId" (ud_keycloakId userData)
              (syncFields t userData) true docs) as [r docs'] eqn:E.
  cbn [snd].
  destruct (findOneAndUpdate_cases _ _ _ _ _ _ _ _ E)
    as [(m & _ & -> & _) | (q2 & c & Hq2 & Hc & [H|[H|H]])].
  - split; [exists i, d; auto|reflexivity].
  - rewrite Hq in Hq2. injection Hq2 as <-.
    destruct H as (i0 & d0 & Hf0 & Hd0 & _ & ->).
    rewrite Hf in Hf0. injection Hf0 as <-.
    rewrite Hd in Hd0. injection Hd0 as <-.
    assert (Hk : stampUpdate t c d !! "keycloakId" = d !! "keycloakId").
    { apply stampUpdate_frame; [|discriminate].
      apply (cast_no_bookkeeping t c _ Hc). cbn. tauto. }
    split.
    + exists i, (stampUpdate t c d). split.
      * apply findIndex_insert; [exact Hf|].
        rewrite (fieldMatches_ext _ _ _ _ Hk).
        destruct (findIndex_Some _ _ _ Hf) as (d1 & Hd1 & Hp & _).
        rewrite Hd in Hd1. injection Hd1 as <-. exact Hp.
      * split; [|apply settled_after_update; exact Hc].
        apply list_lookup_insert_eq. eapply lookup_lt_Some; eauto.
    + rewrite list_fmap_insert, (settled_stable t c d Hc Hs).
      apply list_insert_id. rewrite list_lookup_fmap, Hd. reflexivity.
  - rewrite Hq in Hq2. injection Hq2 as <-.
    destruct H as (Hn & _). congruence.
  - rewrite Hq in Hq2. injection Hq2 as <-.
    destruct H as (Hn & _). congruence.
Qed.

Lemma syncTimes_on_synced ticks q' docs :
  castFilter (ud_keycloakId userData) = Some q' ->
  synced userData q' docs ->
  withoutStamps <$> syncTimes ticks userData docs = withoutStamps <$> docs.
Proof.
  intros Hq. revert docs. induction ticks as [|t ticks IH]; intros docs Hs;
    [reflexivity|].
  unfold syncTimes. cbn [fold_left].
  destruct (sync_on_synced t q' docs Hq Hs) as [Hs' He].
  fold (syncTimes ticks userData (snd (syncUserFromKeycloak t userData docs))).
  rewrite (IH _ Hs'). exact He.
Qed.

(** Claims that do not cast never write. *)
Lemma syncTimes_uncastable ticks t docs :
  castFilter (ud_keycloakId userData) = None
  \/ castUpdate userSchema (syncFields t userData) = None ->
  syncTimes ticks userData docs = docs.
Proof.
  intros Hfail. induction ticks as [|t' ticks IH]; [reflexivity|].
  unfold syncTimes. cbn [fold_left].
  assert (E : snd (syncUserFromKeycloak t' userData docs) = docs).
  { unfold syncUserFromKeycloak, findOneAndUpdate.
    destruct Hfail as [Hq|Hc]; [rewrite Hq; reflexivity|].
    destruct (castFilter (ud_keycloakId userData)); [|reflexivity].
    destruct (castUpdate userSchema (syncFields t' userData)) as [c'|] eqn:Hc';
      [|reflexivity].
    destruct (cast_any_tick t' t c' Hc') as (c2 & Hc2 & _). congruence. }
  rewrite E. exact IH.
Qed.

(** After one synchronization the store either holds a settled record
    for the subject or was not written because the claims do not
    cast. *)
Lemma first_sync t docs :
  (exists q', castFilter (ud_keycloakId userData) = Some q'
              /\ synced userData q' (snd (syncUserFromKeycloak t userData docs)))
  \/ (snd (syncUserFromKeycloak t userData docs) = docs
      /\ (castFilter (ud_keycloakId userData) = None
          \/ castUpdate userSchema (syncFields t userData) = None)).
Proof.
  unfold syncUserFromKeycloak.
  destruct (findOneAndUpdate t "keycloakId" (ud_keycloakId userData)
              (syncFields t userData) true docs) as [r docs'] eqn:E.
  cbn [snd].
  destruct (findOneAndUpdate_cases _ _ _ _ _ _ _ _ E)
    as [(m & _ & -> & Hfail) | (q' & c & Hq & Hc & [H|[H|H]])].
  - right. auto.
  - left. exists q'. split; [exact Hq|].
    destruct H as (i & d & Hf & Hd & _ & ->).
    assert (Hk : stampUpdate t c d !! "keycloakId" = d !! "keycloakId").
    { apply stampUpdate_frame; [|discriminate].
      apply (cast_no_bookkeeping t c _ Hc). cbn. tauto. }
    exists i, (stampUpdate t c d). split.
    + apply findIndex_insert; [exact Hf|].
      rewrite (fieldMatches_ext _ _ _ _ Hk).
      destruct (findIndex_Some _ _ _ Hf) as (d1 & Hd1 & Hp & _).
      rewrite Hd in Hd1. injection Hd1 as <-. exact Hp.
    + split; [|apply settled_after_update; exact Hc].
      apply list_lookup_insert_eq. eapply lookup_lt_Some; eauto.
  - destruct H as (_ & Hup & _). discriminate.
  - left. exists q'. split; [exact Hq|].
    destruct H as (Hn & _ & _ & ->).
    exists (length docs), (insertedDocument t "keycloakId" q' c). split.
    + apply findIndex_app_new; [exact Hn|].
      assert (Hk : insertedDocument t "keycloakId" q' c !! "keycloakId" = Some q').
      { apply insertedDocument_key. apply (cast_no_bookkeeping t c _ Hc).
        cbn. tauto. }
      unfold fieldMatches. rewrite Hk.
      destruct (castFilter_shape _ _ Hq) as [->|[s ->]];
        [reflexivity|apply String.eqb_refl].
    + split; [|apply settled_after_insert; exact Hc].
      rewrite lookup_app_r by lia. rewrite Nat.sub_diag. reflexivity.
Qed.

End SyncIdempotence.

(** C6, as stated, fails: the second of two synchronizations with the
    same claims renews [updatedAt] as well as [lastLogin]. *)
Lemma resync_renews_updatedAt :
  delete "lastLogin" <$> syncTimes [sampleTick; laterTick] (userDataOf sampleUser) []
  <> delete "lastLogin" <$> syncTimes [sampleTick] (userDataOf sampleUser) [].
Proof.
  intros H.
  apply (f_equal (fun l : list (gmap string JsValue) =>
                    l !! 0%nat ≫= (fun d => d !! "updatedAt"))) in H.
  vm_compute in H. discriminate H.
Qed.

(** C6, amended.  For every store, every claims and every [N >= 1], the
    store after [N] synchronizations with those claims equals the store
    after the first of them, record by record, except for the
    [lastLogin] and [updatedAt] stamps. *)
Theorem sync_idempotent_modulo_stamps (t : Tick) (ticks : list Tick)
    (userData : UserData) (docs : list (gmap string JsValue)) :
  withoutStamps <$> syncTimes (t :: ticks) userData docs
  = withoutStamps <$> syncTimes [t] userData docs.
Proof.
  unfold syncTimes. cbn [fold_left].
  fold (syncTimes ticks userData (snd (syncUserFromKeycloak t userData docs))).
  destruct (first_sync userData t docs) as [(q' & Hq & Hs)|[E Hfail]].
  - exact (syncTimes_on_synced userData ticks q' _ Hq Hs).
  - rewrite E, (syncTimes_uncastable userData ticks t docs Hfail). reflexivity.
Qed.

(** ** Profile update *)

Lemma assoc_setField f k v (b : list (string * JsValue)) :
  assoc f (setField k v b) = if String.eqb f k then Some v else assoc f b.
Proof.
  induction b as [|[k' v'] b IH]; cbn [setField assoc].
  - destruct (String.eqb f k); reflexivity.
  - destruct (String.eqb_spec k k') as [->|Hne]; cbn [assoc].
    + destruct (String.eqb f k'); reflexivity.
    + rewrite IH. destruct (String.eqb_spec f k') as [->|Hf].
      * destruct (String.eqb_spec k' k); [congruence|reflexivity].
      * reflexivity.
Qed.

Lemma runChain_consulted field validators sanitizer errs b b' :
  sameConsulted b b' ->
  In field consultedFields ->
  fst (runChain field validators sanitizer (errs, b))
  = fst (runChain field validators sanitizer (errs, b'))
  /\ sameConsulted (snd (runChain field validators sanitizer (errs, b)))
       (snd (runChain field validators sanitizer (errs, b'))).
Proof.
  intros Hsame Hin. unfold runChain, fieldValue. rewrite <- (Hsame field Hin).
  assert (Hset : forall x, sameConsulted (setField field x b) (setField field x b')).
  { intros x f Hf. rewrite !assoc_setField, (Hsame f Hf). reflexivity. }
  destruct (default JUndefined (assoc field b)); cbn [fst snd];
    (split; [reflexivity|]); try exact Hsame;
    destruct sanitizer; auto.
Qed.

Lemma updateFieldsOf_consulted b b' :
  sameConsulted b b' -> updateFieldsOf b = updateFieldsOf b'.
Proof.
  intros Hsame. apply map_eq. intros k. rewrite !updateFieldsOf_spec.
  destruct (isAllowed k) eqn:Hk; [|reflexivity]. apply Hsame.
  unfold isAllowed, allowedFields in Hk. cbn [existsb] in Hk.
  unfold consultedFields. cbn [In].
  repeat (apply orb_true_iff in Hk as [Hk|Hk];
          [apply String.eqb_eq in Hk; subst; tauto|]).
  discriminate.
Qed.

Lemma runChain_absent field validators sanitizer errs b :
  assoc field b = None ->
  runChain field validators sanitizer (errs, b) = (errs, b).
Proof. intros H. unfold runChain, fieldValue. rewrite H. reflexivity. Qed.

Lemma runChain_present field validators sanitizer errs b v :
  assoc field b = Some v -> v <> JUndefined ->
  runChain field validators sanitizer (errs, b)
  = ((errs ++ validators v)%list,
     match sanitizer with
     | Some f => setField field (f v) b
     | None => b
     end).
Proof.
  intros H Hv. unfold runChain, fieldValue. rewrite H. cbn [default from_option id].
  destruct v; try reflexivity. congruence.
Qed.

Lemma ev_check_fails field msg (p : string -> bool) v :
  (exists x, In x (ev_values v) /\ p (ev_toString x) = false) ->
  ev_check field msg p v <> [].
Proof.
  intros (x & Hin & Hp) E. unfold ev_check in E.
  assert (Hm : In {| ve_field := field; ve_message := msg; ve_value := v |}
                 (flat_map
                    (fun x => if p (ev_toString x) then []
                              else [{| ve_field := field; ve_message := msg;
                                       ve_value := v |}]) (ev_values v))).
  { apply in_flat_map. exists x. split; [exact Hin|]. rewrite Hp. left.
    reflexivity. }
  rewrite E in Hm. exact Hm.
Qed.

Lemma runChain_keeps_errors field validators sanitizer st :
  fst st <> [] -> fst (runChain field validators sanitizer st) <> [].
Proof.
  destruct st as [errs b]. cbn [fst]. intros H. unfold runChain.
  destruct (fieldValue b field); cbn [fst]; try exact H;
    intros E; apply app_eq_nil in E; tauto.
Qed.

Lemma runChain_other field validators sanitizer st k :
  k <> field ->
  assoc k (snd (runChain field validators sanitizer st)) = assoc k (snd st).
Proof.
  destruct st as [errs b]. cbn [snd]. intros Hk. unfold runChain.
  assert (Hs : forall x, assoc k (setField field x b) = assoc k b).
  { intros x. rewrite assoc_setField.
    destruct (String.eqb_spec k field); [contradiction|reflexivity]. }
  destruct (fieldValue b field); cbn [snd]; try reflexivity;
    destruct sanitizer; auto.
Qed.

Lemma runChain_reports field validators sanitizer st v :
  assoc field (snd st) = Some v -> v <> JUndefined ->
  validators v <> [] ->
  fst (runChain field validators sanitizer st) <> [].
Proof.
  destruct st as [errs b]. cbn [snd]. intros Ha Hv Hr.
  rewrite (runChain_present _ _ _ _ _ _ Ha Hv). cbn [fst].
  intros E. apply app_eq_nil in E. tauto.
Qed.

Lemma handleValidationErrors_rejects errors req :
  errors <> [] ->
  exists res, handleValidationErrors errors req = Respond res
              /\ status res = 400%Z
              /\ js_get (json res) "message" = JStr "Validation failed".
Proof.
  intros H. unfold handleValidationErrors.
  destruct errors as [|e rest]; [contradiction|].
  eexists. split; [reflexivity|]. split; reflexivity.
Qed.

Lemma not_wordChar c :
  (let n := nat_of_ascii c in
   ~ (48 <= n <= 57 \/ 65 <= n <= 90 \/ 97 <= n <= 122 \/ n = 95)) ->
  isWordChar c = false.
Proof.
  cbv zeta. intros H. unfold isWordChar.
  apply not_true_is_false. intros E. apply H.
  repeat (apply orb_true_iff in E as [E|E]).
  - apply andb_true_iff in E as [E1 E2].
    apply Nat.leb_le in E1, E2. lia.
  - apply andb_true_iff in E as [E1 E2].
    apply Nat.leb_le in E1, E2. lia.
  - apply andb_true_iff in E as [E1 E2].
    apply Nat.leb_le in E1, E2. lia.
  - apply Nat.eqb_eq in E. lia.
Qed.

Lemma username_rule_fails s :
  (String.length s < 3 \/ 30 < String.length s
   \/ exists c, In c (list_ascii_of_string s)
        /\ let n := nat_of_ascii c in
           ~ (48 <= n <= 57 \/ 65 <= n <= 90 \/ 97 <= n <= 122 \/ n = 95)) ->
  isLength 3 30 s = false \/ matchesUsername s = false.
Proof.
  intros [H|[H|(c & Hin & Hc)]].
  - left. unfold isLength. apply andb_false_iff. left.
    apply Nat.leb_gt. lia.
  - left. unfold isLength. apply andb_false_iff. right.
    apply Nat.leb_gt. lia.
  - right. unfold matchesUsername. apply andb_false_iff. right.
    apply not_true_is_false. intros E.
    rewrite forallb_forall in E. specialize (E c Hin).
    rewrite (not_wordChar c Hc) in E. discriminate.
Qed.

Lemma outside_allow_list k :
  ~ In k ["firstName"; "lastName"; "phoneNumber"; "profilePicture";
          "preferences"] ->
  isAllowed k = false.
Proof.
  intros H. unfold isAllowed, allowedFields. cbn [existsb].
  apply not_true_is_false. intros E. apply H. cbn [In].
  repeat (apply orb_true_iff in E as [E|E];
          [apply String.eqb_eq in E; subst; tauto|]).
  discriminate.
Qed.

Section UpdateFacts.

Variable jwt_verify : string -> VerifyOptions -> VerifyResult.
Variable isEmail : string -> bool.
Variable normalizeEmail : string -> JsValue.
Variable env : Env.

(** The validator keeps [req.user] and answers 400 or hands on a body
    that depends on the consulted fields only. *)
Lemma validateUpdateUser_cases req :
  (exists res, validateUpdateUser isEmail normalizeEmail req = Respond res
               /\ status res = 400%Z)
  \/ exists b', validateUpdateUser isEmail normalizeEmail req
                = Next (set_body b' req).
Proof.
  unfold validateUpdateUser, handleValidationErrors.
  match goal with |- context [fst ?st] => destruct (fst st) end.
  - right. eexists. reflexivity.
  - left. eexists. split; reflexivity.
Qed.

Lemma validateUpdateUser_consulted req req' :
  user req' = user req ->
  sameConsulted (body req) (body req') ->
  (exists res, validateUpdateUser isEmail normalizeEmail req = Respond res
               /\ validateUpdateUser isEmail normalizeEmail req' = Respond res)
  \/ exists b b', validateUpdateUser isEmail normalizeEmail req
                  = Next (set_body b req)
                  /\ validateUpdateUser isEmail normalizeEmail req'
                     = Next (set_body b' req')
                  /\ sameConsulted b b'.
Proof.
  intros Hu Hsame. unfold validateUpdateUser.
  set (c1 := runChain "email" _ _).
  set (c2 := runChain "username" _ _).
  set (c3 := runChain "firstName" _ _).
  set (c4 := runChain "lastName" _ _).
  set (c5 := runChain "phoneNumber" _ _).
  set (c6 := runChain "preferences" _ _).
  assert (Step : forall (c : list ValidationError * list (string * JsValue) ->
                             list ValidationError * list (string * JsValue)),
             (forall errs b b', sameConsulted b b' ->
                fst (c (errs, b)) = fst (c (errs, b'))
                /\ sameConsulted (snd (c (errs, b))) (snd (c (errs, b')))) ->
             forall st st', fst st = fst st' -> sameConsulted (snd st) (snd st') ->
               fst (c st) = fst (c st')
               /\ sameConsulted (snd (c st)) (snd (c st'))).
  { intros c Hc [e b] [e' b'] He Hb. cbn [fst snd] in He, Hb. subst e'.
    apply Hc. exact Hb. }
  assert (In1 : In "email" consultedFields) by (cbn; tauto).
  assert (In2 : In "username" consultedFields) by (cbn; tauto).
  assert (In3 : In "firstName" consultedFields) by (cbn; tauto).
  assert (In4 : In "lastName" consultedFields) by (cbn; tauto).
  assert (In5 : In "phoneNumber" consultedFields) by (cbn; tauto).
  assert (In6 : In "preferences" consultedFields) by (cbn; tauto).
  destruct (Step c1 (fun e b b' H => runChain_consulted _ _ _ e b b' H In1)
              ([], body req) ([], body req') eq_refl Hsame) as [E1 S1].
  destruct (Step c2 (fun e b b' H => runChain_consulted _ _ _ e b b' H In2)
              _ _ E1 S1) as [E2 S2].
  destruct (Step c3 (fun e b b' H => runChain_consulted _ _ _ e b b' H In3)
              _ _ E2 S2) as [E3 S3].
  destruct (Step c4 (fun e b b' H => runChain_consulted _ _ _ e b b' H In4)
              _ _ E3 S3) as [E4 S4].
  destruct (Step c5 (fun e b b' H => runChain_consulted _ _ _ e b b' H In5)
              _ _ E4 S4) as [E5 S5].
  destruct (Step c6 (fun e b b' H => runChain_consulted _ _ _ e b b' H In6)
              _ _ E5 S5) as [E6 S6].
  cbv zeta. rewrite <- E6. unfold handleValidationErrors.
  destruct (fst (c6 (c5 (c4 (c3 (c2 (c1 ([], body req)))))))).
  - right. eexists _, _. split; [reflexivity|]. split; [reflexivity|exact S6].
  - left. eexists. split; reflexivity.
Qed.

Lemma validateUpdateUser_email req v :
  assoc "email" (body req) = Some v -> v <> JUndefined ->
  (exists x, In x (ev_values v) /\ isEmail (ev_toString x) = false) ->
  exists res, validateUpdateUser isEmail normalizeEmail req = Respond res
              /\ status res = 400%Z
              /\ js_get (json res) "message" = JStr "Validation failed".
Proof.
  intros Ha Hv Hx. unfold validateUpdateUser. cbv zeta.
  apply handleValidationErrors_rejects.
  do 5 apply runChain_keeps_errors.
  apply (runChain_reports _ _ _ _ v); [exact Ha|exact Hv|].
  apply ev_check_fails. exact Hx.
Qed.

Lemma validateUpdateUser_username req v :
  assoc "username" (body req) = Some v -> v <> JUndefined ->
  (exists x, In x (ev_values v)
     /\ (isLength 3 30 (ev_toString x) = false
         \/ matchesUsername (ev_toString x) = false)) ->
  exists res, validateUpdateUser isEmail normalizeEmail req = Respond res
              /\ status res = 400%Z
              /\ js_get (json res) "message" = JStr "Validation failed".
Proof.
  intros Ha Hv (x & Hin & Hx). unfold validateUpdateUser. cbv zeta.
  apply handleValidationErrors_rejects.
  do 4 apply runChain_keeps_errors.
  apply (runChain_reports _ _ _ _ v); [|exact Hv|].
  - rewrite runChain_other by discriminate. exact Ha.
  - intros E. apply app_eq_nil in E as [E1 E2].
    destruct Hx as [Hx|Hx].
    + exact (ev_check_fails _ _ _ v (ex_intro _ x (conj Hin Hx)) E1).
    + exact (ev_check_fails _ _ _ v (ex_intro _ x (conj Hin Hx)) E2).
Qed.

End UpdateFacts.

(** C7, as stated, fails twice: a body with a [username] of two
    characters, a field outside the allow-list, is rejected with 400 by
    the route's validator; and an accepted update renews [updatedAt],
    which is not on the allow-list either. *)
Lemma invalid_username_rejected :
  (let o := serve sampleVerify sampleIsEmail sampleNormalizeEmail sampleEnv
              PUT_me laterTick (authedRequest [("username", JStr "ab")])
              [sampleRecord] in
   status (response o) = 400%Z
   /\ entered o = [MW_validateKeycloakToken; MW_validateUpdateUser]
   /\ ~ In "username" ["firstName"; "lastName"; "phoneNumber";
                       "profilePicture"; "preferences"])
  /\ (let o := serve sampleVerify sampleIsEmail sampleNormalizeEmail sampleEnv
                 PUT_me laterTick (authedRequest [("firstName", JStr "Ann")])
                 [sampleRecord] in
      status (response o) = 200%Z
      /\ ~ In "updatedAt" ["firstName"; "lastName"; "phoneNumber";
                           "profilePicture"; "preferences"]
      /\ exists d', store o !! 0%nat = Some d'
                    /\ d' !! "updatedAt" = Some (JNum 1700000600001)
                    /\ sampleRecord !! "updatedAt" = Some (JNum 1600000000000)).
Proof.
  assert (Hout : forall k, k = "username" \/ k = "updatedAt" ->
            ~ In k ["firstName"; "lastName"; "phoneNumber";
                    "profilePicture"; "preferences"]).
  { intros k Hk Hin. cbn [In] in Hin.
    destruct Hk as [-> | ->];
      repeat (destruct Hin as [Hin|Hin]; [discriminate Hin|]); exact Hin. }
  split.
  - split; [reflexivity|]. split; [reflexivity|]. apply Hout. left. reflexivity.
  - split; [reflexivity|]. split; [apply Hout; right; reflexivity|].
    eexists. repeat split; reflexivity.
Qed.

(** C7, amended.  Whatever [PUT /api/users/me] is sent, every stored
    record stays and keeps every field other than [firstName],
    [lastName], [phoneNumber], [profilePicture], [preferences] and the
    [updatedAt] stamp; a body the validator rejects is answered 400 and
    writes nothing; a submitted [email] that is not an e-mail address, and
    a submitted [username] shorter than 3 or longer than 30 characters or
    holding a character other than a letter, a digit or an underscore, is
    rejected with 400 [Validation failed], the handler is not entered and
    nothing is written; the answer and the store afterwards depend on the
    body only through the seven fields the route consults, so any other
    submitted field is ignored without a rejection; and the service
    itself drops every field outside the five. *)
Theorem profile_update_allow_list
    (jwt_verify : string -> VerifyOptions -> VerifyResult)
    (isEmail : string -> bool) (normalizeEmail : string -> JsValue)
    (env : Env) (t : Tick) (req : Request) (docs : list (gmap string JsValue)) :
  let run := runSteps jwt_verify isEmail normalizeEmail env updateChain t in
  let rejected (o : Outcome) :=
    status (response o) = 400%Z
    /\ js_get (json (response o)) "message" = JStr "Validation failed"
    /\ entered o = [MW_validateUpdateUser]
    /\ store o = docs in
  (forall i d, docs !! i = Some d ->
     exists d', store (run req docs) !! i = Some d'
                /\ forall k,
                     ~ In k ["firstName"; "lastName"; "phoneNumber";
                             "profilePicture"; "preferences"; "updatedAt"] ->
                     d' !! k = d !! k)
  /\ (forall res, validateUpdateUser isEmail normalizeEmail req = Respond res ->
        response (run req docs) = res /\ status res = 400%Z
        /\ store (run req docs) = docs)
  /\ (forall v, assoc "email" (body req) = Some v -> v <> JUndefined ->
        (exists x, In x (ev_values v) /\ isEmail (ev_toString x) = false) ->
        rejected (run req docs))
  /\ (forall v, assoc "username" (body req) = Some v -> v <> JUndefined ->
        (exists x, In x (ev_values v)
           /\ let s := ev_toString x in
              String.length s < 3 \/ 30 < String.length s
              \/ exists c, In c (list_ascii_of_string s)
                   /\ let n := nat_of_ascii c in
                      ~ (48 <= n <= 57 \/ 65 <= n <= 90 \/ 97 <= n <= 122
                         \/ n = 95)) ->
        rejected (run req docs))
  /\ (forall req', user req' = user req ->
        (forall f, In f ["email"; "username"; "firstName"; "lastName";
                         "phoneNumber"; "profilePicture"; "preferences"] ->
           assoc f (body req) = assoc f (body req')) ->
        response (run req' docs) = response (run req docs)
        /\ store (run req' docs) = store (run req docs))
  /\ (forall keycloakId k v b,
        ~ In k ["firstName"; "lastName"; "phoneNumber"; "profilePicture";
                "preferences"] ->
        updateUserProfile t keycloakId ((k, v) :: b) docs
        = updateUserProfile t keycloakId b docs).
Proof.
  intros run rejected.
  assert (Hrej : forall res,
             validateUpdateUser isEmail normalizeEmail req = Respond res ->
             status res = 400%Z ->
             js_get (json res) "message" = JStr "Validation failed" ->
             rejected (run req docs)).
  { intros res E Hs Hm. subst rejected run. unfold updateChain.
    cbn [runSteps runStep]. rewrite E. cbn [response store entered]. auto. }
  subst run. unfold updateChain. cbn [runSteps runStep].
  split.
  { intros i d Hd.
    destruct (validateUpdateUser_cases isEmail normalizeEmail req)
      as [(res & -> & _) | (b' & ->)]; cbn [store].
    { exists d. auto. }
    unfold updateCurrentUser. cbn [user set_body body].
    destruct (user req) as [u|]; cbn [store]; [|exists d; auto].
    unfold updateUserProfile.
    pose proof (fun f => findOneAndUpdate_frame t "keycloakId" (ui_keycloakId u)
                  (updateFieldsOf b') false docs f) as Hframe.
    destruct (findOneAndUpdate t "keycloakId" (ui_keycloakId u)
                (updateFieldsOf b') false docs) as [r docs'].
    cbn [snd] in Hframe.
    destruct (Hframe "keycloakId"
                (updateFieldsOf_not_allowed b' "keycloakId" eq_refl)
                ltac:(discriminate) i d Hd) as (d' & Hd' & _).
    exists d'. split.
    { destruct r as [[user0|]|m]; cbn; exact Hd'. }
    intros k Hk.
    assert (Ha : isAllowed k = false).
    { apply outside_allow_list. cbn [In] in Hk |- *. tauto. }
    assert (Hu : k <> "updatedAt").
    { intros ->. apply Hk. cbn [In]. tauto. }
    destruct (Hframe k (updateFieldsOf_not_allowed b' _ Ha) Hu i d Hd)
      as (d2 & Hd2 & Hk2).
    congruence. }
  split.
  { intros res Hres. rewrite Hres. cbn [response store].
    destruct (validateUpdateUser_cases isEmail normalizeEmail req)
      as [(res' & E & Hst) | (b' & E)]; [|congruence].
    rewrite Hres in E. injection E as <-. auto. }
  split.
  { intros v Ha Hv Hx.
    destruct (validateUpdateUser_email isEmail normalizeEmail req v Ha Hv Hx)
      as (res & E & Hs & Hm).
    exact (Hrej res E Hs Hm). }
  split.
  { intros v Ha Hv (x & Hin & Hx).
    destruct (validateUpdateUser_username isEmail normalizeEmail req v Ha Hv
                (ex_intro _ x (conj Hin (username_rule_fails _ Hx))))
      as (res & E & Hs & Hm).
    exact (Hrej res E Hs Hm). }
  split.
  { intros req' Hu Hsame.
    destruct (validateUpdateUser_consulted isEmail normalizeEmail req req' Hu Hsame)
      as [(res & -> & ->) | (b & b' & -> & -> & Hb)]; [split; reflexivity|].
    unfold updateCurrentUser. cbn [user set_body body]. rewrite Hu.
    destruct (user req) as [u|]; [|split; reflexivity].
    unfold updateUserProfile. rewrite (updateFieldsOf_consulted b b' Hb).
    split; reflexivity. }
  intros kid k v b Hk. apply outside_allow_list in Hk. unfold updateUserProfile.
  replace (updateFieldsOf ((k, v) :: b)) with (updateFieldsOf b); [reflexivity|].
  apply map_eq. intros f. rewrite !updateFieldsOf_spec.
  destruct (isAllowed f) eqn:Hf; [|reflexivity]. cbn [assoc].
  destruct (String.eqb_spec f k); [congruence|reflexivity].
Qed.

(* ===================================================================== *)
(** * Further properties *)
(* ===================================================================== *)

(** ** Trimming and lower-casing *)

Lemma trimStart_head s :
  trimStart s = "" \/ exists c r, trimStart s = String c r /\ isWhiteSpace c = false.
Proof.
  induction s as [|c r IH]; [left; reflexivity|]. cbn [trimStart].
  destruct (isWhiteSpace c) eqn:E; [exact IH|]. right. eauto.
Qed.

Lemma trimEnd_idempotent s : trimEnd (trimEnd s) = trimEnd s.
Proof.
  induction s as [|c r IH]; [reflexivity|]. cbn [trimEnd]. cbv zeta.
  destruct (isWhiteSpace c && isEmpty (trimEnd r))%bool eqn:E; [reflexivity|].
  cbn [trimEnd]. cbv zeta. rewrite IH, E. reflexivity.
Qed.

Lemma trim_idempotent s : trim (trim s) = trim s.
Proof.
  unfold trim. destruct (trimStart_head s) as [->|(c & r & -> & Hc)];
    [reflexivity|].
  cbn [trimEnd]. cbv zeta. rewrite Hc. cbn [andb trimStart]. rewrite Hc.
  change (trimEnd (String c (trimEnd r))) with
    (let r' := trimEnd (trimEnd r) in
     if (isWhiteSpace c && isEmpty r')%bool then "" else String c r').
  cbv zeta. rewrite Hc, trimEnd_idempotent. reflexivity.
Qed.



(** ** The token middleware, continued *)

Lemma header_checks_bearer h :
  startsWith h "Bearer " = true ->
  Nat.eqb (length (split " " h)) 2 = true ->
  isEmpty (trim (nth 1 (split " " h) "")) = false ->
  exists token, h = "Bearer " +:+ token /\ hasChar " " token = false
                /\ trim token <> "".
Proof.
  intros Hp Hl Ht. destruct (prefix_append _ _ Hp) as [token ->].
  rewrite split_bearer in Hl, Ht. cbn [length nth] in Hl, Ht.
  apply Nat.eqb_eq in Hl. injection Hl as Hl.
  pose proof (split_single _ _ Hl) as Hsp.
  rewrite (split_without_separator _ _ Hsp) in Ht. cbn [nth] in Ht.
  exists token. split; [reflexivity|]. split; [exact Hsp|].
  intros E. rewrite E in Ht. discriminate.
Qed.

(** X1.  The middleware calls [next()] only for a request whose header
    is [Bearer <token>], with the issuer configured, and whose token the
    verifier accepted, either at the first attempt or, the client id
    being configured and the first attempt having failed on the audience,
    at the retry; the request handed on is the one that came but for
    [req.user], whose nine fields are read from the payload the verifier
    decoded. *)
Theorem next_only_after_verification
    (jwt_verify : string -> VerifyOptions -> VerifyResult)
    (env : Env) (req req' : Request) :
  validateKeycloakToken jwt_verify env req = Next req' ->
  exists token decoded,
    authorization req = Some ("Bearer " +:+ token)
    /\ hasChar " " token = false
    /\ trim token <> ""
    /\ includes (issuerOf env) "undefined" = false
    /\ (jwt_verify (trim token) (verifyOptionsOf env) = VerifyOk decoded
        \/ exists err,
             jwt_verify (trim token) (verifyOptionsOf env) = VerifyError err
             /\ includes (err_message err) "audience" = true
             /\ is_Some (configured (KEYCLOAK_CLIENT_ID env))
             /\ jwt_verify (trim token) (retryOptionsOf env) = VerifyOk decoded)
    /\ req'
       = {| authorization := authorization req;
            params_id := params_id req;
            query := query req;
            body := body req;
            user :=
              Some
                {| ui_keycloakId := js_get decoded "sub";
                   ui_email := js_get decoded "email";
                   ui_username :=
                     if truthy (js_get decoded "preferred_username")
                     then js_get decoded "preferred_username"
                     else js_get decoded "username";
                   ui_firstName := js_get decoded "given_name";
                   ui_lastName := js_get decoded "family_name";
                   ui_emailVerified := js_get decoded "email_verified";
                   ui_roles :=
                     (let roles :=
                        js_get (js_get decoded "realm_access") "roles" in
                      if truthy roles then roles else JArr []);
                   ui_clientRoles :=
                     (let roles :=
                        js_get
                          (js_get (js_get decoded "resource_access")
                             (default "undefined" (KEYCLOAK_CLIENT_ID env)))
                          "roles" in
                      if truthy roles then roles else JArr []);
                   ui_token := decoded |} |}.
Proof.
  intros H.
  assert (Hb : exists token, authorization req = Some ("Bearer " +:+ token)
                 /\ hasChar " " token = false /\ trim token <> "").
  { unfold validateKeycloakToken in H.
    destruct (authorization req) as [h|]; [|discriminate].
    destruct (isEmpty h); [discriminate|].
    destruct (startsWith h "Bearer ") eqn:Hp; cbv [negb] in H; [|discriminate].
    destruct (Nat.eqb (length (split " " h)) 2) eqn:Hl; cbv [negb] in H;
      [|discriminate].
    destruct (isEmpty (trim (nth 1 (split " " h) ""))) eqn:Ht; [discriminate|].
    destruct (header_checks_bearer h Hp Hl Ht) as (token & -> & Hsp & Hne).
    exists token. auto. }
  destruct Hb as (token & Hauth & Hsp & Hne).
  rewrite (validate_bearer_header jwt_verify env req token Hauth Hsp Hne) in H.
  destruct (includes (issuerOf env) "undefined") eqn:Hiss; [discriminate|].
  destruct (jwt_verify (trim token) (verifyOptionsOf env)) as [|err|decoded]
    eqn:Hfirst; [discriminate| |].
  - destruct (isEmpty (err_message err)); cbn [negb andb] in H; [discriminate|].
    destruct (includes (err_message err) "audience") eqn:Hmsg; cbn [andb] in H;
      [|discriminate].
    destruct (bool_decide (is_Some (configured (KEYCLOAK_CLIENT_ID env))))
      eqn:Hconf; [|discriminate].
    apply bool_decide_eq_true_1 in Hconf.
    destruct (jwt_verify (trim token) (retryOptionsOf env)) as [|e2|decoded]
      eqn:Hretry; try discriminate.
    injection H as <-. exists token, decoded.
    repeat (split; [assumption || reflexivity|]).
    split; [|reflexivity]. right. exists err. auto.
  - injection H as <-. exists token, decoded.
    repeat (split; [assumption || reflexivity|]).
    split; [left; exact Hfirst|reflexivity].
Qed.

Lemma next_only_after_verification_witness :
  exists token decoded,
    Some "Bearer tok.ok" = Some ("Bearer " +:+ token)
    /\ hasChar " " token = false
    /\ trim token <> ""
    /\ includes (issuerOf sampleEnv) "undefined" = false
    /\ (sampleVerify (trim token) (verifyOptionsOf sampleEnv) = VerifyOk decoded
        \/ exists err,
             sampleVerify (trim token) (verifyOptionsOf sampleEnv) = VerifyError err
             /\ includes (err_message err) "audience" = true
             /\ is_Some (configured (KEYCLOAK_CLIENT_ID sampleEnv))
             /\ sampleVerify (trim token) (retryOptionsOf sampleEnv)
                = VerifyOk decoded)
    /\ {| authorization := Some "Bearer tok.ok";
          params_id := "507f1f77bcf86cd799439011";
          query := ∅;
          body := [];
          user :=
            Some
              {| ui_keycloakId := JStr "f3b1c2d4";
                 ui_email := JStr "test@example.com";
                 ui_username := JStr "testuser";
                 ui_firstName := JStr "Test";
                 ui_lastName := JStr "User";
                 ui_emailVerified := JBool true;
                 ui_roles := JArr [JStr "offline_access"];
                 ui_clientRoles := JArr [];
                 ui_token := samplePayload |} |}
       = {| authorization := Some "Bearer tok.ok";
            params_id := "507f1f77bcf86cd799439011";
            query := ∅;
            body := [];
            user :=
              Some
                {| ui_keycloakId := js_get decoded "sub";
                   ui_email := js_get decoded "email";
                   ui_username :=
                     if truthy (js_get decoded "preferred_username")
                     then js_get decoded "preferred_username"
                     else js_get decoded "username";
                   ui_firstName := js_get decoded "given_name";
                   ui_lastName := js_get decoded "family_name";
                   ui_emailVerified := js_get decoded "email_verified";
                   ui_roles :=
                     (let roles :=
                        js_get (js_get decoded "realm_access") "roles" in
                      if truthy roles then roles else JArr []);
                   ui_clientRoles :=
                     (let roles :=
                        js_get
                          (js_get (js_get decoded "resource_access")
                             "user-service-client")
                          "roles" in
                      if truthy roles then roles else JArr []);
                   ui_token := decoded |} |}.
Proof.
  exact (next_only_after_verification sampleVerify sampleEnv
           (sampleRequest (Some "Bearer tok.ok"))
           {| authorization := Some "Bearer tok.ok";
              params_id := "507f1f77bcf86cd799439011";
              query := ∅;
              body := [];
              user :=
                Some
                  {| ui_keycloakId := JStr "f3b1c2d4";
                     ui_email := JStr "test@example.com";
                     ui_username := JStr "testuser";
                     ui_firstName := JStr "Test";
                     ui_lastName := JStr "User";
                     ui_emailVerified := JBool true;
                     ui_roles := JArr [JStr "offline_access"];
                     ui_clientRoles := JArr [];
                     ui_token := samplePayload |} |}
           eq_refl).
Defined.

(** X2.  When the first verification fails on the audience, what is
    answered depends on the retry alone: with the client id configured, a
    retry that fails is answered with the retry's error; with no client id
    configured there is no retry and the first error is answered. *)
Theorem fallback_reports_retry_error
    (jwt_verify : string -> VerifyOptions -> VerifyResult)
    (env : Env) (req : Request) (token : string) (err : JwtError) :
  authorization req = Some ("Bearer " +:+ token) ->
  hasChar " " token = false ->
  trim token <> "" ->
  includes (issuerOf env) "undefined" = false ->
  jwt_verify (trim token) (verifyOptionsOf env) = VerifyError err ->
  includes (err_message err) "audience" = true ->
  (forall retryErr,
     is_Some (configured (KEYCLOAK_CLIENT_ID env)) ->
     jwt_verify (trim token) (retryOptionsOf env) = VerifyError retryErr ->
     validateKeycloakToken jwt_verify env req
     = Respond (handleVerificationError retryErr))
  /\ (configured (KEYCLOAK_CLIENT_ID env) = None ->
      validateKeycloakToken jwt_verify env req
      = Respond (handleVerificationError err)).
Proof.
  intros Hauth Hsp Hne Hiss Hfirst Hmsg.
  rewrite (validate_bearer_header jwt_verify env req token Hauth Hsp Hne).
  rewrite Hiss, Hfirst, Hmsg.
  rewrite (includes_nonempty _ "audience" ltac:(discriminate) Hmsg).
  cbn [negb andb]. split.
  - intros retryErr Hconf Hretry.
    rewrite bool_decide_eq_true_2 by exact Hconf. rewrite Hretry. reflexivity.
  - intros Hconf. rewrite Hconf.
    rewrite bool_decide_eq_false_2 by (intros [x Hx]; discriminate).
    reflexivity.
Qed.

Lemma fallback_reports_retry_error_witness :
  validateKeycloakToken strictVerify sampleEnv
    (sampleRequest (Some "Bearer tok.aud.iss"))
  = Respond (handleVerificationError
      {| err_name := "JsonWebTokenError";
         err_message :=
           "jwt issuer invalid. expected: http://localhost:8080/realms/user-service" |}).
Proof.
  exact (proj1
    (fallback_reports_retry_error strictVerify sampleEnv
       (sampleRequest (Some "Bearer tok.aud.iss")) "tok.aud.iss"
       {| err_name := "JsonWebTokenError";
          err_message := "jwt audience invalid. expected: user-service-client" |}
       eq_refl eq_refl ltac:(discriminate) eq_refl eq_refl eq_refl)
    _ ltac:(eexists; reflexivity) eq_refl).
Defined.


(** ** The key resolver *)

(** A client made from no client is stored, and its URI passed the
    check for the text [undefined]. *)
Lemma getJwksClient_fresh (publicKeyUrl : option string) (env : Env)
    (c : JwksClient) (st : option JwksClient) :
  getJwksClient publicKeyUrl env None = (Ok c, st) ->
  st = Some c /\ includes (jwksUri c) "undefined" = false.
Proof.
  unfold getJwksClient.
  destruct (isEmpty (jwksUriOf publicKeyUrl env)); cbn [orb];
    [discriminate|].
  destruct (includes (jwksUriOf publicKeyUrl env) "undefined") eqn:Hi;
    [discriminate|].
  intros H. injection H as <- <-. split; [reflexivity|exact Hi].
Qed.

(** X4.  The JWKS client is created once: the first call that finds a
    usable URI stores a client (cache of 24 hours, 10 requests a minute)
    that every later call returns unchanged, whatever the environment
    holds by then; a call that finds no usable URI throws and stores
    nothing. *)
Theorem jwks_client_created_once
    (publicKeyUrl : option string) (env : Env) :
  match getJwksClient publicKeyUrl env None with
  | (Ok c, st) =>
      st = Some c
      /\ jwksUri c = jwksUriOf publicKeyUrl env
      /\ includes (jwksUri c) "undefined" = false
      /\ cacheMaxAge c = (24 * 60 * 60 * 1000)%Z
      /\ jwksRequestsPerMinute c = 10%Z
      /\ forall publicKeyUrl' env',
           getJwksClient publicKeyUrl' env' st = (Ok c, st)
  | (Throw m, st) =>
      st = None
      /\ (jwksUriOf publicKeyUrl env = ""
          \/ includes (jwksUriOf publicKeyUrl env) "undefined" = true)
  end.
Proof.
  unfold getJwksClient.
  destruct (isEmpty (jwksUriOf publicKeyUrl env)) eqn:He; cbn [orb].
  - split; [reflexivity|]. left. apply isEmpty_true. exact He.
  - destruct (includes (jwksUriOf publicKeyUrl env) "undefined") eqn:Hi.
    + split; [reflexivity|]. right. reflexivity.
    + repeat split; try reflexivity. exact Hi.
Qed.

(** X5.  [getKey] answers a header without [kid] with an error before it
    touches the client; once a client exists it never throws; and from no
    client it finds a key only for a header with a [kid] and leaves a
    client whose URI is free of the text [undefined]. *)
Theorem getKey_outcomes (SigningKey : Type)
    (getSigningKey : JwksClient -> JsValue -> Result SigningKey)
    (getPublicKey : SigningKey -> Result string)
    (publicKeyUrl : option string) (env : Env) (header : JsValue) :
  (truthy (js_get header "kid") = false ->
   forall client,
     getKey SigningKey getSigningKey getPublicKey publicKeyUrl env header client
     = (KeyError "Token header missing kid (key ID)", client))
  /\ (forall c m,
        fst (getKey SigningKey getSigningKey getPublicKey publicKeyUrl env
               header (Some c)) <> KeyThrows m)
  /\ (forall k st,
        getKey SigningKey getSigningKey getPublicKey publicKeyUrl env header None
        = (KeyFound k, st) ->
        truthy (js_get header "kid") = true
        /\ exists c key,
             st = Some c /\ includes (jwksUri c) "undefined" = false
             /\ getSigningKey c (js_get header "kid") = Ok key
             /\ getPublicKey key = Ok k).
Proof.
  split; [|split].
  - intros Hk client. unfold getKey. rewrite Hk. reflexivity.
  - intros c m. unfold getKey.
    destruct (truthy (js_get header "kid")); cbn [negb fst getJwksClient];
      [|discriminate].
    destruct (getSigningKey c (js_get header "kid")) as [key|m0];
      [|discriminate].
    destruct (getPublicKey key); discriminate.
  - intros k st H. unfold getKey in H.
    destruct (truthy (js_get header "kid")); cbn [negb] in H; [|discriminate].
    split; [reflexivity|].
    destruct (getJwksClient publicKeyUrl env None) as [[c|m] st'] eqn:Hg;
      [|discriminate].
    destruct (getJwksClient_fresh _ _ _ _ Hg) as (-> & Hu).
    destruct (getSigningKey c (js_get header "kid")) as [key|m0] eqn:Hs;
      [|discriminate].
    destruct (getPublicKey key) as [pk|m1] eqn:Hp; [|discriminate].
    injection H as <- <-. exists c, key. auto.
Qed.

(** ** The frontend's header, read by the backend *)



(** ** The store, continued *)

Lemma find_findIndex (p : gmap string JsValue -> bool) docs :
  List.find p docs = findIndex p docs ≫= (fun i => docs !! i).
Proof.
  induction docs as [|x docs IH]; [reflexivity|]. cbn [List.find findIndex].
  destruct (p x); [reflexivity|]. rewrite IH.
  destruct (findIndex p docs); reflexivity.
Qed.

Lemma findIndex_None_intro (p : gmap string JsValue -> bool) docs :
  (forall j d, docs !! j = Some d -> p d = false) -> findIndex p docs = None.
Proof.
  induction docs as [|x docs IH]; intros H; [reflexivity|]. cbn [findIndex].
  rewrite (H 0%nat x eq_refl). rewrite IH; [reflexivity|].
  intros j d Hj. exact (H (S j) d Hj).
Qed.

Lemma unknownSubject_findIndex sub docs :
  unknownSubject sub docs ->
  findIndex (fieldMatches "keycloakId" (JStr sub)) docs = None.
Proof.
  intros H. apply findIndex_None_intro. intros j d Hj.
  destruct (fieldMatches "keycloakId" (JStr sub) d) eqn:E; [|reflexivity].
  apply fieldMatches_text in E. exfalso. exact (H j d Hj E).
Qed.

Lemma assoc_elem (l : list (string * JsValue)) k v :
  assoc k l = Some v -> (k, v) ∈ l.
Proof.
  induction l as [|[k' v'] l IH]; cbn [assoc]; [discriminate|].
  destruct (String.eqb_spec k k') as [->|Hne].
  - intros [= ->]. apply elem_of_cons. left. reflexivity.
  - intros H. apply elem_of_cons. right. exact (IH H).
Qed.

Lemma assoc_NoDup (l : list (string * JsValue)) k v :
  NoDup (l.*1) -> (k, v) ∈ l -> assoc k l = Some v.
Proof.
  induction l as [|[k' v'] l IH]; intros Hnd Hin.
  - apply elem_of_nil in Hin. contradiction.
  - cbn [assoc]. cbn [fmap list_fmap fst] in Hnd.
    apply NoDup_cons in Hnd as [Hk' Hnd].
    apply elem_of_cons in Hin as [[= -> ->]|Hin].
    + rewrite String.eqb_refl. reflexivity.
    + destruct (String.eqb_spec k k') as [->|Hne]; [|exact (IH Hnd Hin)].
      exfalso. apply Hk'. apply list_elem_of_fmap. exists (k', v). auto.
Qed.

(** An object made of a document answers a property read with the
    document's field. *)
Lemma assoc_map_to_list (m : gmap string JsValue) k :
  assoc k (map_to_list m) = m !! k.
Proof.
  destruct (m !! k) as [v|] eqn:E.
  - apply assoc_NoDup; [apply NoDup_fst_map_to_list|].
    apply elem_of_map_to_list. exact E.
  - destruct (assoc k (map_to_list m)) as [v|] eqn:Ea; [|reflexivity].
    apply assoc_elem, elem_of_map_to_list in Ea. congruence.
Qed.

Lemma js_get_objectOf (m : gmap string JsValue) k :
  js_get (objectOf m) k = default JUndefined (m !! k).
Proof. unfold js_get, objectOf. rewrite assoc_map_to_list. reflexivity. Qed.

(** A [findOneAndUpdate] keyed by a subject id leaves every record of
    another key as it is. *)
Lemma findOneAndUpdate_others t sub upd upsert docs i d :
  docs !! i = Some d -> d !! "keycloakId" <> Some (JStr sub) ->
  snd (findOneAndUpdate t "keycloakId" (JStr sub) upd upsert docs) !! i = Some d.
Proof.
  intros Hd Hk.
  destruct (findOneAndUpdate t "keycloakId" (JStr sub) upd upsert docs)
    as [r docs'] eqn:E. cbn [snd].
  destruct (findOneAndUpdate_cases _ _ _ _ _ _ _ _ E)
    as [(m & _ & -> & _) | (q' & casted & Hq & Hc & [H|[H|H]])].
  - exact Hd.
  - destruct H as (i0 & d0 & Hf & Hd0 & _ & ->).
    rewrite castFilter_text in Hq. injection Hq as <-.
    destruct (decide (i0 = i)) as [->|Hi].
    + destruct (findIndex_Some _ _ _ Hf) as (d1 & Hd1 & Hp & _).
      rewrite Hd in Hd1. injection Hd1 as <-.
      apply fieldMatches_text in Hp. contradiction.
    + rewrite list_lookup_insert_ne by exact Hi. exact Hd.
  - destruct H as (_ & _ & _ & ->). exact Hd.
  - destruct H as (_ & _ & _ & ->).
    rewrite lookup_app_l by (eapply lookup_lt_Some; eauto). exact Hd.
Qed.


Lemma otherRecord_unknown : unknownSubject "f3b1c2d4" [otherRecord].
Proof.
  intros [|j] d Hj; [injection Hj as <-; discriminate|discriminate].
Defined.


(** ** Invariants of the three writing operations *)

Lemma keysOf_insert docs i (d d' : gmap string JsValue) :
  docs !! i = Some d -> d' !! "keycloakId" = d !! "keycloakId" ->
  keysOf (<[i := d']> docs) = keysOf docs.
Proof.
  intros Hd Hk. unfold keysOf.
  change (map (fun d0 : gmap string JsValue => d0 !! "keycloakId"))
    with (fmap (M:=list) (fun d0 : gmap string JsValue => d0 !! "keycloakId")).
  rewrite list_fmap_insert, Hk. apply list_insert_id.
  rewrite list_lookup_fmap, Hd. reflexivity.
Qed.

Lemma findOneAndUpdate_keys t q upd upsert docs :
  upd !! "keycloakId" = None ->
  keysOf (snd (findOneAndUpdate t "keycloakId" q upd upsert docs)) = keysOf docs
  \/ exists q',
       keysOf (snd (findOneAndUpdate t "keycloakId" q upd upsert docs))
       = (keysOf docs ++ [Some q'])%list
       /\ ~ In (Some q') (keysOf docs).
Proof.
  intros Hupd.
  destruct (findOneAndUpdate t "keycloakId" q upd upsert docs) as [r docs'] eqn:E.
  cbn [snd].
  destruct (findOneAndUpdate_cases _ _ _ _ _ _ _ _ E)
    as [(m & _ & -> & _) | (q' & casted & Hq & Hc & [H|[H|H]])].
  - left. reflexivity.
  - destruct H as (i & d & _ & Hd & _ & ->). left.
    apply (keysOf_insert docs i d); [exact Hd|].
    apply stampUpdate_frame; [|discriminate].
    eapply castUpdate_absent; eauto.
  - destruct H as (_ & _ & _ & ->). left. reflexivity.
  - destruct H as (Hn & _ & _ & ->). right. exists q'. split.
    + unfold keysOf. rewrite map_app. cbn [map].
      rewrite insertedDocument_key; [reflexivity|].
      eapply castUpdate_absent; eauto.
    + unfold keysOf. intros Hin. apply in_map_iff in Hin as (d & Hk & Hin).
      apply list_elem_of_In, list_elem_of_lookup in Hin as [j Hj].
      pose proof (findIndex_None _ _ Hn j d Hj) as Hm.
      unfold fieldMatches in Hm. rewrite Hk in Hm.
      destruct (castFilter_shape _ _ Hq) as [->|[s ->]]; [discriminate|].
      rewrite String.eqb_refl in Hm. discriminate.
Qed.

Lemma applyOp_keys t op docs :
  keysOf (applyOp t op docs) = keysOf docs
  \/ exists q', keysOf (applyOp t op docs) = (keysOf docs ++ [Some q'])%list
                /\ ~ In (Some q') (keysOf docs).
Proof.
  destruct op as [ud|kid b|kid]; cbn [applyOp].
  - unfold syncUserFromKeycloak.
    pose proof (findOneAndUpdate_keys t (ud_keycloakId ud) (syncFields t ud)
                  true docs (syncFields_no_key t ud)) as H.
    destruct (findOneAndUpdate t "keycloakId" (ud_keycloakId ud)
                (syncFields t ud) true docs). exact H.
  - unfold updateUserProfile.
    pose proof (findOneAndUpdate_keys t kid (updateFieldsOf b) false docs
                  (updateFieldsOf_not_allowed b "keycloakId" eq_refl)) as H.
    destruct (findOneAndUpdate t "keycloakId" kid (updateFieldsOf b) false docs).
    exact H.
  - unfold deleteUser.
    pose proof (findOneAndUpdate_keys t kid {["enabled" := JBool false]} false
                  docs eq_refl) as H.
    destruct (findOneAndUpdate t "keycloakId" kid {["enabled" := JBool false]}
                false docs). exact H.
Qed.

(** X8.  The service keeps identity keys unique without help from the
    index: if no two records of the store share a [keycloakId], no
    sequence of synchronizations, profile updates and soft deletes makes
    two records share one. *)
Theorem identity_keys_stay_unique (ops : list (Tick * Operation))
    (docs : list (gmap string JsValue)) :
  List.NoDup (keysOf docs) -> List.NoDup (keysOf (applyOps ops docs)).
Proof.
  revert docs. induction ops as [|[t op] ops IH]; intros docs Hnd; [exact Hnd|].
  unfold applyOps. cbn [fold_left]. apply IH.
  destruct (applyOp_keys t op docs) as [->|(q' & -> & Hnew)]; [exact Hnd|].
  apply NoDup_ListNoDup. apply NoDup_app. split; [apply NoDup_ListNoDup; exact Hnd|].
  split; [|apply NoDup_singleton].
  intros x Hx Hx'. apply list_elem_of_singleton in Hx'. subst x.
  apply Hnew. apply list_elem_of_In. exact Hx.
Qed.

Lemma identity_keys_stay_unique_witness :
  List.NoDup
    (keysOf (applyOps
               [(sampleTick, OpSync (userDataOf sampleUser));
                (laterTick, OpSync (userDataOf sampleUser));
                (laterTick, OpDelete (JStr "f3b1c2d4"))]
               [otherRecord])).
Proof.
  apply identity_keys_stay_unique.
  apply NoDup_ListNoDup. apply NoDup_singleton.
Defined.

(** X9.  A request authenticated as one subject never changes, moves or
    removes the record of another: on every protected route, whatever the
    request holds, each record whose [keycloakId] is not the caller's is
    in the store afterwards, at its place, as it was. *)
Theorem other_subjects_untouched
    (jwt_verify : string -> VerifyOptions -> VerifyResult)
    (isEmail : string -> bool) (normalizeEmail : string -> JsValue)
    (env : Env) (r : Route) (t : Tick) (req : Request) (u : UserInfo)
    (sub : string) (docs : list (gmap string JsValue)) (i : nat)
    (d : gmap string JsValue) :
  user req = Some u ->
  ui_keycloakId u = JStr sub ->
  docs !! i = Some d ->
  d !! "keycloakId" <> Some (JStr sub) ->
  store (runSteps jwt_verify isEmail normalizeEmail env (afterVerifier r)
           t req docs) !! i = Some d.
Proof.
  intros Hu Hsub Hd Hk.
  destruct r; unfold afterVerifier; cbn [routeChain tl runSteps runStep].
  - unfold getCurrentUser. rewrite Hu. unfold syncUserFromKeycloak.
    cbn [ud_keycloakId]. rewrite Hsub.
    pose proof (findOneAndUpdate_others t sub
                  (syncFields t
                     {| ud_keycloakId := JStr sub; ud_email := ui_email u;
                        ud_username := ui_username u;
                        ud_firstName := ui_firstName u;
                        ud_lastName := ui_lastName u;
                        ud_emailVerified := ui_emailVerified u;
                        ud_enabled := JBool true |}) true docs i d Hd Hk) as H.
    match goal with
    | |- context [findOneAndUpdate ?a ?b ?c ?e ?f ?g] =>
        destruct (findOneAndUpdate a b c e f g) as [[[x|]|m] docs']
    end; exact H.
  - destruct (validateUpdateUser_cases isEmail normalizeEmail req)
      as [(res & -> & _) | (b' & ->)]; [exact Hd|].
    unfold updateCurrentUser. cbn [user set_body body]. rewrite Hu, Hsub.
    unfold updateUserProfile.
    pose proof (findOneAndUpdate_others t sub (updateFieldsOf b') false docs
                  i d Hd Hk) as H.
    destruct (findOneAndUpdate t "keycloakId" (JStr sub) (updateFieldsOf b')
                false docs) as [[[x|]|m] docs']; exact H.
  - unfold deleteCurrentUser. rewrite Hu, Hsub. unfold deleteUser.
    pose proof (findOneAndUpdate_others t sub {["enabled" := JBool false]}
                  false docs i d Hd Hk) as H.
    destruct (findOneAndUpdate t "keycloakId" (JStr sub)
                {["enabled" := JBool false]} false docs) as [[[x|]|m] docs'];
      exact H.
  - exact Hd.
  - exact Hd.
  - exact Hd.
Qed.

Lemma other_subjects_untouched_witness :
  store (runSteps sampleVerify sampleIsEmail sampleNormalizeEmail sampleEnv
           (afterVerifier DELETE_me) laterTick (authedRequest [])
           [otherRecord; sampleRecord]) !! 0%nat = Some otherRecord.
Proof.
  exact (other_subjects_untouched sampleVerify sampleIsEmail
           sampleNormalizeEmail sampleEnv DELETE_me laterTick (authedRequest [])
           sampleUser "f3b1c2d4" [otherRecord; sampleRecord] 0 otherRecord
           eq_refl eq_refl eq_refl ltac:(discriminate)).
Defined.

(** ** The by-record handlers *)

Lemma wrapped_status (prefix0 : ascii) (prefix m : string) :
  prefix0 <> "U"%char -> notFoundOr500 (String prefix0 prefix +:+ m) = 500%Z.
Proof.
  intros Hne. unfold notFoundOr500.
  change (String prefix0 prefix +:+ m) with (String prefix0 (prefix +:+ m)).
  cbn [String.eqb].
  destruct (Ascii.eqb_spec prefix0 "U"%char); [contradiction|reflexivity].
Qed.

(** X10.  [PUT /api/users/me] and [DELETE /api/users/me] never answer
    404: a caller whose record does not exist is answered 500, by the
    delete handler with the message [Failed to delete user: User not
    found], and nothing is written. *)
Theorem missing_profile_is_500 (t : Tick) (req : Request) (u : UserInfo)
    (sub : string) (docs : list (gmap string JsValue)) :
  user req = Some u ->
  ui_keycloakId u = JStr sub ->
  unknownSubject sub docs ->
  (forall t' req' docs',
     status (fst (updateCurrentUser t' req' docs')) <> 404%Z
     /\ status (fst (deleteCurrentUser t' req' docs')) <> 404%Z)
  /\ status (fst (updateCurrentUser t req docs)) = 500%Z
  /\ snd (updateCurrentUser t req docs) = docs
  /\ deleteCurrentUser t req docs
     = (errorEnvelope 500 "Failed to delete user: User not found"
          "Failed to delete user: User not found", docs).
Proof.
  intros Hu Hsub Hnew.
  pose proof (unknownSubject_findIndex sub docs Hnew) as Hf.
  split.
  { intros t' req' docs'. split.
    - unfold updateCurrentUser. destruct (user req') as [u'|]; [|discriminate].
      unfold updateUserProfile.
      destruct (findOneAndUpdate t' "keycloakId" (ui_keycloakId u')
                  (updateFieldsOf (body req')) false docs')
        as [[[x|]|m] ds]; cbn [rethrow fst status errorEnvelope successEnvelope];
        try discriminate;
        rewrite wrapped_status by discriminate; discriminate.
    - unfold deleteCurrentUser. destruct (user req') as [u'|]; [|discriminate].
      unfold deleteUser.
      destruct (findOneAndUpdate t' "keycloakId" (ui_keycloakId u')
                  {["enabled" := JBool false]} false docs')
        as [[[x|]|m] ds]; cbn [rethrow fst status errorEnvelope];
        try discriminate;
        rewrite wrapped_status by discriminate; discriminate. }
  split; [|split].
  - unfold updateCurrentUser, updateUserProfile, findOneAndUpdate.
    rewrite Hu, Hsub, castFilter_text, Hf.
    destruct (castUpdate userSchema (updateFieldsOf (body req)));
      cbn [rethrow fst status errorEnvelope];
      apply wrapped_status; discriminate.
  - unfold updateCurrentUser, updateUserProfile, findOneAndUpdate.
    rewrite Hu, Hsub, castFilter_text, Hf.
    destruct (castUpdate userSchema (updateFieldsOf (body req))); reflexivity.
  - unfold deleteCurrentUser, deleteUser, findOneAndUpdate.
    rewrite Hu, Hsub, castFilter_text, cast_disable, Hf. reflexivity.
Qed.

Lemma missing_profile_is_500_witness :
  status (fst (updateCurrentUser laterTick
                 (authedRequest [("firstName", JStr "Ann")]) [otherRecord]))
  = 500%Z
  /\ snd (updateCurrentUser laterTick
            (authedRequest [("firstName", JStr "Ann")]) [otherRecord])
     = [otherRecord]
  /\ deleteCurrentUser laterTick (authedRequest [("firstName", JStr "Ann")])
       [otherRecord]
     = (errorEnvelope 500 "Failed to delete user: User not found"
          "Failed to delete user: User not found", [otherRecord]).
Proof.
  exact (proj2
    (missing_profile_is_500 laterTick
       (authedRequest [("firstName", JStr "Ann")]) sampleUser "f3b1c2d4"
       [otherRecord] eq_refl eq_refl otherRecord_unknown)).
Defined.

Lemma firstWithId_found id docs i d :
  firstWithId id docs i d -> findById id docs = Some d.
Proof.
  intros (Hd & Hk & Hlt). unfold findById. rewrite find_findIndex.
  rewrite (findIndex_first _ docs i d Hd).
  - cbn [mbind option_bind]. exact Hd.
  - apply fieldMatches_text. exact Hk.
  - intros j d0 Hj Hl.
    destruct (fieldMatches "_id" (JStr (toLowerCase id)) d0) eqn:E;
      [|reflexivity].
    apply fieldMatches_text in E. exfalso. exact (Hlt j d0 Hj Hl E).
Qed.

Lemma toObject_lookup (d : gmap string JsValue) k :
  k <> "preferences" -> toObject d !! k = d !! k.
Proof.
  intros Hk. unfold toObject.
  destruct (d !! "preferences") as [[]|]; try reflexivity.
  apply lookup_insert_ne. congruence.
Qed.

Lemma toObject_preferences (d : gmap string JsValue) entries :
  d !! "preferences" = Some (JObj entries) ->
  toObject d !! "preferences" = Some (JObj []).
Proof.
  intros H. unfold toObject. rewrite H. apply lookup_insert_eq.
Qed.

Lemma toJSON_lookup (d : gmap string JsValue) k :
  k <> "id" -> k <> "_id" -> k <> "__v" ->
  toJSON d !! k = toObject d !! k.
Proof.
  intros H1 H2 H3. unfold toJSON. cbv zeta.
  rewrite lookup_insert_ne by congruence.
  rewrite !lookup_delete_ne by congruence. reflexivity.
Qed.

(** X11.  [GET /api/users/:id] of an existing record is answered 200
    with the record as [toJSON] shows it: [id] holds the stored [_id],
    there is no [_id] and no [__v], every other field but [preferences]
    is as stored, and a stored map of preferences is answered as the
    empty object whatever it holds.  The hexadecimal digits of the id
    are compared without regard to case. *)
Theorem record_view (req : Request) (docs : list (gmap string JsValue))
    (i : nat) (d : gmap string JsValue) :
  ObjectId_isValid (params_id req) = true ->
  firstWithId (params_id req) docs i d ->
  let data := js_get (json (getUserByIdHandler req docs)) "data" in
  status (getUserByIdHandler req docs) = 200%Z
  /\ js_get data "id" = JStr (toLowerCase (params_id req))
  /\ js_get data "_id" = JUndefined
  /\ js_get data "__v" = JUndefined
  /\ (forall k, k <> "id" -> k <> "_id" -> k <> "__v" ->
        k <> "preferences" ->
        js_get data k = default JUndefined (d !! k))
  /\ (forall entries, d !! "preferences" = Some (JObj entries) ->
        js_get data "preferences" = JObj []).
Proof.
  intros Hvalid Hfirst data.
  assert (E : getUserById (params_id req) docs = Ok d).
  { unfold getUserById. rewrite Hvalid, (firstWithId_found _ _ _ _ Hfirst).
    reflexivity. }
  subst data. unfold getUserByIdHandler. rewrite E.
  change (js_get (json (successEnvelope ?m ?x)) "data") with x.
  cbn [successEnvelope status json js_get assoc String.eqb Ascii.eqb
       Bool.eqb default from_option id].
  split; [reflexivity|].
  destruct Hfirst as (_ & Hid & _).
  rewrite !js_get_objectOf.
  split.
  { unfold toJSON. cbv zeta. rewrite lookup_insert_eq.
    rewrite toObject_lookup by discriminate. rewrite Hid. reflexivity. }
  split.
  { unfold toJSON. cbv zeta. rewrite lookup_insert_ne by discriminate.
    rewrite lookup_delete_ne by discriminate.
    rewrite lookup_delete_eq. reflexivity. }
  split.
  { unfold toJSON. cbv zeta. rewrite lookup_insert_ne by discriminate.
    rewrite lookup_delete_eq. reflexivity. }
  split.
  { intros k H1 H2 H3 H4. rewrite js_get_objectOf.
    rewrite toJSON_lookup by assumption.
    rewrite toObject_lookup by assumption. reflexivity. }
  intros entries Hp.
  rewrite toJSON_lookup by discriminate.
  rewrite (toObject_preferences d entries Hp). reflexivity.
Qed.

Lemma recordWithPreferences_firstId :
  firstWithId "507F1F77BCF86CD799439011" [otherRecord; recordWithPreferences]
    1 recordWithPreferences.
Proof.
  split; [reflexivity|]. split; [reflexivity|].
  intros [|j] d0 Hj Hl; [|lia]. injection Hl as <-. discriminate.
Defined.

Lemma record_view_witness :
  let req := set_params_id "507F1F77BCF86CD799439011" (sampleRequest None) in
  let docs := [otherRecord; recordWithPreferences] in
  let data := js_get (json (getUserByIdHandler req docs)) "data" in
  recordWithPreferences !! "preferences"
  = Some (JObj [("theme", JStr "dark")])
  /\ status (getUserByIdHandler req docs) = 200%Z
  /\ js_get data "id" = JStr "507f1f77bcf86cd799439011"
  /\ js_get data "email" = JStr "test@example.com"
  /\ js_get data "preferences" = JObj [].
Proof.
  pose proof (record_view
                (set_params_id "507F1F77BCF86CD799439011" (sampleRequest None))
                [otherRecord; recordWithPreferences] 1 recordWithPreferences
                eq_refl recordWithPreferences_firstId)
    as (Hs & Hid & _ & _ & Hk & Hp).
  split; [reflexivity|]. split; [exact Hs|]. split; [exact Hid|].
  split.
  - exact (Hk "email" ltac:(discriminate) ltac:(discriminate)
             ltac:(discriminate) ltac:(discriminate)).
  - exact (Hp _ eq_refl).
Defined.

(** X12.  A soft delete does not hide the record: after an authenticated
    [DELETE /api/users/me] the caller's record is still answered by
    [GET /api/users/:id] with 200, now with [enabled] set to [false], and
    the store holds as many records as before. *)
Theorem soft_deleted_record_still_served (t : Tick) (req : Request)
    (u : UserInfo) (sub id : string) (docs : list (gmap string JsValue))
    (i : nat) (d : gmap string JsValue) :
  user req = Some u ->
  ui_keycloakId u = JStr sub ->
  firstWithKey sub docs i d ->
  ObjectId_isValid id = true ->
  firstWithId id docs i d ->
  let docs' := snd (deleteCurrentUser t req docs) in
  let answer := getUserByIdHandler (set_params_id id req) docs' in
  length docs' = length docs
  /\ status answer = 200%Z
  /\ js_get (js_get (json answer) "data") "enabled" = JBool false
  /\ js_get (js_get (json answer) "data") "keycloakId" = JStr sub.
Proof.
  intros Hu Hsub Hkey Hvalid Hid docs' answer.
  set (d' := stampUpdate t {["enabled" := JBool false]} d).
  assert (E : docs' = <[i := d']> docs).
  { subst docs'. unfold deleteCurrentUser, deleteUser. rewrite Hu, Hsub.
    rewrite (findOneAndUpdate_existing t sub _ false docs i d _ Hkey cast_disable).
    reflexivity. }
  assert (Hfirst' : firstWithId id docs' i d').
  { rewrite E. destruct Hid as (Hd & Hk & Hlt). split; [|split].
    - apply list_lookup_insert_eq. eapply lookup_lt_Some; eauto.
    - unfold d'. rewrite stampUpdate_frame; [exact Hk| |discriminate].
      apply lookup_singleton_ne. discriminate.
    - intros j d0 Hj Hl. rewrite list_lookup_insert_ne in Hl by lia.
      exact (Hlt j d0 Hj Hl). }
  assert (Hget : getUserById id docs' = Ok d').
  { unfold getUserById. rewrite Hvalid, (firstWithId_found _ _ _ _ Hfirst').
    reflexivity. }
  split; [rewrite E; apply length_insert|].
  subst answer. unfold getUserByIdHandler. cbn [params_id set_params_id].
  rewrite Hget.
  change (js_get (json (successEnvelope ?m ?x)) "data") with x.
  split; [reflexivity|].
  rewrite !js_get_objectOf.
  rewrite !toJSON_lookup by discriminate.
  rewrite !toObject_lookup by discriminate.
  split.
  - unfold d'. erewrite stampUpdate_set; [reflexivity| |discriminate].
    apply lookup_singleton_eq.
  - unfold d'. rewrite stampUpdate_frame;
      [|apply lookup_singleton_ne; discriminate|discriminate].
    destruct Hkey as (_ & -> & _). reflexivity.
Qed.

Lemma sampleRecord_firstId' :
  firstWithId "507f1f77bcf86cd799439011" [otherRecord; sampleRecord] 1
    sampleRecord.
Proof.
  split; [reflexivity|]. split; [reflexivity|].
  intros [|j] d0 Hj Hl; [|lia]. injection Hl as <-. discriminate.
Defined.

Lemma soft_deleted_record_still_served_witness :
  let docs' := snd (deleteCurrentUser laterTick (authedRequest [])
                      [otherRecord; sampleRecord]) in
  let answer :=
    getUserByIdHandler
      (set_params_id "507f1f77bcf86cd799439011" (authedRequest [])) docs' in
  length docs' = length [otherRecord; sampleRecord]
  /\ status answer = 200%Z
  /\ js_get (js_get (json answer) "data") "enabled" = JBool false
  /\ js_get (js_get (json answer) "data") "keycloakId" = JStr "f3b1c2d4".
Proof.
  exact (soft_deleted_record_still_served laterTick (authedRequest [])
           sampleUser "f3b1c2d4" "507f1f77bcf86cd799439011"
           [otherRecord; sampleRecord] 1 sampleRecord eq_refl eq_refl
           sampleRecord_first eq_refl sampleRecord_firstId').
Defined.



(** ** Listing, continued *)










(** ** The validators, continued *)

Lemma cast_firstName x :
  castUpdate userSchema (updateFieldsOf [("firstName", JStr x)])
  = Some {["firstName" := JStr (trim x)]}.
Proof. reflexivity. Qed.

(** X17.  A profile update that submits only a first name of 1 to 50
    characters is answered 200 and stores the name trimmed, white space
    inside it kept; a first name that is empty or longer than 50
    characters is answered 400 and nothing is written.  The length is
    checked before the trimming, so a name of white space only is
    accepted and stored as the empty text. *)
Theorem profile_update_stores_trimmed_name
    (jwt_verify : string -> VerifyOptions -> VerifyResult)
    (isEmail : string -> bool) (normalizeEmail : string -> JsValue)
    (env : Env) (t : Tick) (req : Request) (u : UserInfo) (sub s : string)
    (docs : list (gmap string JsValue)) (i : nat) (d : gmap string JsValue) :
  user req = Some u ->
  ui_keycloakId u = JStr sub ->
  firstWithKey sub docs i d ->
  body req = [("firstName", JStr s)] ->
  let o := runSteps jwt_verify isEmail normalizeEmail env updateChain t req docs in
  (isLength 1 50 s = true ->
   status (response o) = 200%Z
   /\ exists d', store o = <[i := d']> docs
                 /\ d' !! "firstName" = Some (JStr (trim s))
                 /\ d' !! "updatedAt" = Some (JNum (stamp_now t)))
  /\ (isLength 1 50 s = false ->
      status (response o) = 400%Z /\ store o = docs
      /\ entered o = [MW_validateUpdateUser]).
Proof.
  intros Hu Hsub Hfirst Hbody o. subst o.
  unfold updateChain. cbn [runSteps runStep].
  unfold validateUpdateUser. rewrite Hbody.
  rewrite (runChain_absent "email") by reflexivity.
  rewrite (runChain_absent "username") by reflexivity.
  rewrite (runChain_present "firstName" _ _ _ [("firstName", JStr s)]
             (JStr s) eq_refl) by discriminate.
  cbn [ev_check ev_values flat_map ev_toString jsText app setField
       ev_sanitize String.eqb Ascii.eqb Bool.eqb].
  split.
  - intros Hlen. rewrite Hlen.
    rewrite (runChain_absent "lastName") by reflexivity.
    rewrite (runChain_absent "phoneNumber") by reflexivity.
    rewrite (runChain_absent "preferences") by reflexivity.
    cbn [app fst snd handleValidationErrors].
    unfold updateCurrentUser. cbn [user set_body body]. rewrite Hu, Hsub.
    unfold updateUserProfile.
    rewrite (findOneAndUpdate_existing t sub _ false docs i d _ Hfirst
               (cast_firstName (trim s))).
    cbn [rethrow response store status successEnvelope].
    split; [reflexivity|].
    eexists. split; [reflexivity|].
    rewrite trim_idempotent. split.
    + apply stampUpdate_set; [apply lookup_singleton_eq|discriminate].
    + unfold stampUpdate. apply lookup_insert_eq.
  - intros Hlen. rewrite Hlen.
    rewrite (runChain_absent "lastName") by reflexivity.
    rewrite (runChain_absent "phoneNumber") by reflexivity.
    rewrite (runChain_absent "preferences") by reflexivity.
    cbn [app fst snd handleValidationErrors response store entered status].
    repeat split; reflexivity.
Qed.

Lemma profile_update_stores_trimmed_name_witness :
  let o := runSteps sampleVerify sampleIsEmail sampleNormalizeEmail sampleEnv
             updateChain laterTick (authedRequest [("firstName", JStr "  Ann Lee ")])
             [otherRecord; sampleRecord] in
  status (response o) = 200%Z
  /\ exists d', store o = <[1%nat := d']> [otherRecord; sampleRecord]
                /\ d' !! "firstName" = Some (JStr (trim "  Ann Lee "))
                /\ d' !! "updatedAt" = Some (JNum (stamp_now laterTick)).
Proof.
  exact (proj1
    (profile_update_stores_trimmed_name sampleVerify sampleIsEmail
       sampleNormalizeEmail sampleEnv laterTick
       (authedRequest [("firstName", JStr "  Ann Lee ")]) sampleUser "f3b1c2d4"
       "  Ann Lee " [otherRecord; sampleRecord] 1 sampleRecord eq_refl eq_refl
       sampleRecord_first eq_refl) eq_refl).
Defined.

(** X18.  [validateCreateUser] requires a user name: a body without a
    [username] field is answered 400, whatever else it holds and whatever
    the e-mail check says. *)
Theorem create_requires_username
    (isEmail : string -> bool) (normalizeEmail : string -> JsValue)
    (req : Request) :
  assoc "username" (body req) = None ->
  exists res,
    validateCreateUser isEmail normalizeEmail req = Respond res
    /\ status res = 400%Z
    /\ js_get (json res) "message" = JStr "Validation failed".
Proof.
  intros Hno. unfold validateCreateUser.
  set (st1 := runRequiredChain "email" _ _ _).
  assert (Hv : fieldValue (snd st1) "username" = JUndefined).
  { subst st1. unfold runRequiredChain, fieldValue. cbn [snd].
    rewrite assoc_setField. cbn [String.eqb Ascii.eqb Bool.eqb].
    rewrite Hno. reflexivity. }
  set (st2 := runRequiredChain "username" _ _ st1).
  assert (H2 : exists e es b2, st2 = (e :: es, b2)).
  { subst st2. destruct st1 as [errs b1]. cbn [snd] in Hv.
    unfold runRequiredChain. rewrite Hv.
    cbn [ev_check ev_values flat_map ev_toString jsText isLength
         String.length Nat.leb andb app].
    destruct errs; cbn [app]; eauto. }
  destruct H2 as (e & es & b2 & ->).
  assert (Hkeep : forall field validators sanitizer e es b,
            exists e' es' b',
              runChain field validators sanitizer (e :: es, b) = (e' :: es', b')).
  { intros field validators sanitizer e0 es0 b. unfold runChain.
    destruct (fieldValue b field); cbn [app]; eauto. }
  destruct (Hkeep "firstName"
              (ev_check "firstName"
                 "First name must be between 1 and 50 characters" (isLength 1 50))
              (Some (ev_sanitize trim)) e es b2) as (e3 & es3 & b3 & ->).
  destruct (Hkeep "lastName"
              (ev_check "lastName"
                 "Last name must be between 1 and 50 characters" (isLength 1 50))
              (Some (ev_sanitize trim)) e3 es3 b3) as (e4 & es4 & b4 & ->).
  destruct (Hkeep "phoneNumber"
              (ev_check "phoneNumber" "Phone number must be in E.164 format"
                 matchesPhone)
              None e4 es4 b4) as (e5 & es5 & b5 & ->).
  cbn [fst snd handleValidationErrors]. eexists. split; [reflexivity|].
  split; reflexivity.
Qed.

Lemma create_requires_username_witness :
  exists res,
    validateCreateUser sampleIsEmail sampleNormalizeEmail
      (authedRequest [("email", JStr "test@example.com")]) = Respond res
    /\ status res = 400%Z
    /\ js_get (json res) "message" = JStr "Validation failed".
Proof.
  exact (create_requires_username sampleIsEmail sampleNormalizeEmail
           (authedRequest [("email", JStr "test@example.com")]) eq_refl).
Defined.

Lemma set_body_same req : set_body (body req) req = req.
Proof. destruct req; reflexivity. Qed.

(** X19.  [validateQueryParams] reads the body, not the query: a request
    whose body has neither [page] nor [limit] passes whatever its query
    holds, and a body whose [limit] is a text of digits passes exactly
    when its value is between 1 and 100. *)
Theorem query_rules_read_the_body (req : Request) :
  assoc "page" (body req) = None ->
  (assoc "limit" (body req) = None -> validateQueryParams req = Next req)
  /\ (forall s n,
        assoc "limit" (body req) = Some (JStr s) ->
        intOfText s = Some n ->
        (validateQueryParams req = Next req <-> (1 <= n <= 100)%Z)
        /\ (~ (1 <= n <= 100)%Z ->
            exists res, validateQueryParams req = Respond res
                        /\ status res = 400%Z)).
Proof.
  intros Hpage. unfold validateQueryParams.
  rewrite (runChain_absent "page") by exact Hpage. split.
  - intros Hlimit. rewrite (runChain_absent "limit") by exact Hlimit.
    cbn [fst snd handleValidationErrors]. rewrite set_body_same. reflexivity.
  - intros s n Hlimit Hn.
    rewrite (runChain_present "limit" _ _ _ _ (JStr s) Hlimit) by discriminate.
    cbn [fst snd ev_check ev_values flat_map ev_toString jsText app].
    unfold isInt. rewrite Hn.
    destruct (Z.leb_spec 1 n) as [Hlo|Hlo], (Z.leb_spec n 100) as [Hhi|Hhi];
      cbn [andb app fst snd handleValidationErrors];
      (split; [split; [intros Hx; try discriminate; lia
                      |intros Hx; try lia; rewrite set_body_same; reflexivity]
              |intros Hx; try lia; eexists; split; reflexivity]).
Qed.

Lemma query_rules_read_the_body_witness :
  validateQueryParams
    {| authorization := None; params_id := ""; query := {["limit" := "101"]};
       body := []; user := None |}
  = Next {| authorization := None; params_id := "";
            query := {["limit" := "101"]}; body := []; user := None |}.
Proof.
  exact (proj1
    (query_rules_read_the_body
       {| authorization := None; params_id := ""; query := {["limit" := "101"]};
          body := []; user := None |} eq_refl) eq_refl).
Defined.

(** ** The frontend *)

(** X20.  Routing settles without a loop and shows the protected screens
    to authenticated users only: once loading is over, every location is
    rendered after at most two redirects, as the login screen when the
    user is not authenticated, as the profile screen at the profile
    location and as the dashboard everywhere else when the user is
    authenticated; while loading, every location shows the spinner. *)
Theorem routing_settles (state : AuthState) (location : Location) :
  settle 2 state location
  = Some (if isLoading state then LoadingElement
          else if isAuthenticated state then
            match location with
            | AtProfile => Show ProfileScreen
            | _ => Show DashboardScreen
            end
          else Show LoginScreen).
Proof.
  destruct state as [kc auth loading usr tok err].
  destruct loading, auth, location; reflexivity.
Qed.

Lemma orElse_same a : orElse a a = a.
Proof. unfold orElse. destruct (configured a); reflexivity. Qed.

(** X21.  The reducer and the protected pages: after [setUnauthenticated]
    or [clearAuthState] the token and the user are cleared, and no location
    shows the dashboard or the profile any more; the state turns to
    authenticated through [setAuthenticated],
    [initializeKeycloak.fulfilled] or [checkAuth.fulfilled] only; and
    [setAuthenticated] takes the token of the Keycloak instance it is
    given, present or not. *)
Theorem reducer_guards_protected_pages (state : AuthState)
    (action : AuthAction) :
  let state' := authReducer state action in
  ((action = ClearAuthState \/ exists k, action = SetUnauthenticated k) ->
   st_token state' = None /\ st_user state' = JNull
   /\ isAuthenticated state' = false
   /\ forall fuel location screen,
        settle fuel state' location = Some (Show screen) ->
        screen = LoginScreen)
  /\ (isAuthenticated state = false -> isAuthenticated state' = true ->
      (exists k, action = SetAuthenticated k)
      \/ (exists k, action = InitializeFulfilled k true)
      \/ action = CheckAuthFulfilled true)
  /\ (forall k, action = SetAuthenticated k ->
        st_token state' = tokenOf k /\ isLoading state' = false).
Proof.
  intros state'. split; [|split].
  - assert (Hlogin : forall s, isAuthenticated s = false ->
              forall fuel location screen,
                settle fuel s location = Some (Show screen) ->
                screen = LoginScreen).
    { intros s Hs fuel. induction fuel as [|fuel IH]; intros location screen;
        cbn [settle]; unfold App, ProtectedRoute; rewrite Hs;
        destruct (isLoading s), location; cbn [negb];
        try discriminate; try (intros [= <-]; reflexivity); try apply IH. }
    intros [->|[k ->]]; subst state'; cbn [authReducer st_token st_user
      isAuthenticated]; (repeat split; [reflexivity..|]); apply Hlogin;
      reflexivity.
  - subst state'. intros Hoff Hon.
    destruct action; cbn [authReducer isAuthenticated] in Hon;
      try congruence; eauto.
    + subst authenticated. eauto.
    + subst payload. eauto.
  - intros k ->. subst state'. cbn [authReducer st_token isLoading].
    rewrite orElse_same. split; reflexivity.
Qed.
